(** * Load's Search: crawler, metadata store, activity log, index builder
    and query engine of [src/loads_search], embedded in Rocq.

    Conventions of the embedding.
    - A Python [str] is a [string]; a character is a code point below 256,
      and [isspace] / [lower] below are Python's on that range.
    - A dict of the record formats ([{path, mtime, size}],
      [{type, timestamp, command, cwd}]) is a record whose fields are
      [option]s: [None] is what [d.get(key)] returns for a missing key.
      Values of present keys have the types the module docstrings give.
    - The file system, the third-party libraries (Whoosh, chardet,
      pdfplumber, PyPDF2, python-docx) and the clock are read through
      oracle records; the data directory is an explicit store threaded
      through the operations. *)

From Stdlib Require Import String Ascii List ZArith QArith Lia Bool.
From Stdlib Require Import DecimalString DecimalNat.
From stdpp Require Import base gmap strings list.

Set Warnings "-clear-no-such-hyp".

Close Scope Q_scope.
Open Scope string_scope.
Open Scope list_scope.

(** ** Python string primitives used by the sources *)
Module Py.

(** [str.isspace] on one character (code points below 256). *)
Definition isspace (c : ascii) : bool :=
  let n := nat_of_ascii c in
  (((9 <=? n) && (n <=? 13)) || ((28 <=? n) && (n <=? 32))
   || (n =? 133) || (n =? 160))%nat.

Fixpoint lstrip (s : string) : string :=
  match s with
  | EmptyString => EmptyString
  | String c r => if isspace c then lstrip r else s
  end.

Fixpoint rstrip (s : string) : string :=
  match s with
  | EmptyString => EmptyString
  | String c r =>
      match rstrip r with
      | EmptyString => if isspace c then EmptyString else String c EmptyString
      | r' => String c r'
      end
  end.

(** [s.strip()] *)
Definition strip (s : string) : string := rstrip (lstrip s).

Definition lower_char (c : ascii) : ascii :=
  let n := nat_of_ascii c in
  if (((65 <=? n) && (n <=? 90))
      || ((192 <=? n) && (n <=? 222) && negb (n =? 215)))%nat
  then ascii_of_nat (n + 32) else c.

(** [s.lower()] *)
Fixpoint lower (s : string) : string :=
  match s with
  | EmptyString => EmptyString
  | String c r => String (lower_char c) (lower r)
  end.

(** [s.replace(a, b)] for one-character [a] and [b]. *)
Fixpoint replace_char (a b : ascii) (s : string) : string :=
  match s with
  | EmptyString => EmptyString
  | String c r =>
      String (if Ascii.eqb c a then b else c) (replace_char a b r)
  end.

(** [s[:n]] *)
Fixpoint take (n : nat) (s : string) : string :=
  match n, s with
  | S n', String c r => String c (take n' r)
  | _, _ => EmptyString
  end.

(** [s[n:]] *)
Fixpoint drop (n : nat) (s : string) : string :=
  match n, s with
  | S n', String _ r => drop n' r
  | _, _ => s
  end.

(** [str(i)] for a non-negative integer. *)
Definition str_of_nat (i : nat) : string :=
  NilEmpty.string_of_uint (Nat.to_uint i).

(** Truth value of a string: [bool(s)]. *)
Definition truthy (s : string) : bool :=
  match s with EmptyString => false | _ => true end.

(** [x or d] where [x] is the result of [dict.get]. *)
Definition or_else (x : option string) (d : string) : string :=
  match x with
  | Some s => if truthy s then s else d
  | None => d
  end.

(** [sep.join(parts)] *)
Fixpoint join (sep : string) (parts : list string) : string :=
  match parts with
  | [] => EmptyString
  | [p] => p
  | p :: rest => p ++ sep ++ join sep rest
  end.

(** [s.find(c)] for a one-character [c]; [None] stands for [-1]. *)
Fixpoint find_char (a : ascii) (s : string) : option nat :=
  match s with
  | EmptyString => None
  | String c r =>
      if Ascii.eqb c a then Some 0
      else match find_char a r with Some i => Some (S i) | None => None end
  end.

(** [s.rfind(c)] for a one-character [c]; [None] stands for [-1]. *)
Fixpoint rfind_char (a : ascii) (s : string) : option nat :=
  match s with
  | EmptyString => None
  | String c r =>
      match rfind_char a r with
      | Some i => Some (S i)
      | None => if Ascii.eqb c a then Some 0 else None
      end
  end.

(** The one-character strings ["\n"] and [" "]. *)
Definition NL : string := String (ascii_of_nat 10) EmptyString.

(** [len(s)] *)
Definition len (s : string) : Z := Z.of_nat (String.length s).

(** [s[:n] if len(s) > n else s], the truncation idiom of the extractor. *)
Definition truncate (n : Z) (s : string) : string :=
  if (n <? len s)%Z then take (Z.to_nat n) s else s.

(** [s.startswith(p)] *)
Fixpoint startswith (p s : string) : bool :=
  match p, s with
  | EmptyString, _ => true
  | String a p', String b s' => Ascii.eqb a b && startswith p' s'
  | String _ _, EmptyString => false
  end.

(** [s.split(c)] for a one-character [c]. *)
Fixpoint split (a : ascii) (s : string) : list string :=
  match s with
  | EmptyString => [EmptyString]
  | String c r =>
      if Ascii.eqb c a then EmptyString :: split a r
      else match split a r with
           | [] => [String c EmptyString]
           | w :: ws => String c w :: ws
           end
  end.

(** Membership of a string in a literal collection. *)
Definition mem (s : string) (l : list string) : bool :=
  existsb (String.eqb s) l.

End Py.

(** ** crawler.py *)
Module Crawler.

(** One yielded dict [{path, mtime, size}]. *)
Record FileEntry := {
  path : option string;
  mtime : option Q;
  size : option Z
}.

Definition INDEXABLE_EXTENSIONS : list string :=
  [ ".txt"; ".md"; ".rst"; ".tex"; ".latex"; ".org"; ".adoc"; ".asciidoc";
    ".docx"; ".pdf";
    ".json"; ".yml"; ".yaml"; ".toml"; ".ini"; ".cfg"; ".conf"; ".xml"; ".csv";
    ".html"; ".htm"; ".xhtml"; ".css"; ".scss"; ".sass"; ".less";
    ".js"; ".jsx"; ".mjs"; ".cjs"; ".ts"; ".tsx"; ".mts"; ".cts"; ".vue";
    ".py"; ".pyw"; ".pyi";
    ".c"; ".h"; ".cpp"; ".hpp"; ".cc"; ".cxx"; ".java"; ".kt"; ".kts"; ".rs";
    ".go"; ".r"; ".R"; ".rb"; ".php"; ".swift"; ".sql"; ".sh"; ".bash"; ".zsh";
    ".ps1"; ".bat"; ".cmd"; ".rq"; ".sparql";
    ".log"; ".diff"; ".patch"; ".svg"; ".graphql"; ".gql" ].

Definition LARGE_FILE_EXTENSIONS : list string := [ ".docx"; ".pdf" ].

Definition LARGE_FILE_MAX_KB : Z := 10 * 1024.

(** What [pathlib] reports for one path met by [root.rglob("*")]:
    [parts] is [path.relative_to(root).parts], [stat] is [None] when
    [path.stat()] raises [OSError] and otherwise [(st_mtime, st_size)],
    [resolve] is [str(path.resolve())]. *)
Record Node := {
  parts : list string;
  is_file : bool;
  stat : option (Q * Z);
  resolve : string
}.

(** The file system as the crawler reads it.  [rglob root] lists the paths
    on which the body of [for path in root.rglob("*")] runs: when a
    [PermissionError] or [OSError] ends the walk of a folder, the list
    ends there. *)
Record FileSystem := {
  is_dir : string -> bool;
  rglob : string -> list Node
}.

(** [PurePath.suffix] of a final path component. *)
Definition suffix_of (name : string) : string :=
  match Py.rfind_char "." name with
  | Some i =>
      if ((0 <? i) && (i <? String.length name - 1))%nat
      then Py.drop i name else ""
  | None => ""
  end.

(** [path.suffix] *)
Definition suffix (n : Node) : string := suffix_of (List.last (parts n) "").

(** [{p.strip().lower() for p in exclude_patterns if p}] *)
Definition exclude_set (exclude_patterns : list string) : gset string :=
  list_to_set
    (List.map (fun p => Py.lower (Py.strip p))
              (List.filter Py.truthy exclude_patterns)).

(** The [skip] flag computed by the loop over the relative parts. *)
Definition skip (excl : gset string) (n : Node) : bool :=
  existsb (fun part => bool_decide (Py.lower part ∈ excl)) (parts n).

(** The body of the loop over [root.rglob("*")]: the dict yielded for one
    path, [None] when the iteration [continue]s. *)
Definition visit (max_bytes : Z) (excl : gset string) (n : Node)
  : option FileEntry :=
  if negb (is_file n) then None
  else if negb (Py.mem (Py.lower (suffix n)) INDEXABLE_EXTENSIONS) then None
  else if skip excl n then None
  else match stat n with
       | None => None
       | Some (st_mtime, st_size) =>
           let limit :=
             if Py.mem (Py.lower (suffix n)) LARGE_FILE_EXTENSIONS
             then (LARGE_FILE_MAX_KB * 1024)%Z else max_bytes in
           if (limit <? st_size)%Z then None
           else Some {| path := Some (resolve n);
                        mtime := Some st_mtime;
                        size := Some st_size |}
       end.

(** [list(crawl(folders, exclude_patterns, max_file_size_kb))] *)
Definition crawl (fs : FileSystem) (folders : list string)
    (exclude_patterns : list string) (max_file_size_kb : Z)
  : list FileEntry :=
  let max_bytes := (max_file_size_kb * 1024)%Z in
  let excl := exclude_set exclude_patterns in
  List.flat_map
    (fun folder =>
       if is_dir fs folder
       then omap (visit max_bytes excl) (rglob fs folder)
       else [])
    folders.

End Crawler.


(** ** metadata.py *)
Module Metadata.

(** The file [file_index_data/file_metadata.json]: absent; present but
    unreadable, or UTF-8 text that is not JSON or not a JSON array
    ([Invalid]); bytes that are not UTF-8 text ([NotUtf8]); or a JSON
    array of records. *)
Inductive MetadataFile :=
| Missing
| Invalid
| NotUtf8
| Snapshot (records : list Crawler.FileEntry).

(** [load_metadata()]: the list returned, or [None] when
    [UnicodeDecodeError] leaves the function: [read_text] raises it for
    bytes that are not UTF-8, and the handler names
    [json.JSONDecodeError] and [OSError] only. *)
Definition load_metadata (f : MetadataFile)
  : option (list Crawler.FileEntry) :=
  match f with
  | Snapshot data => Some data
  | Missing | Invalid => Some []
  | NotUtf8 => None
  end.

(** One normalised record: [str(e.get("path", ""))],
    [float(e.get("mtime", 0))], [int(e.get("size", 0))]. *)
Definition normalise (e : Crawler.FileEntry) : Crawler.FileEntry :=
  {| Crawler.path := Some (default "" (Crawler.path e));
     Crawler.mtime := Some (default 0%Q (Crawler.mtime e));
     Crawler.size := Some (default 0%Z (Crawler.size e)) |}.

(** The file written by [save_metadata(entries)]. *)
Definition save_metadata (entries : list Crawler.FileEntry) : MetadataFile :=
  Snapshot (List.map normalise entries).

End Metadata.

(** ** activity_logger.py *)
Module ActivityLogger.

(** One logged dict [{type, timestamp, command, cwd}]. *)
Record CommandEntry := {
  type : option string;
  timestamp : option string;
  command : option string;
  cwd : option string
}.

(** One element of a JSON array of a log file. *)
Inductive Item :=
| NotADict
| Dict (c : CommandEntry).

(** The text of one [device_*.json] file as [json.loads] sees it. *)
Inductive LogFile :=
| Unparsable
| NotAList
| Items (data : list Item).

(** What the module reads from its host: [_hostname()], [_today_iso()],
    the [now_iso] stamp of one sync, [str(Path.cwd())], and
    [_read_lines(p)] for each [p] of [_shell_history_paths()]. *)
Record Host := {
  hostname : string;
  today : string;
  now_iso : string;
  getcwd : string;
  history : list (list string)
}.

(** File name of [_log_path(logs_dir)] inside the logs directory. *)
Definition _log_path (h : Host) : string :=
  ("device_" ++ hostname h ++ "_" ++ today h ++ ".json")%string.

Definition _existing_commands (log : option LogFile) : gset string :=
  match log with
  | Some (Items data) =>
      list_to_set
        (omap (fun item =>
                 match item with
                 | Dict c => Some (Py.strip (default "" (command c)))
                 | NotADict => None
                 end) data)
  | Some Unparsable | Some NotAList | None => ∅
  end.

(** The command a history line stands for; [None] when the line is
    skipped for being empty or longer than 2000 characters. *)
Definition history_command (line : string) : option string :=
  let cmd := Py.strip line in
  if negb (Py.truthy cmd) || (2000 <? String.length cmd)%nat then None
  else if Py.startswith ": " cmd
          && bool_decide (is_Some (Py.find_char ":" (Py.drop 2 cmd)))
  then match Py.find_char ";" cmd with
       | Some idx => Some (Py.strip (Py.drop (S idx) cmd))
       | None => Some cmd
       end
  else Some cmd.

(** One iteration of the loop over the lines of a history file, on the
    pair [(existing, new_entries)]. *)
Definition scan_line (h : Host) (cwd_fallback : string)
    (st : gset string * list CommandEntry) (line : string)
  : gset string * list CommandEntry :=
  match history_command line with
  | None => st
  | Some cmd =>
      if bool_decide (cmd ∈ st.1) then st
      else ({[cmd]} ∪ st.1,
            st.2 ++ [ {| type := Some "command";
                         timestamp := Some (now_iso h);
                         command := Some cmd;
                         cwd := Some (Py.or_else (Some cwd_fallback)
                                                 (getcwd h)) |} ])
  end.

(** Both loops: over the history files, then over the lines of each. *)
Definition scan_history (h : Host) (cwd_fallback : string)
    (existing : gset string) : gset string * list CommandEntry :=
  List.fold_left
    (fun st lines => List.fold_left (scan_line h cwd_fallback) lines st)
    (history h) (existing, []).

(** [sync_terminal_history(logs_dir, cwd_fallback)] on the [device_*.json]
    files of the logs directory: the directory afterwards and the number
    returned. *)
Definition sync_terminal_history (h : Host) (cwd_fallback : string)
    (logs : gmap string LogFile) : gmap string LogFile * Z :=
  let log_path := _log_path h in
  let existing := _existing_commands (logs !! log_path) in
  let new_entries := (scan_history h cwd_fallback existing).2 in
  match new_entries with
  | [] => (logs, 0%Z)
  | _ =>
      let data :=
        match logs !! log_path with
        | Some (Items data) => data
        | Some NotAList | None => []
        | Some Unparsable => []     (* the [except] branch writes new_entries *)
        end in
      (<[log_path := Items (data ++ List.map Dict new_entries)]> logs,
       Z.of_nat (List.length new_entries))
  end.

(** [load_commands_from_logs(logs_dir)]; the order of the files is the
    order of [logs_dir.glob]. *)
Definition load_commands_from_logs (logs : gmap string LogFile)
  : list CommandEntry :=
  List.flat_map
    (fun kv =>
       match kv.2 with
       | Items data =>
           omap (fun item =>
                   match item with
                   | Dict c =>
                       if bool_decide (type c = Some "command")
                       then Some c else None
                   | NotADict => None
                   end) data
       | Unparsable | NotAList => []
       end)
    (map_to_list logs).

End ActivityLogger.

(** ** indexer.py *)
Module Indexer.

(** *** Exceptions and results *)

(** The exception classes the module distinguishes; every one of them is
    a subclass of [Exception]. *)
Inductive exn :=
| ImportError
| OSError
| UnicodeDecodeError
| LookupError
| ValueError.

Inductive result (A : Type) :=
| Ok (a : A)
| Raise (e : exn).
Arguments Ok {A} a.
Arguments Raise {A} e.

Definition bind {A B} (m : result A) (k : A -> result B) : result B :=
  match m with
  | Ok a => k a
  | Raise e => Raise e
  end.

#[global] Instance result_bind : MBind result := fun A B k m => bind m k.

(** [try: body / except <classes>: handler] *)
Definition try_except {A} (body : result A) (classes : exn -> bool)
    (handler : result A) : result A :=
  match body with
  | Ok a => Ok a
  | Raise e => if classes e then handler else Raise e
  end.

Definition is_OSError_or_UnicodeDecodeError (e : exn) : bool :=
  match e with
  | OSError | UnicodeDecodeError => true
  | _ => false
  end.

(** *** Libraries and files read by [_read_content] *)

(** [page.extract_text()]: raises, returns [None], or returns text. *)
Inductive PageText :=
| ExtractRaises
| NoText
| Text (text : string).

(** The pdfplumber attempt as the main thread observes it: the import
    fails; the worker is still alive after [join(timeout=30)]; the worker
    reported an error; or [pdfplumber.open] gave these pages. *)
Inductive Pdfplumber :=
| PdfplumberMissing
| PdfplumberTimeout
| PdfplumberError
| PdfplumberPages (pages : list PageText).

(** The PyPDF2 attempt: the import or [PdfReader(path_str)] raises, or
    the reader has these pages. *)
Inductive PyPDF2 :=
| PdfReaderRaises
| PdfReaderPages (pages : list PageText).

(** A python-docx [Document]: paragraph texts, and for each table its
    rows of cell texts. *)
Record Docx := {
  paragraphs : list string;
  tables : list (list (list string))
}.

(** [chardet.detect(raw)] *)
Record Detected := {
  encoding : option string;
  confidence : Q
}.

(** [raw.decode(encoding)]: the text, [UnicodeDecodeError], or
    [LookupError] for a codec name Python does not know. *)
Inductive Decoding :=
| Decoded (text : string)
| Undecodable
| UnknownCodec.

Record Extractors := {
  path_exists : string -> option bool;         (* [None]: [OSError] *)
  pdfplumber_open : string -> Pdfplumber;
  PdfReader : string -> PyPDF2;
  Document_open : string -> option Docx;       (* [None]: import or open raises *)
  st_size : string -> option Z;                (* [None]: [OSError] *)
  read_bytes : string -> option (list Byte.byte);  (* [None]: [OSError] *)
  chardet_detect : list Byte.byte -> option Detected;  (* [None]: [ImportError] *)
  decode : string -> list Byte.byte -> Decoding;
  decode_replace : list Byte.byte -> string    (* [raw.decode("utf-8", errors="replace")] *)
}.

(** The float literal [0.7]. *)
Definition confidence_threshold : Q :=
  (3152519739159347 # 4503599627370496)%Q.

(** [Path(path_str).suffix] for a POSIX path. *)
Definition path_parts (path_str : string) : list string :=
  List.filter (fun x => Py.truthy x && negb (String.eqb x "."))
              (Py.split "/" path_str).

Definition path_suffix (path_str : string) : string :=
  Crawler.suffix_of (List.last (path_parts path_str) "").

(** The page loop shared by both PDF readers: [text_parts] after the
    loop over [pages]. *)
Fixpoint collect_pages (max_chars : Z) (pages : list PageText)
    (text_parts : list string) : list string :=
  match pages with
  | [] => text_parts
  | Text text :: rest =>
      if Py.truthy text && Py.truthy (Py.strip text) then
        let text_parts := text_parts ++ [text] in
        if (max_chars <? Py.len (Py.join Py.NL text_parts))%Z
        then text_parts                                   (* break *)
        else collect_pages max_chars rest text_parts
      else collect_pages max_chars rest text_parts
  | (NoText | ExtractRaises) :: rest =>
      collect_pages max_chars rest text_parts
  end.

(** Text of the first [min(50, len(pages))] pages, joined. *)
Definition pages_text (max_chars : Z) (pages : list PageText) : string :=
  Py.join Py.NL (collect_pages max_chars (List.firstn 50 pages) []).

(** The pdfplumber block: [Some s] when it executes [return s], [None]
    when control falls through to the PyPDF2 block. *)
Definition pdfplumber_block (x : Extractors) (path_str : string)
    (max_chars : Z) : option string :=
  match pdfplumber_open x path_str with
  | PdfplumberMissing => None
  | PdfplumberTimeout => Some ""
  | PdfplumberError => None
  | PdfplumberPages pages =>
      let result := pages_text max_chars pages in
      if Py.truthy result then Some (Py.truncate max_chars result) else None
  end.

(** The PyPDF2 block.  The twelve [text.replace] calls look for U+25A0,
    which is no character of this model's strings, so they return [text]. *)
Definition pypdf2_block (x : Extractors) (path_str : string)
    (max_chars : Z) : string :=
  match PdfReader x path_str with
  | PdfReaderRaises => ""
  | PdfReaderPages pages => Py.truncate max_chars (pages_text max_chars pages)
  end.

(** The python-docx block. *)
Definition docx_block (x : Extractors) (path_str : string) (max_chars : Z)
  : string :=
  match Document_open x path_str with
  | None => ""
  | Some doc =>
      let parts :=
        paragraphs doc
        ++ List.flat_map (fun table => List.map (Py.join " ") table)
                         (tables doc) in
      Py.truncate max_chars (Py.join Py.NL parts)
  end.

(** The chardet step: [Some s] when it executes [return s], [None] when
    control goes on to the list of encodings. *)
Definition chardet_step (x : Extractors) (raw : list Byte.byte)
  : result (option string) :=
  match chardet_detect x raw with
  | None => Ok None                                   (* except ImportError *)
  | Some detected =>
      if negb (Qle_bool (confidence detected) confidence_threshold) then
        match encoding detected with
        | Some enc =>
            if Py.truthy enc then
              match decode x enc raw with
              | Decoded text => Ok (Some text)
              | Undecodable => Ok None         (* except UnicodeDecodeError *)
              | UnknownCodec => Raise LookupError
              end
            else Ok None
        | None => Ok None
        end
      else Ok None
  end.

Definition encodings : list string :=
  [ "utf-8"; "utf-8-sig"; "windows-1254"; "iso-8859-9"; "iso-8859-1";
    "cp1252" ].

(** The loop over [encodings]. *)
Fixpoint try_encodings (x : Extractors) (raw : list Byte.byte)
    (encs : list string) : result (option string) :=
  match encs with
  | [] => Ok None
  | enc :: rest =>
      match decode x enc raw with
      | Decoded text => Ok (Some text)
      | Undecodable => try_encodings x raw rest
      | UnknownCodec => Raise LookupError
      end
  end.

(** The plain-text block with its [except (OSError, UnicodeDecodeError)]. *)
Definition plain_text_block (x : Extractors) (path_str : string)
    (max_chars : Z) : result string :=
  try_except
    (match st_size x path_str with
     | None => Raise OSError
     | Some size =>
         if (max_chars * 2 <? size)%Z then Ok ""
         else
           match read_bytes x path_str with
           | None => Raise OSError
           | Some raw =>
               detected ← chardet_step x raw;
               match detected with
               | Some text => Ok text
               | None =>
                   fallback ← try_encodings x raw encodings;
                   match fallback with
                   | Some text => Ok text
                   | None => Ok (decode_replace x raw)
                   end
               end
           end
     end)
    is_OSError_or_UnicodeDecodeError
    (Ok "").

(** [path.exists()] is called outside every [try]: it answers [False]
    for a path that is not there and lets every other [OSError] (no
    permission to search a directory, a name that is too long) pass. *)
Definition _read_content (x : Extractors) (path_str : string)
    (max_chars : Z) : result string :=
  match path_exists x path_str with
  | None => Raise OSError
  | Some false => Ok ""
  | Some true =>
      let suffix := Py.lower (path_suffix path_str) in
      if String.eqb suffix ".pdf" then
        match pdfplumber_block x path_str max_chars with
        | Some text => Ok text
        | None => Ok (pypdf2_block x path_str max_chars)
        end
      else if String.eqb suffix ".docx" then
        Ok (docx_block x path_str max_chars)
      else plain_text_block x path_str max_chars
  end.

(** *** The Whoosh index *)

(** A document of [SCHEMA]: [path] (ID), [result_type] (KEYWORD) and
    [content] (TEXT), all stored. *)
Record Document := {
  path : string;
  result_type : string;
  content : string
}.

(** What the module uses of Whoosh.  [accepts d] tells whether
    [writer.add_document] takes [d] or raises; [parse q] is
    [QueryParser("content", schema=SCHEMA).parse(q)], [None] when it
    raises; [search docs query limit] is [searcher.search(query, limit)]
    on an index holding [docs], a list of hits with their stored fields. *)
Record Whoosh := {
  Query : Type;
  accepts : Document -> bool;
  parse : string -> option Query;
  search : list Document -> Query -> Z -> result (list Document)
}.

(** [writer.add_document(...)] on the documents buffered so far: Whoosh
    appends the document; the [unique] flag of a field is consulted by
    [update_document] only.  [None] when the call raises. *)
Definition add_document (lib : Whoosh) (writer : list Document)
    (d : Document) : option (list Document) :=
  if accepts lib d then Some (writer ++ [d]) else None.

(** The directory [search_index/]: absent, present without an index that
    opens, or an index holding documents. *)
Inductive IndexDir :=
| NoIndex
| Unopenable
| Index (docs : list Document).

(** The data directory of [paths.py]. *)
Record DataDir := {
  logs_dir : gmap string ActivityLogger.LogFile;
  file_metadata_json : Metadata.MetadataFile;
  search_index_dir : IndexDir
}.

(** What an index pass reads: the file system as the crawler finds it,
    the host, the readers and Whoosh.  [fs w d] is what [is_dir] and
    [rglob] report while the data directory holds [d]: when the data
    directory (by default [~/LoadsSearch]) lies under a crawled folder,
    the log files and the snapshot the pass has written are among the
    paths met. *)
Record World := {
  fs : DataDir -> Crawler.FileSystem;
  host : ActivityLogger.Host;
  extractors : Extractors;
  whoosh : Whoosh
}.

(** *** build_index *)

(** The document the first loop hands to [add_document]. *)
Definition file_document (path_str content : string) : Document :=
  {| path := path_str;
     result_type := "file";
     content := Py.or_else (Some content) " " |}.

(** Body of [for e in entries], on the pair [(writer, count)]. *)
Definition index_file (w : World) (st : list Document * nat)
    (e : Crawler.FileEntry) : result (list Document * nat) :=
  let path_str := Py.or_else (Crawler.path e) "" in
  if negb (Py.truthy path_str) then Ok st
  else
    content ← _read_content (extractors w) path_str 500000;
    match add_document (whoosh w) st.1 (file_document path_str content) with
    | Some writer => Ok (writer, st.2 + 1)
    | None => Ok st
    end.

Fixpoint index_files (w : World) (entries : list Crawler.FileEntry)
    (st : list Document * nat) : result (list Document * nat) :=
  match entries with
  | [] => Ok st
  | e :: rest => st' ← index_file w st e; index_files w rest st'
  end.

(** The document the second loop hands to [add_document] for entry [c]
    at position [i]; [None] when the iteration [continue]s. *)
Definition command_document (i : nat) (c : ActivityLogger.CommandEntry)
  : option Document :=
  let cmd := Py.strip (Py.or_else (ActivityLogger.command c) "") in
  if negb (Py.truthy cmd) then None
  else
    let ts := Py.or_else (Some (default "" (ActivityLogger.timestamp c)))
                         (Py.str_of_nat i) in
    let doc_id := ("command:" ++ ts ++ ":" ++ Py.str_of_nat i)%string in
    Some {| path := doc_id; result_type := "command"; content := cmd |}.

(** Body of [for i, c in enumerate(cmd_list)]. *)
Definition index_command (w : World) (st : list Document * nat) (i : nat)
    (c : ActivityLogger.CommandEntry) : list Document * nat :=
  match command_document i c with
  | None => st
  | Some d =>
      match add_document (whoosh w) st.1 d with
      | Some writer => (writer, st.2 + 1)
      | None => st
      end
  end.

Fixpoint index_commands (w : World) (i : nat)
    (cmd_list : list ActivityLogger.CommandEntry)
    (st : list Document * nat) : list Document * nat :=
  match cmd_list with
  | [] => st
  | c :: rest => index_commands w (S i) rest (index_command w st i c)
  end.

(** [build_index(entries, command_entries)]: the data directory after
    [writer.commit()] and the count returned.  A [Raise] is an exception
    that leaves the function. *)
Definition build_index (w : World) (entries : list Crawler.FileEntry)
    (command_entries : option (list ActivityLogger.CommandEntry))
    (d : DataDir) : result (DataDir * nat) :=
  st ← index_files w entries ([], 0);
  let cmd_list :=
    match command_entries with
    | Some l => l
    | None => ActivityLogger.load_commands_from_logs (logs_dir d)
    end in
  let st := index_commands w 0 cmd_list st in
  Ok ({| logs_dir := logs_dir d;
         file_metadata_json := file_metadata_json d;
         search_index_dir := Index st.1 |}, st.2).

Definition rebuild_index (w : World) (d : DataDir) : result (DataDir * nat) :=
  match Metadata.load_metadata (file_metadata_json d) with
  | None => Raise UnicodeDecodeError
  | Some entries => build_index w entries None d
  end.

(** The configuration dict; [None] is a missing key. *)
Record Config := {
  folders_to_index : option (list string);
  exclude_patterns : option (list string);
  max_file_size_kb : option Z;
  log_terminal_history : option bool
}.

(** [full_index(config)]: the history is synced first, so the crawl
    runs on a data directory that holds the new logs, the old snapshot
    and the old index. *)
Definition full_index (w : World) (config : Config) (d : DataDir)
  : result (DataDir * nat) :=
  let logs :=
    if default true (log_terminal_history config)
    then (ActivityLogger.sync_terminal_history (host w) "" (logs_dir d)).1
    else logs_dir d in
  let synced :=
    {| logs_dir := logs;
       file_metadata_json := file_metadata_json d;
       search_index_dir := search_index_dir d |} in
  let entries :=
    Crawler.crawl (fs w synced)
      (default [] (folders_to_index config))
      (default [] (exclude_patterns config))
      (default 512%Z (max_file_size_kb config)) in
  build_index w entries None
    {| logs_dir := logs;
       file_metadata_json := Metadata.save_metadata entries;
       search_index_dir := search_index_dir d |}.

(** *** Queries *)

Definition get_index (d : DataDir) : option (list Document) :=
  match search_index_dir d with
  | Index docs => Some docs
  | NoIndex | Unopenable => None
  end.

(** The snippet of one hit. *)
Definition snippet (content : string) : string :=
  let snippet :=
    Py.strip (Py.replace_char (ascii_of_nat 10) " " (Py.take 200 content)) in
  if (200 <? String.length content)%nat then (snippet ++ "...")%string else snippet.

(** The tuple appended for one hit. *)
Definition hit_row (hit : Document)
  : string * string * string * option string :=
  let path := Py.or_else (Some (path hit)) "" in
  let result_type := Py.or_else (Some (result_type hit)) "file" in
  let content := Py.or_else (Some (content hit)) "" in
  let copy_text :=
    if String.eqb result_type "command" then Some content else None in
  (path, snippet content, result_type, copy_text).

(** [search_index(q, limit)]; [q] is [None] for a [None] argument. *)
Definition search_index (w : World) (q : option string) (limit : Z)
    (d : DataDir)
  : result (list (string * string * string * option string)) :=
  let q := Py.strip (Py.or_else q "") in
  if negb (Py.truthy q) then Ok []
  else
    match get_index d with
    | None => Ok []
    | Some docs =>
        match parse (whoosh w) q with
        | None => Ok []
        | Some query =>
            results ← search (whoosh w) docs query limit;
            Ok (List.map hit_row results)
        end
    end.

End Indexer.

(** ** config.py *)
Module Config.

(** A Python float as [json.loads] can produce it. *)
Inductive pyfloat :=
| Finite (q : Q)
| PosInf
| NegInf
| NaN.

Set Warnings "-register-all".

(** A value produced by [json.loads]; a nested dict is kept as its list
    of items. *)
Inductive json :=
| JNull
| JBool (b : bool)
| JInt (z : Z)
| JFloat (f : pyfloat)
| JStr (s : string)
| JList (l : list json)
| JObj (items : list (string * json)).

(** The exceptions that leave the functions of the module. *)
Inductive exn :=
| JSONDecodeError
| TypeError
| OverflowError.

Inductive result (A : Type) :=
| Ok (a : A)
| Raise (e : exn).
Arguments Ok {A} a.
Arguments Raise {A} e.

(** What is taken from the Python runtime as given: [str(v)] for floats,
    lists and dicts, and [int(s)] for a string ([None]: [ValueError]). *)
Record Python := {
  repr : json -> string;
  int_of_str : string -> option Z
}.

(** [str(z)] for an integer. *)
Definition str_of_int (z : Z) : string :=
  if (z <? 0)%Z then ("-" ++ Py.str_of_nat (Z.to_nat (- z)))%string
  else Py.str_of_nat (Z.to_nat z).

(** [str(v)] *)
Definition str (py : Python) (v : json) : string :=
  match v with
  | JStr s => s
  | JNull => "None"
  | JBool true => "True"
  | JBool false => "False"
  | JInt z => str_of_int z
  | JFloat _ | JList _ | JObj _ => repr py v
  end.

(** [int(v)]: the integer, or the exception raised. *)
Inductive int_outcome :=
| IntOk (z : Z)
| IntTypeError
| IntValueError
| IntOverflowError.

Definition int (py : Python) (v : json) : int_outcome :=
  match v with
  | JInt z => IntOk z
  | JBool b => IntOk (if b then 1 else 0)%Z
  | JFloat (Finite q) => IntOk (Z.quot (Qnum q) (Zpos (Qden q)))
  | JFloat NaN => IntValueError
  | JFloat PosInf | JFloat NegInf => IntOverflowError
  | JStr s =>
      match int_of_str py s with
      | Some z => IntOk z
      | None => IntValueError
      end
  | JNull | JList _ | JObj _ => IntTypeError
  end.

(** [bool(v)] for a bool, an int or a string. *)
Definition truth (v : json) : bool :=
  match v with
  | JBool b => b
  | JInt z => negb (z =? 0)%Z
  | JStr s => Py.truthy s
  | _ => false
  end.

(** [isinstance(v, (bool, int, str))] *)
Definition is_bool_int_str (v : json) : bool :=
  match v with
  | JBool _ | JInt _ | JStr _ => true
  | _ => false
  end.

(** The elements [for p in v] runs over; [None] when [v] is not
    iterable. *)
Definition iterate (v : json) : option (list json) :=
  match v with
  | JList l => Some l
  | JStr s =>
      Some (List.map (fun c => JStr (String c EmptyString))
                     (list_ascii_of_string s))
  | JObj items => Some (List.map (fun kv => JStr (fst kv)) items)
  | JNull | JBool _ | JInt _ | JFloat _ => None
  end.

(** [[str(p) for p in l]] *)
Definition strs (py : Python) (l : list json) : json :=
  JList (List.map (fun p => JStr (str py p)) l).

(** [DEFAULT_CONFIG], in the order of its keys. *)
Definition DEFAULT_CONFIG : list (string * json) :=
  [ ("folders_to_index", JList []);
    ("log_terminal_history", JBool true);
    ("log_file_activity", JBool true);
    ("exclude_patterns",
     JList [JStr ".git"; JStr "__pycache__"; JStr "node_modules";
            JStr ".venv"; JStr "venv"]);
    ("max_file_size_kb", JInt 512);
    ("dark_mode", JBool false) ].

(** The file [config.json]: absent, text that [json.loads] rejects, text
    of a value that is not a dict, or text of a dict. *)
Inductive ConfigFile :=
| NoFile
| Unparsable
| Value (v : json)
| Object (raw : gmap string json).

(** [ensure_config()] *)
Definition ensure_config (f : ConfigFile) : ConfigFile :=
  match f with
  | NoFile => Object (list_to_map DEFAULT_CONFIG)
  | Unparsable | Value _ | Object _ => f
  end.

(** One iteration of [for key, default in DEFAULT_CONFIG.items()]. *)
Definition fill_key (py : Python) (raw : gmap string json)
    (item : string * json) : result (gmap string json) :=
  let key := fst item in
  let default := snd item in
  match raw !! key with
  | None => Ok (<[key := default]> raw)
  | Some v =>
      if String.eqb key "folders_to_index" then
        match iterate v with
        | Some l => Ok (<[key := strs py l]> raw)
        | None => Raise TypeError
        end
      else if String.eqb key "exclude_patterns"
              && match v with JList _ => true | _ => false end then
        match iterate v with
        | Some l => Ok (<[key := strs py l]> raw)
        | None => Raise TypeError
        end
      else if String.eqb key "max_file_size_kb" then
        match int py v with
        | IntOk z => Ok (<[key := JInt z]> raw)
        | IntTypeError | IntValueError => Ok (<[key := default]> raw)
        | IntOverflowError => Raise OverflowError
        end
      else if String.eqb key "dark_mode" then
        Ok (<[key := if is_bool_int_str v then JBool (truth v) else default]>
              raw)
      else Ok raw
  end.

Fixpoint fill_keys (py : Python) (raw : gmap string json)
    (items : list (string * json)) : result (gmap string json) :=
  match items with
  | [] => Ok raw
  | item :: rest =>
      match fill_key py raw item with
      | Ok raw' => fill_keys py raw' rest
      | Raise e => Raise e
      end
  end.

(** [load_config()]: the file afterwards and the dict returned. *)
Definition load_config (py : Python) (f : ConfigFile)
  : ConfigFile * result (gmap string json) :=
  let f := ensure_config f in
  (f,
   match f with
   | NoFile | Unparsable => Raise JSONDecodeError
   | Value _ => Raise TypeError
   | Object raw =>
       let raw :=
         match raw !! "folders_to_index" with
         | None => <["folders_to_index" := JList []]> raw
         | Some _ => raw
         end in
       let raw :=
         match raw !! "folders_to_index" with
         | Some (JList _) => raw
         | _ => <["folders_to_index" := JList []]> raw
         end in
       fill_keys py raw DEFAULT_CONFIG
   end).

(** [save_config(cfg)]: the file written, or the exception raised
    before anything is written. *)
Definition save_config (py : Python) (cfg : gmap string json)
  : result ConfigFile :=
  let out : gmap string json :=
    list_to_map
      (List.map (fun item =>
                   (fst item, default (snd item) (cfg !! fst item)))
                DEFAULT_CONFIG) in
  match iterate (default (JList []) (cfg !! "folders_to_index")) with
  | None => Raise TypeError
  | Some l =>
      let out := <["folders_to_index" := strs py l]> out in
      let out :=
        match cfg !! "last_indexed_iso" with
        | None | Some JNull => out
        | Some v => <["last_indexed_iso" := v]> out
        end in
      Ok (Object out)
  end.

End Config.

(** ** gui.py: the helpers that do not touch a widget *)
Module Gui.

(** [iso_str.replace("Z", "+00:00")] *)
Fixpoint replace_Z (s : string) : string :=
  match s with
  | EmptyString => EmptyString
  | String c r =>
      if Ascii.eqb c "Z" then ("+00:00" ++ replace_Z r)%string
      else String c (replace_Z r)
  end.

(** [datetime] as [_format_last_indexed] uses it: for the text handed to
    [fromisoformat], [None] when anything in the [try] block raises, and
    otherwise [int(delta.total_seconds())] for [delta = now - dt]. *)
Record Clock := {
  seconds_since : string -> option Z
}.

(** [f"Index from {n} {unit}{'s' if n != 1 else ''} ago"] *)
Definition ago (n : Z) (unit : string) : string :=
  ("Index from " ++ Config.str_of_int n ++ " " ++ unit
   ++ (if negb (n =? 1)%Z then "s" else "") ++ " ago")%string.

Definition _format_last_indexed (clock : Clock) (iso_str : option string)
  : string :=
  match iso_str with
  | None => ""
  | Some iso_str =>
      if negb (Py.truthy iso_str) || negb (Py.truthy (Py.strip iso_str))
      then ""
      else
        match seconds_since clock (replace_Z iso_str) with
        | None => ""                                   (* except Exception *)
        | Some total_seconds =>
            let secs := Z.max 0 total_seconds in
            if (secs <? 60)%Z then "Index from just now"
            else if (secs <? 3600)%Z then ago (secs / 60) "minute"
            else if (secs <? 86400)%Z then ago (secs / 3600) "hour"
            else ago (secs / 86400) "day"
        end
  end.

(** [path in folders] for a string [path]: a string equals no value of
    another type. *)
Definition contains_str (path : string) (folders : list Config.json) : bool :=
  existsb (fun v => match v with
                    | Config.JStr s => String.eqb path s
                    | _ => false
                    end) folders.

(** What [_add_folder] does to [config.json]: [dialog] is the answer of
    [filedialog.askdirectory], [resolved] is [str(Path(dialog).resolve())].
    The result is the file afterwards, or the exception that leaves the
    callback.  The message box and the status line are not part of it. *)
Definition _add_folder (py : Config.Python) (dialog resolved : string)
    (f : Config.ConfigFile) : Config.result Config.ConfigFile :=
  if negb (Py.truthy dialog) then Config.Ok f
  else
    let path := resolved in
    match Config.load_config py f with
    | (_, Config.Raise e) => Config.Raise e
    | (f1, Config.Ok cfg) =>
        match Config.iterate
                (default (Config.JList []) (cfg !! "folders_to_index")) with
        | None => Config.Raise Config.TypeError
        | Some folders =>
            if contains_str path folders then Config.Ok f1
            else
              let folders := folders ++ [Config.JStr path] in
              let cfg := <["folders_to_index" := Config.JList folders]> cfg in
              match Config.save_config py cfg with
              | Config.Raise e => Config.Raise e
              | Config.Ok f2 =>
                  (* refresh_folders_list() *)
                  match Config.load_config py f2 with
                  | (_, Config.Raise e) => Config.Raise e
                  | (f3, Config.Ok _) => Config.Ok f3
                  end
              end
        end
    end.

(** What [_remove_folder] does to [config.json]: [sel] is the tuple
    [folders_listbox.curselection()]. *)
Definition _remove_folder (py : Config.Python) (sel : list Z)
    (f : Config.ConfigFile) : Config.result Config.ConfigFile :=
  match sel with
  | [] => Config.Ok f
  | idx :: _ =>
      match Config.load_config py f with
      | (_, Config.Raise e) => Config.Raise e
      | (f1, Config.Ok cfg) =>
          match Config.iterate
                  (default (Config.JList []) (cfg !! "folders_to_index")) with
          | None => Config.Raise Config.TypeError
          | Some folders =>
              if (0 <=? idx)%Z && (idx <? Z.of_nat (List.length folders))%Z
              then
                let folders := delete (Z.to_nat idx) folders in
                let cfg :=
                  <["folders_to_index" := Config.JList folders]> cfg in
                match Config.save_config py cfg with
                | Config.Raise e => Config.Raise e
                | Config.Ok f2 =>
                    (* refresh_folders_list() *)
                    match Config.load_config py f2 with
                    | (_, Config.Raise e) => Config.Raise e
                    | (f3, Config.Ok _) => Config.Ok f3
                    end
                end
              else Config.Ok f1
          end
      end
  end.

End Gui.

(** * A small installation, used to exercise the statements *)
Module Example.

Import Indexer.

Definition node (parts : list string) (st_size : Z) (resolve : string)
  : Crawler.Node :=
  {| Crawler.parts := parts; Crawler.is_file := true;
     Crawler.stat := Some (1700000000%Q, st_size);
     Crawler.resolve := resolve |}.

Definition notes_txt := node ["notes.txt"] 11 "/home/u/docs/notes.txt".
Definition big_txt := node ["big.txt"] 600000 "/home/u/docs/big.txt".
Definition big_pdf := node ["big.pdf"] 600000 "/home/u/docs/big.pdf".
Definition dep_js :=
  node ["Node_Modules"; "dep.js"] 20 "/home/u/docs/Node_Modules/dep.js".
Definition out_txt := node ["out.txt"] 5 "/home/u/build/out.txt".

(** Two folders: [/home/u/docs] and [/home/u/build]. *)
Definition disk : Crawler.FileSystem :=
  {| Crawler.is_dir := fun p =>
       String.eqb p "/home/u/docs" || String.eqb p "/home/u/build";
     Crawler.rglob := fun p =>
       if String.eqb p "/home/u/docs"
       then [notes_txt; big_txt; big_pdf; dep_js]
       else if String.eqb p "/home/u/build" then [out_txt]
       else [] |}.

Definition file_text (p : string) : option string :=
  if String.eqb p "/home/u/docs/notes.txt" then Some "hello world"
  else if String.eqb p "/home/u/build/out.txt" then Some "built"
  else if String.eqb p "/home/u/docs/taiwan.txt" then Some "EUC-TW text"
  else None.

(** Readers over [file_text]: the user may not search [/root], so
    [exists()] raises for the paths below it; chardet reports EUC-TW for
    [taiwan.txt] and is unsure otherwise; Python has the six codecs of
    [encodings] and no codec named EUC-TW. *)
Definition readers : Extractors :=
  {| path_exists := fun p =>
       match file_text p with
       | Some _ => Some true
       | None =>
           if String.eqb p "/home/u/docs/big.pdf" then Some true
           else if Py.startswith "/root/" p then None
           else Some false
       end;
     pdfplumber_open := fun _ => PdfplumberPages [Text "page one"; NoText];
     PdfReader := fun _ => PdfReaderRaises;
     Document_open := fun _ => None;
     st_size := fun p =>
       match file_text p with
       | Some t => Some (Py.len t)
       | None => None
       end;
     read_bytes := fun p =>
       match file_text p with
       | Some t => Some (list_byte_of_string t)
       | None => None
       end;
     chardet_detect := fun raw =>
       if String.eqb (string_of_list_byte raw) "EUC-TW text"
       then Some {| encoding := Some "EUC-TW"; confidence := (99 # 100)%Q |}
       else Some {| encoding := Some "ascii"; confidence := (1 # 2)%Q |};
     decode := fun enc raw =>
       if Py.mem enc encodings then Decoded (string_of_list_byte raw)
       else UnknownCodec;
     decode_replace := string_of_list_byte |}.

(** A stand-in for Whoosh: every document is taken, a query is a word,
    a hit is a document whose content starts with it. *)
Definition whoosh_lib : Whoosh :=
  {| Query := string;
     accepts := fun _ => true;
     parse := fun q => if String.eqb q "(" then None else Some q;
     search := fun docs query limit =>
       if (limit <? 1)%Z then Raise ValueError
       else Ok (List.firstn (Z.to_nat limit)
                  (List.filter (fun d => String.prefix query (content d))
                               docs)) |}.

Definition monday : ActivityLogger.Host :=
  {| ActivityLogger.hostname := "laptop";
     ActivityLogger.today := "2024-03-04";
     ActivityLogger.now_iso := "2024-03-04T09:00:00";
     ActivityLogger.getcwd := "/home/u";
     ActivityLogger.history := [[": 1709542800:0;git status"; "ls "]] |}.

Definition monday_later : ActivityLogger.Host :=
  {| ActivityLogger.hostname := "laptop";
     ActivityLogger.today := "2024-03-04";
     ActivityLogger.now_iso := "2024-03-04T17:30:00";
     ActivityLogger.getcwd := "/home/u";
     ActivityLogger.history := [[": 1709542800:0;git status"; "ls "]] |}.

Definition tuesday : ActivityLogger.Host :=
  {| ActivityLogger.hostname := "laptop";
     ActivityLogger.today := "2024-03-05";
     ActivityLogger.now_iso := "2024-03-05T09:00:00";
     ActivityLogger.getcwd := "/home/u";
     ActivityLogger.history := [[": 1709542800:0;git status"; "ls "]] |}.

(** The data directory lies outside [/home/u/docs] and [/home/u/build]:
    what is found there does not depend on what it holds. *)
Definition world (h : ActivityLogger.Host) : World :=
  {| fs := fun _ => disk; host := h; extractors := readers;
     whoosh := whoosh_lib |}.

Definition config : Config :=
  {| folders_to_index := Some ["/home/u/docs"];
     exclude_patterns := Some ["node_modules"];
     max_file_size_kb := None;
     log_terminal_history := None |}.

(** The same folder listed twice. *)
Definition twice_config : Config :=
  {| folders_to_index := Some ["/home/u/docs"; "/home/u/docs"];
     exclude_patterns := Some ["node_modules"];
     max_file_size_kb := None;
     log_terminal_history := None |}.

(** A data directory before the first index pass. *)
Definition fresh : DataDir :=
  {| logs_dir := ∅;
     file_metadata_json := Metadata.Missing;
     search_index_dir := NoIndex |}.

Definition file_entry (p : string) : Crawler.FileEntry :=
  {| Crawler.path := Some p; Crawler.mtime := Some 1700000000%Q;
     Crawler.size := Some 11%Z |}.

Definition command_entry (ts : option string) (cmd : string)
  : ActivityLogger.CommandEntry :=
  {| ActivityLogger.type := Some "command";
     ActivityLogger.timestamp := ts;
     ActivityLogger.command := Some cmd;
     ActivityLogger.cwd := Some "/home/u" |}.

(** The data directory left by a first index pass on Monday. *)
Definition after_monday : DataDir :=
  match full_index (world monday) config fresh with
  | Ok (d, _) => d
  | Raise _ => fresh
  end.



End Example.

(** * Further sample data *)
Module Sample.

Import Indexer.

(** Monday evening, one more command in the shell history. *)
Definition monday_more : ActivityLogger.Host :=
  {| ActivityLogger.hostname := "laptop";
     ActivityLogger.today := "2024-03-04";
     ActivityLogger.now_iso := "2024-03-04T17:30:00";
     ActivityLogger.getcwd := "/home/u";
     ActivityLogger.history :=
       [[": 1709542800:0;git status"; "ls "; "make test"]] |}.

(** What Monday's log file holds after the first index pass. *)
Definition monday_items : list ActivityLogger.Item :=
  [ ActivityLogger.Dict
      (Example.command_entry (Some "2024-03-04T09:00:00") "git status");
    ActivityLogger.Dict
      (Example.command_entry (Some "2024-03-04T09:00:00") "ls") ].

(** A file record without a path, as a hand-edited snapshot can hold. *)
Definition no_path : Crawler.FileEntry :=
  {| Crawler.path := None; Crawler.mtime := None; Crawler.size := None |}.

Definition entries : list Crawler.FileEntry :=
  [Example.file_entry "/home/u/docs/notes.txt"; no_path].

Definition commands : list ActivityLogger.CommandEntry :=
  [ Example.command_entry None " git status ";
    Example.command_entry (Some "2024-03-04T09:00:00") "  " ].

Definition notes_document : Document :=
  {| path := "/home/u/docs/notes.txt"; result_type := "file";
     content := "hello world" |}.

Definition git_status_document : Document :=
  {| path := "command:0:0"; result_type := "command";
     content := "git status" |}.

(** The data directory [build_index] leaves for [entries] and
    [commands]. *)
Definition built : DataDir :=
  {| logs_dir := ∅;
     file_metadata_json := Metadata.Missing;
     search_index_dir := Index [notes_document; git_status_document] |}.

(** Monday's data directory with a snapshot file that does not parse. *)
Definition broken_snapshot : DataDir :=
  {| logs_dir := logs_dir Example.after_monday;
     file_metadata_json := Metadata.Invalid;
     search_index_dir := NoIndex |}.

(** Monday's data directory with a snapshot file that is not UTF-8
    text. *)
Definition garbled_snapshot : DataDir :=
  {| logs_dir := logs_dir Example.after_monday;
     file_metadata_json := Metadata.NotUtf8;
     search_index_dir := NoIndex |}.

(** An installation whose data directory [/home/u/LoadsSearch] lies
    under the indexed folder [/home/u]: the crawl meets the log files
    and, once it is written, the snapshot. *)
Definition log_node (name : string) : Crawler.Node :=
  Example.node ["LoadsSearch"; "logs"; name] 200
    ("/home/u/LoadsSearch/logs/" ++ name)%string.

Definition snapshot_node : Crawler.Node :=
  Example.node ["LoadsSearch"; "file_index_data"; "file_metadata.json"] 300
    "/home/u/LoadsSearch/file_index_data/file_metadata.json".

Definition home_disk (d : DataDir) : Crawler.FileSystem :=
  {| Crawler.is_dir := fun p => String.eqb p "/home/u";
     Crawler.rglob := fun p =>
       if String.eqb p "/home/u"
       then Example.node ["docs"; "notes.txt"] 11 "/home/u/docs/notes.txt"
            :: List.map log_node (List.map fst (map_to_list (logs_dir d)))
            ++ match file_metadata_json d with
               | Metadata.Missing => []
               | _ => [snapshot_node]
               end
       else [] |}.

(** The readers of [Example], and the program's own files read as the
    text [[]]. *)
Definition home_readers : Extractors :=
  let own p := Py.startswith "/home/u/LoadsSearch/" p in
  {| path_exists := fun p =>
       if own p then Some true else path_exists Example.readers p;
     pdfplumber_open := pdfplumber_open Example.readers;
     PdfReader := PdfReader Example.readers;
     Document_open := Document_open Example.readers;
     st_size := fun p =>
       if own p then Some 2%Z else st_size Example.readers p;
     read_bytes := fun p =>
       if own p then Some (list_byte_of_string "[]")
       else read_bytes Example.readers p;
     chardet_detect := chardet_detect Example.readers;
     decode := decode Example.readers;
     decode_replace := decode_replace Example.readers |}.

Definition home_world (h : ActivityLogger.Host) : World :=
  {| fs := home_disk; host := h; extractors := home_readers;
     whoosh := Example.whoosh_lib |}.

Definition home_config : Config :=
  {| folders_to_index := Some ["/home/u"];
     exclude_patterns := Some ["node_modules"];
     max_file_size_kb := None;
     log_terminal_history := None |}.

(** A stand-in for the Python runtime: [int] reads an optionally signed
    run of decimal digits between whitespace, [str] of a float, a list
    or a dict is abbreviated. *)
Definition python : Config.Python :=
  {| Config.repr := fun v =>
       match v with
       | Config.JFloat _ => "0.0"
       | Config.JList _ => "[...]"
       | _ => "{...}"
       end;
     Config.int_of_str := fun s =>
       option_map Z.of_int (NilZero.int_of_string (Py.strip s)) |}.

(** A hand-edited [config.json]. *)
Definition raw_config : gmap string Config.json :=
  list_to_map
    [ ("folders_to_index",
       Config.JList [Config.JStr "/home/u/docs"; Config.JInt 7]);
      ("exclude_patterns", Config.JStr "build");
      ("max_file_size_kb", Config.JStr " 1024 ");
      ("dark_mode", Config.JInt 1);
      ("theme", Config.JStr "solarized");
      ("last_indexed_iso", Config.JStr "2024-03-04T09:00:00Z") ].

(** What [load_config] returns for it. *)
Definition loaded_config : gmap string Config.json :=
  list_to_map
    [ ("folders_to_index",
       Config.JList [Config.JStr "/home/u/docs"; Config.JStr "7"]);
      ("log_terminal_history", Config.JBool true);
      ("log_file_activity", Config.JBool true);
      ("exclude_patterns", Config.JStr "build");
      ("max_file_size_kb", Config.JInt 1024);
      ("dark_mode", Config.JBool true);
      ("theme", Config.JStr "solarized");
      ("last_indexed_iso", Config.JStr "2024-03-04T09:00:00Z") ].

(** A clock at which the index pass of [raw_config] lies two hours
    back. *)
Definition clock : Gui.Clock :=
  {| Gui.seconds_since := fun s =>
       if String.eqb s "2024-03-04T09:00:00+00:00" then Some 7200%Z
       else None |}.

End Sample.

(** * Notions used to state the properties *)

(** The ids held by the index of a data directory. *)
Definition index_ids (d : Indexer.DataDir) : list string :=
  match Indexer.search_index_dir d with
  | Indexer.Index docs => List.map Indexer.path docs
  | Indexer.NoIndex | Indexer.Unopenable => []
  end.

(** A blank string: every character is whitespace. *)
Fixpoint all_space (s : string) : bool :=
  match s with
  | EmptyString => true
  | String c r => Py.isspace c && all_space r
  end.

(** The snippet field of a result tuple. *)
Definition row_snippet (row : string * string * string * option string)
  : string := row.1.1.2.


(** The data directory after its [search_index/] folder is deleted. *)
Definition without_index (d : Indexer.DataDir) : Indexer.DataDir :=
  {| Indexer.logs_dir := Indexer.logs_dir d;
     Indexer.file_metadata_json := Indexer.file_metadata_json d;
     Indexer.search_index_dir := Indexer.NoIndex |}.

(** The same installation read at another moment: only what the host
    reports may differ. *)
Definition at_host (w : Indexer.World) (h : ActivityLogger.Host)
  : Indexer.World :=
  {| Indexer.fs := Indexer.fs w;
     Indexer.host := h;
     Indexer.extractors := Indexer.extractors w;
     Indexer.whoosh := Indexer.whoosh w |}.

(** The data directory lies outside the folders: what [is_dir] and
    [rglob] report for them does not depend on what the data directory
    holds. *)
Definition data_dir_outside (w : Indexer.World) (folders : list string)
  : Prop :=
  ∀ d d' folder,
    In folder folders →
    Crawler.is_dir (Indexer.fs w d) folder
    = Crawler.is_dir (Indexer.fs w d') folder
    ∧ Crawler.rglob (Indexer.fs w d) folder
      = Crawler.rglob (Indexer.fs w d') folder.

(** The text under which [_existing_commands] remembers a logged entry. *)
Definition logged_command (c : ActivityLogger.CommandEntry) : string :=
  Py.strip (default "" (ActivityLogger.command c)).

(** The ids under which the first loop of [build_index] calls
    [add_document]: the non-empty paths of the entries, in order. *)
Definition entry_ids (entries : list Crawler.FileEntry) : list string :=
  omap (λ e, let p := Py.or_else (Crawler.path e) "" in
             if Py.truthy p then Some p else None) entries.

(** The documents for which the second loop calls [add_document], the
    enumeration starting at [i]. *)
Fixpoint command_documents (i : nat)
    (cmd_list : list ActivityLogger.CommandEntry) : list Indexer.Document :=
  match cmd_list with
  | [] => []
  | c :: rest =>
      match Indexer.command_document i c with
      | Some d => d :: command_documents (S i) rest
      | None => command_documents (S i) rest
      end
  end.


(** * Properties *)

(** ** Strings *)

Lemma lstrip_head s :
  Py.lstrip s = "" ∨ ∃ c r, Py.lstrip s = String c r ∧ Py.isspace c = false.
Proof.
  induction s as [|c r IH]; simpl; [by left|].
  destruct (Py.isspace c) eqn:Hc; [done|]. right. by exists c, r.
Qed.

Lemma rstrip_idem s : Py.rstrip (Py.rstrip s) = Py.rstrip s.
Proof.
  induction s as [|c r IH]; simpl; [done|].
  destruct (Py.rstrip r) as [|c' r'] eqn:Hr.
  - destruct (Py.isspace c) eqn:Hc; simpl; [done|]. by rewrite Hc.
  - change (Py.rstrip (String c (String c' r'))) with
      (match Py.rstrip (String c' r') with
       | "" => if Py.isspace c then "" else String c ""
       | r'' => String c r''
       end).
    by rewrite IH.
Qed.

Lemma lstrip_rstrip_head c r :
  Py.isspace c = false →
  Py.lstrip (Py.rstrip (String c r)) = Py.rstrip (String c r).
Proof.
  intros Hc. simpl. destruct (Py.rstrip r); rewrite ?Hc; simpl; by rewrite Hc.
Qed.

Lemma strip_idem s : Py.strip (Py.strip s) = Py.strip s.
Proof.
  unfold Py.strip.
  destruct (lstrip_head s) as [->|(c & r & -> & Hc)]; [done|].
  by rewrite lstrip_rstrip_head, rstrip_idem.
Qed.

Lemma lstrip_all_space s : Py.lstrip s = "" ↔ all_space s = true.
Proof.
  induction s as [|c r IH]; simpl; [done|].
  destruct (Py.isspace c); simpl; [done|]. split; discriminate.
Qed.

Lemma rstrip_head_nonempty c r :
  Py.isspace c = false → Py.rstrip (String c r) ≠ "".
Proof. intros Hc. simpl. destruct (Py.rstrip r); by rewrite ?Hc. Qed.

Lemma strip_all_space s : Py.strip s = "" ↔ all_space s = true.
Proof.
  rewrite <- lstrip_all_space. unfold Py.strip.
  destruct (lstrip_head s) as [->|(c & r & -> & Hc)]; [done|].
  split; [|discriminate]. intros H. by apply rstrip_head_nonempty in H.
Qed.


Lemma truthy_true s : Py.truthy s = true ↔ s ≠ "".
Proof. by destruct s. Qed.

Lemma or_else_nonempty s d : s ≠ "" → Py.or_else (Some s) d = s.
Proof. by destruct s. Qed.

Lemma or_else_get_default x d :
  Py.or_else (Some (default "" x)) d = Py.or_else x d.
Proof. by destruct x. Qed.

(** ** The index builder *)

Import Indexer.

Lemma add_document_Some lib writer d writer' :
  add_document lib writer d = Some writer' →
  writer' = writer ++ [d] ∧ accepts lib d = true.
Proof.
  unfold add_document. destruct (accepts lib d); [|done].
  intros [= <-]. done.
Qed.

Lemma index_file_extends w st e st' :
  index_file w st e = Ok st' → ∃ l, st'.1 = st.1 ++ l.
Proof.
  unfold index_file.
  destruct (negb _); [intros [= <-]; exists []; by rewrite app_nil_r|].
  destruct (_read_content _ _ _) as [c|]; simpl; [|done].
  destruct (add_document _ _ _) as [wr|] eqn:Ha; intros [= <-]; simpl.
  - apply add_document_Some in Ha as [-> _]. by eexists.
  - exists []. by rewrite app_nil_r.
Qed.

Lemma index_files_extends w entries st st' :
  index_files w entries st = Ok st' → ∃ l, st'.1 = st.1 ++ l.
Proof.
  revert st. induction entries as [|e rest IH]; intros st; simpl.
  - intros [= <-]. exists []. by rewrite app_nil_r.
  - destruct (index_file w st e) as [st1|] eqn:He; simpl; [|done].
    intros Hrest. apply index_file_extends in He as [l1 H1].
    apply IH in Hrest as [l2 H2]. exists (l1 ++ l2).
    by rewrite H2, H1, app_assoc.
Qed.

Lemma index_command_extends w st i c :
  ∃ l, (index_command w st i c).1 = st.1 ++ l.
Proof.
  unfold index_command. destruct (command_document i c) as [d|].
  - destruct (add_document _ _ _) as [wr|] eqn:Ha; simpl.
    + apply add_document_Some in Ha as [-> _]. by eexists.
    + exists []. by rewrite app_nil_r.
  - exists []. by rewrite app_nil_r.
Qed.

Lemma index_commands_extends w i cmds st :
  ∃ l, (index_commands w i cmds st).1 = st.1 ++ l.
Proof.
  revert i st. induction cmds as [|c rest IH]; intros i st; simpl.
  - exists []. by rewrite app_nil_r.
  - destruct (IH (S i) (index_command w st i c)) as [l2 H2].
    destruct (index_command_extends w st i c) as [l1 H1].
    exists (l1 ++ l2). by rewrite H2, H1, app_assoc.
Qed.

Lemma file_document_content p c :
  file_document p c =
  {| path := p; result_type := "file";
     content := if String.eqb c "" then " " else c |}.
Proof. by destruct c. Qed.

Lemma index_file_step w st e p c :
  Crawler.path e = Some p → p ≠ "" →
  _read_content (extractors w) p 500000 = Ok c →
  index_file w st e =
  Ok (match add_document (whoosh w) st.1 (file_document p c) with
      | Some writer => (writer, st.2 + 1)
      | None => st
      end).
Proof.
  intros Hp Hne Hc. unfold index_file. rewrite Hp.
  pose proof (proj2 (truthy_true p) Hne) as Ht.
  rewrite !(or_else_nonempty p "" Hne), Ht. cbn [negb]. rewrite Hc.
  simpl. by destruct (add_document _ _ _).
Qed.

Lemma index_files_keeps w entries st st' e p c :
  index_files w entries st = Ok st' →
  In e entries → Crawler.path e = Some p → p ≠ "" →
  _read_content (extractors w) p 500000 = Ok c →
  accepts (whoosh w) (file_document p c) = true →
  In (file_document p c) st'.1.
Proof.
  intros Hrun Hin Hp Hne Hc Hacc. revert st Hrun.
  induction entries as [|e0 rest IH]; intros st; simpl; [done|].
  destruct (index_file w st e0) as [st1|] eqn:He; simpl; [|done].
  intros Hrest. destruct Hin as [->|Hin]; [|by eapply IH].
  rewrite (index_file_step _ _ _ _ _ Hp Hne Hc) in He.
  unfold add_document in He. rewrite Hacc in He. injection He as <-.
  apply index_files_extends in Hrest as [l ->]. simpl.
  apply in_or_app. left. apply in_or_app. right. by left.
Qed.


(** What does hold for a file entry with a non-empty path [p] whose
    extraction returns [c]: the loop body makes exactly one
    [add_document] call, for the file document with id [p] whose content
    is [c] when [c] is non-empty and the one-space placeholder otherwise;
    the content is never empty, and once the writer takes the document
    it is in the built index. *)
Lemma build_index_one_document_per_file_entry
    (w : World) (e : Crawler.FileEntry) (p c : string) :
  Crawler.path e = Some p → p ≠ "" →
  _read_content (extractors w) p 500000 = Ok c →
  let doc := {| path := p; result_type := "file";
                content := if String.eqb c "" then " " else c |} in
  content doc ≠ ""
  ∧ (∀ st, index_file w st e =
           Ok (match add_document (whoosh w) st.1 doc with
               | Some writer => (writer, st.2 + 1)
               | None => st
               end))
  ∧ (∀ entries cmds d d' n,
       In e entries →
       build_index w entries cmds d = Ok (d', n) →
       accepts (whoosh w) doc = true →
       ∃ docs, search_index_dir d' = Index docs ∧ In doc docs).
Proof.
  intros Hp Hne Hc doc. subst doc. rewrite <- file_document_content.
  split; [|split].
  - rewrite file_document_content. simpl. by destruct c.
  - intros st. by apply index_file_step.
  - intros entries cmds d d' n Hin Hb Hacc. unfold build_index in Hb.
    destruct (index_files w entries ([], 0)) as [st|] eqn:Hf; simpl in Hb;
      [|done].
    injection Hb as <- <-. eexists. split; [done|]. simpl.
    destruct (index_commands_extends w 0
                (match cmds with
                 | Some l => l
                 | None => ActivityLogger.load_commands_from_logs (logs_dir d)
                 end) st) as [l ->].
    apply in_or_app. left. by eapply index_files_keeps.
Qed.


Lemma build_index_one_document_per_file_entry_witness :
  _read_content Example.readers "/home/u/docs/notes.txt" 500000
  = Ok "hello world"
  ∧ index_file (Example.world Example.monday) ([], 0)
      (Example.file_entry "/home/u/docs/notes.txt")
    = Ok ([ {| path := "/home/u/docs/notes.txt"; result_type := "file";
               content := "hello world" |} ], 1).
Proof.
  split; [vm_compute; reflexivity|].
  destruct (build_index_one_document_per_file_entry
              (Example.world Example.monday)
              (Example.file_entry "/home/u/docs/notes.txt")
              "/home/u/docs/notes.txt" "hello world")
    as (_ & Hstep & _);
    [reflexivity | discriminate | vm_compute; reflexivity |].
  rewrite Hstep. reflexivity.
Defined.


(** C6, at a list of entries with a file on which extraction raises:
    [_read_content(path_str)] stands before the [try] of the loop, so no
    [add_document] call is made for that entry, with or without a
    placeholder, and the exception leaves [build_index] before
    [writer.commit()]: the entry is dropped, and with it the document of
    the readable file listed before it. *)
Theorem build_index_drops_entry_when_extraction_raises :
  _read_content Example.readers "/home/u/docs/taiwan.txt" 500000
  = Raise LookupError
  ∧ index_file (Example.world Example.monday) ([], 0)
      (Example.file_entry "/home/u/docs/taiwan.txt")
    = Raise LookupError
  ∧ build_index (Example.world Example.monday)
      [ Example.file_entry "/home/u/docs/notes.txt";
        Example.file_entry "/home/u/docs/taiwan.txt" ]
      (Some []) Example.fresh
    = Raise LookupError
  ∧ build_index (Example.world Example.monday)
      [ Example.file_entry "/home/u/docs/notes.txt";
        Example.file_entry "/root/report.pdf" ]
      (Some []) Example.fresh
    = Raise OSError.
Proof. repeat split; vm_compute; reflexivity. Qed.

(** C1, at a list of file entries in which one path occurs twice: both
    entries are written and the built index holds two documents with the
    same id.  [full_index] hands [build_index] such a list when
    [folders_to_index] names one folder twice. *)
Theorem build_index_repeated_path_shares_id :
  (∃ d' n,
     build_index (Example.world Example.monday)
       [ Example.file_entry "/home/u/docs/notes.txt";
         Example.file_entry "/home/u/docs/notes.txt" ]
       (Some []) Example.fresh = Ok (d', n)
     ∧ n = 2
     ∧ index_ids d' = [ "/home/u/docs/notes.txt"; "/home/u/docs/notes.txt" ]
     ∧ ¬ NoDup (index_ids d'))
  ∧ (∃ d' n,
       full_index (Example.world Example.monday) Example.twice_config
         Example.fresh = Ok (d', n)
       ∧ n = 6
       ∧ index_ids d'
         = [ "/home/u/docs/notes.txt"; "/home/u/docs/big.pdf";
             "/home/u/docs/notes.txt"; "/home/u/docs/big.pdf";
             "command:2024-03-04T09:00:00:0";
             "command:2024-03-04T09:00:00:1" ]
       ∧ ¬ NoDup (index_ids d')).
Proof.
  split.
  - eexists _, _. split; [vm_compute; reflexivity|].
    split; [reflexivity|]. split; [reflexivity|].
    cbn. intros H. apply NoDup_cons in H as [Hin _]. apply Hin. by left.
  - eexists _, _. split; [vm_compute; reflexivity|].
    split; [reflexivity|]. split; [reflexivity|].
    cbn. intros H. apply NoDup_cons in H as [Hin _]. apply Hin.
    apply list_elem_of_In. right. by left.
Qed.

(** C2, at a text file for which chardet reports, with confidence above
    0.7, a codec name Python does not know: the [LookupError] of
    [raw.decode(encoding)] leaves [_read_content]. *)
Theorem read_content_unknown_codec_raises :
  _read_content Example.readers "/home/u/docs/taiwan.txt" 500000
  = Raise LookupError.
Proof. vm_compute. reflexivity. Qed.

(** A second input on which [_read_content] raises: [path.exists()] is
    not inside a [try], and for a path below a directory the user may
    not search it raises [PermissionError], an [OSError]. *)
Lemma read_content_unsearchable_directory_raises :
  _read_content Example.readers "/root/report.pdf" 500000 = Raise OSError.
Proof. vm_compute. reflexivity. Qed.

(** What does hold of extraction: when [path.exists()] answers and every
    codec name handed to [raw.decode] is known to Python, [_read_content]
    returns a string. *)
Lemma read_content_returns_with_known_codecs (x : Extractors)
    (path_str : string) (max_chars : Z) :
  path_exists x path_str ≠ None →
  (∀ raw detected enc,
     chardet_detect x raw = Some detected → encoding detected = Some enc →
     decode x enc raw ≠ UnknownCodec) →
  (∀ raw enc, In enc encodings → decode x enc raw ≠ UnknownCodec) →
  ∃ text, _read_content x path_str max_chars = Ok text.
Proof.
  intros Hex Hdet Hknown. unfold _read_content.
  destruct (path_exists x path_str) as [[]|]; [|by eexists|done].
  destruct (String.eqb _ ".pdf").
  { destruct (pdfplumber_block _ _ _); by eexists. }
  destruct (String.eqb _ ".docx"); [by eexists|].
  unfold plain_text_block.
  destruct (st_size x path_str) as [sz|]; cbn -[try_encodings encodings]; [|by eexists].
  destruct (max_chars * 2 <? sz)%Z; cbn -[try_encodings encodings]; [by eexists|].
  destruct (read_bytes x path_str) as [raw|]; cbn -[try_encodings encodings]; [|by eexists].
  assert (Hc : ∃ o, chardet_step x raw = Ok o).
  { unfold chardet_step.
    destruct (chardet_detect x raw) as [det|] eqn:Hd; [|by eexists].
    destruct (negb _); [|by eexists].
    destruct (encoding det) as [enc|] eqn:He; [|by eexists].
    destruct (Py.truthy enc); [|by eexists].
    specialize (Hdet raw det enc Hd He).
    destruct (decode x enc raw); [by eexists|by eexists|done]. }
  destruct Hc as [o ->]. cbn -[try_encodings encodings].
  destruct o as [text|]; [by eexists|].
  assert (Hl : ∀ encs, (∀ enc, In enc encs → In enc encodings) →
                       ∃ o, try_encodings x raw encs = Ok o).
  { induction encs as [|enc rest IH]; intros Hsub; simpl; [by eexists|].
    pose proof (Hknown raw enc (Hsub enc (or_introl eq_refl))) as Hk.
    destruct (decode x enc raw); [by eexists| |done].
    apply IH. intros enc' Hin. apply Hsub. by right. }
  destruct (Hl encodings (λ _ H, H)) as [o ->]. cbn.
  destruct o; by eexists.
Qed.

(** ** The crawler *)

Lemma in_crawl fs folders pats max_kb e :
  In e (Crawler.crawl fs folders pats max_kb) ↔
  ∃ folder n,
    In folder folders ∧ Crawler.is_dir fs folder = true
    ∧ In n (Crawler.rglob fs folder)
    ∧ Crawler.visit (max_kb * 1024) (Crawler.exclude_set pats) n = Some e.
Proof.
  unfold Crawler.crawl. rewrite in_flat_map. split.
  - intros (folder & Hf & Hin). destruct (Crawler.is_dir fs folder) eqn:Hd;
      [|done].
    apply list_elem_of_In, list_elem_of_omap in Hin as (n & Hn & Hv).
    apply list_elem_of_In in Hn. by exists folder, n.
  - intros (folder & n & Hf & Hd & Hn & Hv). exists folder. split; [done|].
    rewrite Hd. apply list_elem_of_In, list_elem_of_omap.
    apply list_elem_of_In in Hn. by exists n.
Qed.

Lemma visit_Some max_bytes excl n e :
  Crawler.visit max_bytes excl n = Some e →
  Crawler.is_file n = true
  ∧ Py.mem (Py.lower (Crawler.suffix n)) Crawler.INDEXABLE_EXTENSIONS = true
  ∧ Crawler.skip excl n = false
  ∧ ∃ st_mtime st_size,
      Crawler.stat n = Some (st_mtime, st_size)
      ∧ e = {| Crawler.path := Some (Crawler.resolve n);
               Crawler.mtime := Some st_mtime;
               Crawler.size := Some st_size |}.
Proof.
  unfold Crawler.visit.
  destruct (Crawler.is_file n); [|done].
  destruct (Py.mem _ Crawler.INDEXABLE_EXTENSIONS); [|done].
  destruct (Crawler.skip excl n); [done|]. cbn [negb].
  destruct (Crawler.stat n) as [[mt sz]|]; [|done].
  destruct (_ <? sz)%Z; [done|]. intros [= <-]. eauto 10.
Qed.








(** ** The query engine *)


Lemma search_index_rows w q limit d rows :
  search_index w q limit d = Ok rows →
  ∀ row, In row rows → ∃ hit, row = hit_row hit.
Proof.
  unfold search_index. destruct (negb _); [by intros [= <-]|].
  destruct (get_index d) as [docs|]; [|by intros [= <-]].
  destruct (parse _ _) as [query|]; [|by intros [= <-]].
  destruct (search _ _ _ _) as [hits|]; simpl; [|done].
  intros [= <-] row (hit & <- & _)%in_map_iff. by exists hit.
Qed.






(** ** Rebuilding from the snapshot *)

Lemma index_file_normalise w st e :
  index_file w st (Metadata.normalise e) = index_file w st e.
Proof.
  unfold index_file, Metadata.normalise. cbn [Crawler.path].
  by rewrite or_else_get_default.
Qed.

Lemma index_files_normalise w entries st :
  index_files w (List.map Metadata.normalise entries) st
  = index_files w entries st.
Proof.
  revert st. induction entries as [|e rest IH]; intros st; simpl; [done|].
  rewrite index_file_normalise.
  destruct (index_file w st e); simpl; [apply IH|done].
Qed.

(** C7: after a [full_index] that returned [n], deleting the index store
    and calling [rebuild_index] on the same installation returns [n]
    again (and rebuilds the same index). *)
Theorem rebuild_index_reproduces_full_index_count
    (w : World) (config : Config) (d d1 : DataDir) (n : nat) :
  full_index w config d = Ok (d1, n) →
  rebuild_index w (without_index d1) = Ok (d1, n).
Proof.
  unfold full_index, rebuild_index, build_index. cbn [logs_dir file_metadata_json].
  set (entries := Crawler.crawl _ _ _ _).
  set (logs := if default true (log_terminal_history config) then _ else _).
  destruct (index_files w entries ([], 0)) as [st|] eqn:Hf; simpl; [|done].
  intros [= <- <-]. unfold without_index. simpl.
  rewrite index_files_normalise, Hf. done.
Qed.

Lemma rebuild_index_reproduces_full_index_count_witness :
  full_index (Example.world Example.monday) Example.config Example.fresh
  = Ok (Example.after_monday, 4)
  ∧ rebuild_index (Example.world Example.monday)
      (without_index Example.after_monday)
    = Ok (Example.after_monday, 4).
Proof.
  split; [vm_compute; reflexivity|].
  apply (rebuild_index_reproduces_full_index_count
           (Example.world Example.monday) Example.config Example.fresh).
  vm_compute. reflexivity.
Defined.

(** ** Syncing the shell history twice *)

Lemma fold_left_nested {A B} (f : A → B → A) (ls : list (list B)) (a : A) :
  fold_left (λ st l, fold_left f l st) ls a = fold_left f (concat ls) a.
Proof.
  revert a. induction ls as [|l ls IH]; intros a; simpl; [done|].
  by rewrite fold_left_app, IH.
Qed.

Lemma history_command_stripped line cmd :
  ActivityLogger.history_command line = Some cmd → Py.strip cmd = cmd.
Proof.
  unfold ActivityLogger.history_command.
  destruct (_ || _); [done|].
  destruct (_ && _).
  - destruct (Py.find_char ";" _); intros [= <-]; apply strip_idem.
  - intros [= <-]. apply strip_idem.
Qed.

(** The loop over the lines: what it adds to [existing] is what
    [_existing_commands] will read back from the new entries, and every
    command of the lines is in the final set. *)
Lemma scan_lines_inv h cf lines (existing : gset string) acc :
  ∃ new,
    fold_left (ActivityLogger.scan_line h cf) lines (existing, acc)
    = (existing ∪ list_to_set (List.map logged_command new), acc ++ new)
    ∧ ∀ line cmd,
        In line lines → ActivityLogger.history_command line = Some cmd →
        cmd ∈ existing ∪ list_to_set (List.map logged_command new).
Proof.
  revert existing acc.
  induction lines as [|line rest IH]; intros existing acc; simpl.
  - exists []. simpl. split; [|done].
    f_equal; [set_solver|by rewrite app_nil_r].
  - unfold ActivityLogger.scan_line at 2.
    destruct (ActivityLogger.history_command line) as [cmd|] eqn:Hcmd.
    + cbn [fst snd]. destruct (bool_decide (cmd ∈ existing)) eqn:Hin.
      * apply bool_decide_eq_true in Hin.
        destruct (IH existing acc) as (new & Hrun & Hall).
        exists new. split; [done|].
        intros l c [<-|Hl] Hc; [|by eapply Hall].
        rewrite Hcmd in Hc. injection Hc as <-. set_solver.
      * set (entry := {| ActivityLogger.type := Some "command";
                         ActivityLogger.timestamp :=
                           Some (ActivityLogger.now_iso h);
                         ActivityLogger.command := Some cmd;
                         ActivityLogger.cwd :=
                           Some (Py.or_else (Some cf)
                                   (ActivityLogger.getcwd h)) |}).
        assert (Hlog : logged_command entry = cmd)
          by apply (history_command_stripped _ _ Hcmd).
        destruct (IH ({[cmd]} ∪ existing) (acc ++ [entry]))
          as (new & Hrun & Hall).
        exists (entry :: new). rewrite Hrun.
        cbn [List.map list_to_set]. rewrite Hlog. split.
        -- f_equal; [set_solver|by rewrite <- app_assoc].
        -- intros l c [<-|Hl] Hc.
           ++ rewrite Hcmd in Hc. injection Hc as <-. set_solver.
           ++ specialize (Hall l c Hl Hc). set_solver.
    + destruct (IH existing acc) as (new & Hrun & Hall).
      exists new. split; [done|].
      intros l c [<-|Hl] Hc; [congruence|by eapply Hall].
Qed.

Lemma scan_lines_noop h cf lines (existing : gset string) :
  (∀ line cmd,
     In line lines → ActivityLogger.history_command line = Some cmd →
     cmd ∈ existing) →
  fold_left (ActivityLogger.scan_line h cf) lines (existing, [])
  = (existing, []).
Proof.
  induction lines as [|line rest IH]; intros Hall; simpl; [done|].
  unfold ActivityLogger.scan_line at 2.
  destruct (ActivityLogger.history_command line) as [cmd|] eqn:Hcmd.
  - cbn [fst]. rewrite bool_decide_eq_true_2 by (eapply Hall; [by left|done]).
    apply IH. intros l c Hl. apply Hall. by right.
  - apply IH. intros l c Hl. apply Hall. by right.
Qed.

Lemma existing_commands_items data new :
  ActivityLogger._existing_commands
    (Some (ActivityLogger.Items (data ++ List.map ActivityLogger.Dict new)))
  = ActivityLogger._existing_commands (Some (ActivityLogger.Items data))
    ∪ list_to_set (List.map logged_command new).
Proof.
  unfold ActivityLogger._existing_commands.
  rewrite omap_app, list_to_set_app_L. do 2 f_equal.
  induction new as [|c new IH]; [done|]. cbn. by rewrite IH.
Qed.

(** A second sync on the same day, host and shell history appends
    nothing. *)
Lemma sync_terminal_history_again h1 h2 cf1 cf2
    (logs : gmap string ActivityLogger.LogFile) :
  ActivityLogger.hostname h2 = ActivityLogger.hostname h1 →
  ActivityLogger.today h2 = ActivityLogger.today h1 →
  ActivityLogger.history h2 = ActivityLogger.history h1 →
  ActivityLogger.sync_terminal_history h2 cf2
    (ActivityLogger.sync_terminal_history h1 cf1 logs).1
  = ((ActivityLogger.sync_terminal_history h1 cf1 logs).1, 0%Z).
Proof.
  intros Hhost Hday Hhist.
  assert (Hpath : ActivityLogger._log_path h2 = ActivityLogger._log_path h1).
  { unfold ActivityLogger._log_path. by rewrite Hhost, Hday. }
  assert (Hnoop : ∀ logs' : gmap string ActivityLogger.LogFile,
    (∀ line cmd,
       In line (concat (ActivityLogger.history h1)) →
       ActivityLogger.history_command line = Some cmd →
       cmd ∈ ActivityLogger._existing_commands
               (logs' !! ActivityLogger._log_path h1)) →
    ActivityLogger.sync_terminal_history h2 cf2 logs' = (logs', 0%Z)).
  { intros logs' Hall. unfold ActivityLogger.sync_terminal_history.
    unfold ActivityLogger.scan_history.
    rewrite fold_left_nested, Hpath, Hhist, scan_lines_noop; done. }
  unfold ActivityLogger.sync_terminal_history at 2 3.
  unfold ActivityLogger.scan_history. rewrite fold_left_nested.
  destruct (scan_lines_inv h1 cf1 (concat (ActivityLogger.history h1))
              (ActivityLogger._existing_commands
                 (logs !! ActivityLogger._log_path h1)) [])
    as (new & -> & Hall).
  cbn [snd app]. destruct new as [|c new].
  - cbn [fst]. apply Hnoop. intros line cmd Hl Hc.
    specialize (Hall line cmd Hl Hc). set_solver.
  - cbn [fst]. apply Hnoop. intros line cmd Hl Hc.
    specialize (Hall line cmd Hl Hc).
    rewrite lookup_insert_eq, existing_commands_items.
    destruct (logs !! ActivityLogger._log_path h1) as [[| |data]|];
      set_solver.
Qed.

(** ** Indexing twice *)

Lemma index_files_at_host w h entries st :
  index_files (at_host w h) entries st = index_files w entries st.
Proof.
  revert st. induction entries as [|e rest IH]; intros st; simpl; [done|].
  change (index_file (at_host w h) st e) with (index_file w st e).
  destruct (index_file w st e); simpl; [apply IH|done].
Qed.

Lemma index_commands_at_host w h i cmds st :
  index_commands (at_host w h) i cmds st = index_commands w i cmds st.
Proof.
  revert i st. induction cmds as [|c rest IH]; intros i st; simpl; [done|].
  apply IH.
Qed.

Lemma build_index_at_host w h entries cmds d :
  build_index (at_host w h) entries cmds d = build_index w entries cmds d.
Proof.
  unfold build_index. rewrite index_files_at_host.
  destruct (index_files w entries ([], 0)); simpl; [|done].
  by rewrite index_commands_at_host.
Qed.

(** A crawl of folders the data directory lies outside of does not
    depend on what the data directory holds. *)
Lemma crawl_data_dir_outside w folders pats max_kb d d' :
  data_dir_outside w folders →
  Crawler.crawl (fs w d) folders pats max_kb
  = Crawler.crawl (fs w d') folders pats max_kb.
Proof.
  intros Hout. specialize (Hout d d'). unfold Crawler.crawl.
  induction folders as [|folder l IH]; cbn; [done|].
  destruct (Hout folder) as [-> ->]; [by left|].
  f_equal. apply IH. intros f Hf. apply Hout. by right.
Qed.

(** C8 as amended: when the data directory lies outside the indexed
    folders and a second [full_index] runs on the same calendar day,
    under the same host name and with the same shell history, file
    system and libraries as a first one that returned [n], it returns [n]
    as well and leaves the same index, so every query gives the same
    results after either call. *)
Theorem full_index_again_same_day
    (w : World) (h2 : ActivityLogger.Host) (config : Config)
    (d d1 : DataDir) (n : nat) :
  data_dir_outside w (default [] (folders_to_index config)) →
  ActivityLogger.hostname h2 = ActivityLogger.hostname (host w) →
  ActivityLogger.today h2 = ActivityLogger.today (host w) →
  ActivityLogger.history h2 = ActivityLogger.history (host w) →
  full_index w config d = Ok (d1, n) →
  ∃ d2,
    full_index (at_host w h2) config d1 = Ok (d2, n)
    ∧ search_index_dir d2 = search_index_dir d1
    ∧ ∀ q limit,
        search_index (at_host w h2) q limit d2 = search_index w q limit d1.
Proof.
  intros Hout Hhost Hday Hhist Hfirst. exists d1.
  assert (Hsecond : full_index (at_host w h2) config d1 = Ok (d1, n));
    [|by rewrite Hsecond].
  revert Hfirst. unfold full_index. rewrite build_index_at_host.
  change (fs (at_host w h2)) with (fs w).
  change (host (at_host w h2)) with h2.
  set (logs1 := if default true (log_terminal_history config) then _ else _).
  set (entries := Crawler.crawl _ _ _ _).
  unfold build_index. cbn [logs_dir file_metadata_json].
  destruct (index_files w entries ([], 0)) as [st|] eqn:Hfiles; simpl;
    [|done].
  intros [= <- <-]. cbn [logs_dir file_metadata_json search_index_dir].
  set (logs2 := if default true (log_terminal_history config) then _ else _).
  assert (Hlogs : logs2 = logs1).
  { subst logs1 logs2. destruct (default true (log_terminal_history config));
      [|done].
    by rewrite sync_terminal_history_again. }
  rewrite Hlogs.
  rewrite (crawl_data_dir_outside w _ _ _ _
             {| logs_dir := logs1;
                file_metadata_json := file_metadata_json d;
                search_index_dir := search_index_dir d |} Hout).
  fold entries. rewrite Hfiles. reflexivity.
Qed.

Lemma full_index_again_same_day_witness :
  full_index (Example.world Example.monday) Example.config Example.fresh
  = Ok (Example.after_monday, 4)
  ∧ ∃ d2,
      full_index (at_host (Example.world Example.monday) Example.monday_later)
        Example.config Example.after_monday = Ok (d2, 4)
      ∧ search_index_dir d2 = search_index_dir Example.after_monday
      ∧ ∀ q limit,
          search_index (at_host (Example.world Example.monday)
                          Example.monday_later) q limit d2
          = search_index (Example.world Example.monday) q limit
              Example.after_monday.
Proof.
  split; [vm_compute; reflexivity|].
  apply (full_index_again_same_day (Example.world Example.monday)
           Example.monday_later Example.config Example.fresh
           Example.after_monday 4);
    [intros d d' folder _; split; reflexivity
    | reflexivity | reflexivity | reflexivity | vm_compute; reflexivity].
Defined.

(** C8 as stated fails across midnight: with the file system, the shell
    history and the logs left alone between the calls, the second
    [full_index] runs on the next day, finds that day's log file missing,
    appends the whole shell history again and returns a larger count. *)
Lemma full_index_next_day_counts_history_again :
  full_index (Example.world Example.monday) Example.config Example.fresh
  = Ok (Example.after_monday, 4)
  ∧ ∃ d2,
      full_index (at_host (Example.world Example.monday) Example.tuesday)
        Example.config Example.after_monday = Ok (d2, 6)
      ∧ 4 ≠ 6.
Proof.
  split; [vm_compute; reflexivity|].
  eexists. split; [vm_compute; reflexivity|]. lia.
Qed.

(** Why the amended C8 asks for a data directory outside the indexed
    folders: with [/home/u/LoadsSearch] under the indexed [/home/u], the
    second pass on the same day crawls the snapshot the first pass wrote
    and returns a larger count. *)
Lemma full_index_again_counts_own_snapshot :
  ∃ d1 d2,
    full_index (Sample.home_world Example.monday) Sample.home_config
      Example.fresh = Ok (d1, 4)
    ∧ full_index (Sample.home_world Example.monday_later) Sample.home_config
        d1 = Ok (d2, 5)
    ∧ ¬ data_dir_outside (Sample.home_world Example.monday) ["/home/u"].
Proof.
  eexists _, _. split; [vm_compute; reflexivity|].
  split; [vm_compute; reflexivity|].
  intros Hout.
  destruct (Hout Example.fresh Example.after_monday "/home/u") as [_ Hr];
    [by left|].
  vm_compute in Hr. discriminate Hr.
Qed.

(** ** Ids of command documents *)

Lemma str_of_nat_inj i j : Py.str_of_nat i = Py.str_of_nat j → i = j.
Proof.
  unfold Py.str_of_nat. intros H. apply Unsigned.to_uint_inj.
  assert (Hs : Some (Nat.to_uint i) = Some (Nat.to_uint j))
    by (rewrite <- !NilEmpty.usu; by rewrite H).
  by injection Hs.
Qed.

Lemma str_of_nat_no_colon i : Py.find_char ":" (Py.str_of_nat i) = None.
Proof.
  unfold Py.str_of_nat. induction (Nat.to_uint i) as [|d IH|d IH|d IH|d IH
    |d IH|d IH|d IH|d IH|d IH|d IH]; simpl; try done; by rewrite IH.
Qed.

Lemma find_char_after_colon r b :
  Py.find_char ":" (r ++ String ":" b)%string ≠ None.
Proof.
  induction r as [|c r IH]; simpl; [done|].
  destruct (Ascii.eqb c ":"); [done|].
  destruct (Py.find_char _ _); [done|congruence].
Qed.

(** Two texts ending in a colon and a colon-free field agree on that
    field when they are equal. *)
Lemma last_field_eq a a' b b' :
  Py.find_char ":" b = None → Py.find_char ":" b' = None →
  (a ++ String ":" b)%string = (a' ++ String ":" b')%string → b = b'.
Proof.
  intros Hb Hb'. revert a'.
  induction a as [|c a IH]; intros [|c' a']; simpl.
  - by intros [= ->].
  - intros [= <- ->]. by destruct (find_char_after_colon a' b').
  - intros [= -> <-]. by destruct (find_char_after_colon a b).
  - intros [= _ H]. by apply (IH a').
Qed.

(** The ids of command documents written at different positions differ,
    whatever the timestamps. *)
Lemma build_index_command_ids_differ i j c c' d d' :
  command_document i c = Some d → command_document j c' = Some d' →
  path d = path d' → i = j.
Proof.
  unfold command_document.
  destruct (negb _); [done|]. destruct (negb _); [done|].
  intros [= <-] [= <-]. cbn [path]. intros Heq.
  apply str_of_nat_inj. simpl in Heq. injection Heq as Heq.
  by apply (last_field_eq _ _ _ _ (str_of_nat_no_colon i)
              (str_of_nat_no_colon j)) in Heq.
Qed.

(** ** When the ids of a built index are pairwise distinct *)

Lemma index_files_ids w entries st st' :
  index_files w entries st = Ok st' →
  ∃ l, st'.1 = st.1 ++ l ∧ List.map path l `sublist_of` entry_ids entries.
Proof.
  revert st. induction entries as [|e rest IH]; intros st; simpl.
  - intros [= <-]. exists []. by rewrite app_nil_r.
  - destruct (index_file w st e) as [st1|] eqn:He; simpl; [|done].
    intros (l & -> & Hsub)%IH. revert He. unfold index_file, entry_ids.
    cbn [omap list_omap]. fold (entry_ids rest).
    destruct (Py.truthy (Py.or_else (Crawler.path e) "")); cbn [negb].
    + destruct (_read_content _ _ _) as [c|]; simpl; [|done].
      unfold add_document. destruct (accepts _ _); intros [= <-]; simpl.
      * eexists (_ :: l). rewrite <- app_assoc. split; [done|].
        simpl. by apply sublist_skip.
      * exists l. split; [done|]. by apply sublist_cons.
    + intros [= <-]. by exists l.
Qed.

Lemma index_commands_docs w i cmds st :
  ∃ l, (index_commands w i cmds st).1 = st.1 ++ l
       ∧ l `sublist_of` command_documents i cmds.
Proof.
  revert i st. induction cmds as [|c rest IH]; intros i st; simpl.
  - exists []. by rewrite app_nil_r.
  - destruct (IH (S i) (index_command w st i c)) as (l & -> & Hsub).
    unfold index_command, add_document.
    destruct (command_document i c) as [d|]; [|by exists l].
    destruct (accepts _ d); simpl.
    + exists (d :: l). rewrite <- app_assoc. split; [done|].
      by apply sublist_skip.
    + exists l. split; [done|]. by apply sublist_cons.
Qed.

Lemma command_documents_from i cmds d :
  In d (command_documents i cmds) →
  ∃ j c, (i ≤ j)%nat ∧ command_document j c = Some d.
Proof.
  revert i. induction cmds as [|c rest IH]; intros i; simpl; [done|].
  destruct (command_document i c) as [d0|] eqn:Hd.
  - intros [<-|Hin]; [by exists i, c|].
    destruct (IH _ Hin) as (j & c' & Hj & Hc). exists j, c'. split; [lia|done].
  - intros Hin. destruct (IH _ Hin) as (j & c' & Hj & Hc).
    exists j, c'. split; [lia|done].
Qed.

Lemma command_documents_ids_NoDup i cmds :
  NoDup (List.map path (command_documents i cmds)).
Proof.
  revert i. induction cmds as [|c rest IH]; intros i; simpl; [constructor|].
  destruct (command_document i c) as [d|] eqn:Hd; [|apply IH].
  simpl. constructor; [|apply IH].
  intros (d' & Heq & Hin)%list_elem_of_In%in_map_iff.
  apply command_documents_from in Hin as (j & c' & Hj & Hc).
  pose proof (build_index_command_ids_differ j i c' c d' d Hc Hd Heq). lia.
Qed.

Lemma command_document_prefix i c d :
  command_document i c = Some d → Py.startswith "command:" (path d) = true.
Proof.
  unfold command_document. destruct (negb _); [done|].
  intros [= <-]. reflexivity.
Qed.

(** For entries whose non-empty paths are pairwise distinct and do not
    begin with [command:], no two documents of the built index share an
    id. *)
Lemma build_index_ids_NoDup w entries cmds d d' n :
  build_index w entries cmds d = Ok (d', n) →
  NoDup (entry_ids entries) →
  (∀ p, In p (entry_ids entries) → Py.startswith "command:" p = false) →
  NoDup (index_ids d').
Proof.
  intros Hb Hnd Hpre. revert Hb. unfold build_index.
  destruct (index_files w entries ([], 0)) as [st|] eqn:Hf; simpl; [|done].
  intros [= <- <-]. unfold index_ids. simpl.
  apply index_files_ids in Hf as (lf & Hst & Hsubf). simpl in Hst.
  destruct (index_commands_docs w 0
              (match cmds with
               | Some l => l
               | None => ActivityLogger.load_commands_from_logs (logs_dir d)
               end) st) as (lc & -> & Hsubc).
  rewrite Hst, map_app. apply NoDup_app. split; [|split].
  - by eapply sublist_NoDup.
  - intros x Hx (dc & Heq & Hin)%list_elem_of_In%in_map_iff.
    apply list_elem_of_In in Hin.
    eapply elem_of_sublist in Hin; [|exact Hsubc].
    apply list_elem_of_In in Hin.
    apply command_documents_from in Hin as (j & c & _ & Hc).
    apply command_document_prefix in Hc. rewrite Heq in Hc.
    eapply elem_of_sublist in Hx; [|exact Hsubf].
    apply list_elem_of_In, Hpre in Hx. congruence.
  - eapply sublist_NoDup; [apply (command_documents_ids_NoDup 0)|].
    by apply fmap_sublist.
Qed.

(** * Further properties of the code *)

(** ** crawl *)

Lemma visit_iff max_bytes excl n e :
  Crawler.visit max_bytes excl n = Some e ↔
  Crawler.is_file n = true
  ∧ Py.mem (Py.lower (Crawler.suffix n)) Crawler.INDEXABLE_EXTENSIONS = true
  ∧ Crawler.skip excl n = false
  ∧ ∃ st_mtime st_size,
      Crawler.stat n = Some (st_mtime, st_size)
      ∧ (st_size ≤
         if Py.mem (Py.lower (Crawler.suffix n)) Crawler.LARGE_FILE_EXTENSIONS
         then 10 * 1024 * 1024 else max_bytes)%Z
      ∧ e = {| Crawler.path := Some (Crawler.resolve n);
               Crawler.mtime := Some st_mtime;
               Crawler.size := Some st_size |}.
Proof.
  unfold Crawler.visit, Crawler.LARGE_FILE_MAX_KB.
  destruct (Crawler.is_file n); cbn [negb]; [|naive_solver].
  destruct (Py.mem _ Crawler.INDEXABLE_EXTENSIONS); cbn [negb];
    [|naive_solver].
  destruct (Crawler.skip excl n); [naive_solver|].
  destruct (Crawler.stat n) as [[mt sz]|]; [|naive_solver].
  change (10 * 1024 * 1024)%Z with (10 * 1024 * 1024)%Z.
  destruct (Py.mem _ Crawler.LARGE_FILE_EXTENSIONS).
  - destruct (Z.ltb_spec (10 * 1024 * 1024) sz).
    + split; [done|]. intros (_ & _ & _ & mt' & sz' & [= <- <-] & Hle & _).
      lia.
    + split.
      * intros [= <-]. repeat split. exists mt, sz. repeat split. lia.
      * intros (_ & _ & _ & mt' & sz' & [= <- <-] & _ & ->). done.
  - destruct (Z.ltb_spec max_bytes sz).
    + split; [done|]. intros (_ & _ & _ & mt' & sz' & [= <- <-] & Hle & _).
      lia.
    + split.
      * intros [= <-]. repeat split. exists mt, sz. repeat split. lia.
      * intros (_ & _ & _ & mt' & sz' & [= <- <-] & _ & ->). done.
Qed.

Lemma crawl_yields_all_fields fs folders pats max_kb e :
  In e (Crawler.crawl fs folders pats max_kb) →
  ∃ p mt sz,
    e = {| Crawler.path := Some p; Crawler.mtime := Some mt;
           Crawler.size := Some sz |}.
Proof.
  intros (folder & n & _ & _ & _ & Hv)%in_crawl.
  apply visit_Some in Hv as (_ & _ & _ & mt & sz & _ & ->). by eexists _, _, _.
Qed.


(** X2: every yielded record carries a path, an mtime and a size, and
    the size is at most the larger of the two limits. *)
Theorem crawl_records_complete_and_bounded
    (fs : Crawler.FileSystem) (folders pats : list string) (max_kb : Z)
    (e : Crawler.FileEntry) :
  In e (Crawler.crawl fs folders pats max_kb) →
  ∃ p mt sz,
    e = {| Crawler.path := Some p; Crawler.mtime := Some mt;
           Crawler.size := Some sz |}
    ∧ (sz ≤ Z.max (max_kb * 1024) (10 * 1024 * 1024))%Z.
Proof.
  intros (folder & n & _ & _ & _ & Hv)%in_crawl.
  apply visit_iff in Hv as (_ & _ & _ & mt & sz & _ & Hle & ->).
  exists (Crawler.resolve n), mt, sz. split; [done|].
  destruct (Py.mem _ Crawler.LARGE_FILE_EXTENSIONS); lia.
Qed.

Lemma crawl_records_complete_and_bounded_witness :
  ∃ p mt sz,
    Crawler.Build_FileEntry (Some "/home/u/docs/big.pdf")
      (Some 1700000000%Q) (Some 600000%Z)
    = {| Crawler.path := Some p; Crawler.mtime := Some mt;
         Crawler.size := Some sz |}
    ∧ (sz ≤ Z.max (512 * 1024) (10 * 1024 * 1024))%Z.
Proof.
  apply (crawl_records_complete_and_bounded Example.disk ["/home/u/docs"]
           ["node_modules"] 512).
  vm_compute. tauto.
Defined.

Lemma omap_sublist {A B} (f g : A → option B) (l : list A) :
  (∀ x y, f x = Some y → g x = Some y) → omap f l `sublist_of` omap g l.
Proof.
  intros Hfg. induction l as [|x l IH]; cbn; [constructor|].
  destruct (f x) as [y|] eqn:Hf.
  - rewrite (Hfg x y Hf). by constructor.
  - destruct (g x); [by constructor|done].
Qed.

Lemma flat_map_sublist {A B} (f g : A → list B) (l : list A) :
  (∀ x, f x `sublist_of` g x) → flat_map f l `sublist_of` flat_map g l.
Proof.
  intros Hfg. induction l as [|x l IH]; cbn; [constructor|].
  by apply sublist_app.
Qed.

Lemma skip_subseteq (excl excl' : gset string) n :
  excl ⊆ excl' → Crawler.skip excl' n = false → Crawler.skip excl n = false.
Proof.
  unfold Crawler.skip. intros Hsub Hs.
  apply not_true_iff_false. intros (part & Hin & Hd)%existsb_exists.
  apply bool_decide_eq_true in Hd.
  assert (existsb (λ part, bool_decide (Py.lower part ∈ excl'))
                  (Crawler.parts n) = true); [|congruence].
  apply existsb_exists. exists part. split; [done|].
  apply bool_decide_eq_true. by apply Hsub.
Qed.

(** X3: excluding more patterns or lowering the size limit only takes
    records out of what [crawl] yields: the records that stay are yielded
    in the order they had. *)
Theorem crawl_shrinks_with_more_patterns_and_lower_limit
    (fs : Crawler.FileSystem) (folders pats more : list string)
    (max_kb max_kb' : Z) :
  (max_kb ≤ max_kb')%Z →
  Crawler.crawl fs folders (pats ++ more) max_kb
    `sublist_of` Crawler.crawl fs folders pats max_kb'.
Proof.
  intros Hle. unfold Crawler.crawl. apply flat_map_sublist. intros folder.
  destruct (Crawler.is_dir fs folder); [|done].
  apply omap_sublist. intros n e.
  rewrite !visit_iff. intros (Hf & Hext & Hskip & mt & sz & Hst & Hsz & ->).
  split; [done|]. split; [done|]. split.
  - apply (skip_subseteq _ (Crawler.exclude_set (pats ++ more))); [|done].
    unfold Crawler.exclude_set. rewrite List.filter_app, List.map_app.
    intros x. rewrite !elem_of_list_to_set, elem_of_app. tauto.
  - exists mt, sz. split; [done|]. split; [|done].
    destruct (Py.mem _ Crawler.LARGE_FILE_EXTENSIONS); lia.
Qed.

Lemma crawl_shrinks_with_more_patterns_and_lower_limit_witness :
  Crawler.crawl Example.disk ["/home/u/docs"] ["node_modules"] 100
    `sublist_of` Crawler.crawl Example.disk ["/home/u/docs"] [] 512.
Proof.
  apply (crawl_shrinks_with_more_patterns_and_lower_limit Example.disk
           ["/home/u/docs"] [] ["node_modules"] 100 512).
  lia.
Defined.

(** X4: exclude patterns are compared after trimming and lowercasing:
    replacing a pattern by one that differs only in case and surrounding
    whitespace does not change what is crawled. *)
Theorem crawl_pattern_case_and_whitespace
    (fs : Crawler.FileSystem) (folders pats1 pats2 : list string)
    (p q : string) (max_kb : Z) :
  p ≠ "" → q ≠ "" →
  Py.lower (Py.strip p) = Py.lower (Py.strip q) →
  Crawler.crawl fs folders (pats1 ++ p :: pats2) max_kb
  = Crawler.crawl fs folders (pats1 ++ q :: pats2) max_kb.
Proof.
  intros Hp Hq Heq. unfold Crawler.crawl.
  assert (Hset : Crawler.exclude_set (pats1 ++ p :: pats2)
                 = Crawler.exclude_set (pats1 ++ q :: pats2)); [|by rewrite Hset].
  unfold Crawler.exclude_set. rewrite !List.filter_app, !List.map_app.
  cbn [List.filter]. rewrite (proj2 (truthy_true p) Hp).
  rewrite (proj2 (truthy_true q) Hq). cbn [List.map]. by rewrite Heq.
Qed.

Lemma crawl_pattern_case_and_whitespace_witness :
  Crawler.crawl Example.disk ["/home/u/docs"] [".git"; " Node_Modules "] 512
  = Crawler.crawl Example.disk ["/home/u/docs"] [".git"; "node_modules"] 512.
Proof.
  apply (crawl_pattern_case_and_whitespace Example.disk ["/home/u/docs"]
           [".git"] [] " Node_Modules " "node_modules" 512).
  - intros H; discriminate H.
  - intros H; discriminate H.
  - vm_compute. reflexivity.
Defined.

(** ** The activity log *)

Lemma lstrip_length s : (String.length (Py.lstrip s) ≤ String.length s)%nat.
Proof.
  induction s as [|c r IH]; simpl; [lia|].
  destruct (Py.isspace c); simpl; lia.
Qed.

Lemma rstrip_length s : (String.length (Py.rstrip s) ≤ String.length s)%nat.
Proof.
  induction s as [|c r IH]; simpl; [lia|].
  destruct (Py.rstrip r); [destruct (Py.isspace c)|]; simpl in *; lia.
Qed.

Lemma strip_length s : (String.length (Py.strip s) ≤ String.length s)%nat.
Proof.
  unfold Py.strip. pose proof (rstrip_length (Py.lstrip s)).
  pose proof (lstrip_length s). lia.
Qed.

Lemma drop_length n s : (String.length (Py.drop n s) ≤ String.length s)%nat.
Proof.
  revert s. induction n as [|n IH]; intros [|c r]; simpl; try lia.
  specialize (IH r). lia.
Qed.

Lemma history_command_length line cmd :
  ActivityLogger.history_command line = Some cmd →
  (String.length cmd ≤ 2000)%nat.
Proof.
  unfold ActivityLogger.history_command.
  destruct (negb _) ; [done|]. cbn [orb].
  destruct (Nat.ltb_spec 2000 (String.length (Py.strip line))); [done|].
  destruct (_ && _).
  - destruct (Py.find_char ";" _) as [idx|]; intros Heq;
      injection Heq as <-; [|done].
    pose proof (strip_length (Py.drop (S idx) (Py.strip line))).
    pose proof (drop_length (S idx) (Py.strip line)).
    change (String.length (Py.strip (Py.drop (S idx) (Py.strip line)))
            ≤ 2000)%nat.
    lia.
  - by intros [= <-].
Qed.


(** The loop over the lines, seen from the entries it appends. *)
Lemma scan_lines_new h cf lines (existing : gset string) acc :
  ∃ new,
    fold_left (ActivityLogger.scan_line h cf) lines (existing, acc)
    = (existing ∪ list_to_set (List.map logged_command new), acc ++ new)
    ∧ NoDup (List.map logged_command new)
    ∧ ∀ c, In c new →
        ActivityLogger.type c = Some "command"
        ∧ ActivityLogger.timestamp c = Some (ActivityLogger.now_iso h)
        ∧ ActivityLogger.cwd c
          = Some (Py.or_else (Some cf) (ActivityLogger.getcwd h))
        ∧ ActivityLogger.command c = Some (logged_command c)
        ∧ (logged_command c ∉ existing)
        ∧ ∃ line, In line lines
            ∧ ActivityLogger.history_command line = Some (logged_command c).
Proof.
  revert existing acc.
  induction lines as [|line rest IH]; intros existing acc; simpl.
  - exists []. simpl. split; [|split; [constructor|done]].
    f_equal; [set_solver|by rewrite app_nil_r].
  - unfold ActivityLogger.scan_line at 2.
    destruct (ActivityLogger.history_command line) as [cmd|] eqn:Hcmd.
    + cbn [fst snd]. destruct (bool_decide (cmd ∈ existing)) eqn:Hin.
      * destruct (IH existing acc) as (new & Hrun & Hnd & Hall).
        exists new. split; [done|]. split; [done|].
        intros c Hc. destruct (Hall c Hc) as (?&?&?&?&?&l&?&?).
        repeat split; try done. exists l. split; [by right|done].
      * apply bool_decide_eq_false in Hin.
        set (entry := {| ActivityLogger.type := Some "command";
                         ActivityLogger.timestamp :=
                           Some (ActivityLogger.now_iso h);
                         ActivityLogger.command := Some cmd;
                         ActivityLogger.cwd :=
                           Some (Py.or_else (Some cf)
                                   (ActivityLogger.getcwd h)) |}).
        assert (Hlog : logged_command entry = cmd)
          by apply (history_command_stripped _ _ Hcmd).
        destruct (IH ({[cmd]} ∪ existing) (acc ++ [entry]))
          as (new & Hrun & Hnd & Hall).
        exists (entry :: new). rewrite Hrun.
        cbn [List.map list_to_set]. rewrite Hlog. split; [|split].
        -- f_equal; [set_solver|by rewrite <- app_assoc].
        -- constructor; [|done].
           intros (c & Heq & Hc)%list_elem_of_In%in_map_iff.
           destruct (Hall c Hc) as (_&_&_&_&Hnot&_). set_solver.
        -- intros c [<-|Hc].
           ++ rewrite Hlog. repeat split; try done.
              exists line. split; [by left|done].
           ++ destruct (Hall c Hc) as (?&?&?&?&Hnot&l&?&?).
              repeat split; try done; [set_solver|].
              exists l. split; [by right|done].
    + destruct (IH existing acc) as (new & Hrun & Hnd & Hall).
      exists new. split; [done|]. split; [done|].
      intros c Hc. destruct (Hall c Hc) as (?&?&?&?&?&l&?&?).
      repeat split; try done. exists l. split; [by right|done].
Qed.

(** [sync_terminal_history] in one equation: the entries it appends and
    where it puts them. *)
Lemma sync_terminal_history_spec h cf
    (logs : gmap string ActivityLogger.LogFile) :
  ∃ new,
    ActivityLogger.sync_terminal_history h cf logs
    = (match new with
       | [] => logs
       | _ =>
           <[ActivityLogger._log_path h :=
               ActivityLogger.Items
                 (match logs !! ActivityLogger._log_path h with
                  | Some (ActivityLogger.Items data) => data
                  | _ => []
                  end ++ List.map ActivityLogger.Dict new)]> logs
       end, Z.of_nat (List.length new))
    ∧ NoDup (List.map logged_command new)
    ∧ ∀ c, In c new →
        ActivityLogger.type c = Some "command"
        ∧ ActivityLogger.timestamp c = Some (ActivityLogger.now_iso h)
        ∧ ActivityLogger.cwd c
          = Some (Py.or_else (Some cf) (ActivityLogger.getcwd h))
        ∧ ActivityLogger.command c = Some (logged_command c)
        ∧ (logged_command c
           ∉ ActivityLogger._existing_commands
               (logs !! ActivityLogger._log_path h))
        ∧ ∃ line, In line (concat (ActivityLogger.history h))
            ∧ ActivityLogger.history_command line = Some (logged_command c).
Proof.
  unfold ActivityLogger.sync_terminal_history, ActivityLogger.scan_history.
  rewrite fold_left_nested.
  destruct (scan_lines_new h cf (concat (ActivityLogger.history h))
              (ActivityLogger._existing_commands
                 (logs !! ActivityLogger._log_path h)) [])
    as (new & -> & Hnd & Hall).
  exists new. cbn [snd app]. split; [|done].
  destruct new as [|c new]; [done|].
  by destruct (logs !! ActivityLogger._log_path h) as [[| |data]|].
Qed.

(** X6: [sync_terminal_history] only appends: the entries already in the
    log file of the day stay in front of the new ones, the number
    returned is the number of entries appended, and every other log file
    is left as it was. *)
Theorem sync_terminal_history_appends_only
    (h : ActivityLogger.Host) (cf : string)
    (logs : gmap string ActivityLogger.LogFile)
    (data : list ActivityLogger.Item) :
  logs !! ActivityLogger._log_path h = Some (ActivityLogger.Items data) →
  ∃ new,
    (ActivityLogger.sync_terminal_history h cf logs).1
      !! ActivityLogger._log_path h
    = Some (ActivityLogger.Items (data ++ List.map ActivityLogger.Dict new))
    ∧ (ActivityLogger.sync_terminal_history h cf logs).2
      = Z.of_nat (List.length new)
    ∧ ∀ name,
        name ≠ ActivityLogger._log_path h →
        (ActivityLogger.sync_terminal_history h cf logs).1 !! name
        = logs !! name.
Proof.
  intros Hlog. destruct (sync_terminal_history_spec h cf logs)
    as (new & -> & _). exists new. cbn [fst snd]. rewrite Hlog.
  destruct new as [|c new].
  - simpl. by rewrite app_nil_r.
  - rewrite lookup_insert_eq. split; [done|]. split; [done|].
    intros name Hne. by rewrite lookup_insert_ne.
Qed.

Lemma sync_terminal_history_appends_only_witness :
  ∃ new,
    (ActivityLogger.sync_terminal_history Sample.monday_more ""
       (logs_dir Example.after_monday)).1
      !! ActivityLogger._log_path Sample.monday_more
    = Some (ActivityLogger.Items
              (Sample.monday_items ++ List.map ActivityLogger.Dict new))
    ∧ (ActivityLogger.sync_terminal_history Sample.monday_more ""
         (logs_dir Example.after_monday)).2
      = Z.of_nat (List.length new)
    ∧ ∀ name,
        name ≠ ActivityLogger._log_path Sample.monday_more →
        (ActivityLogger.sync_terminal_history Sample.monday_more ""
           (logs_dir Example.after_monday)).1 !! name
        = logs_dir Example.after_monday !! name.
Proof.
  apply (sync_terminal_history_appends_only Sample.monday_more ""
           (logs_dir Example.after_monday) Sample.monday_items).
  vm_compute. reflexivity.
Defined.

(** X7: the entries appended by one [sync_terminal_history] are command
    entries stamped with [now_iso]; their command texts carry no leading
    or trailing whitespace, have at most 2000 characters, are pairwise
    distinct and were not yet in the log file of the day. *)
Theorem sync_terminal_history_new_entries
    (h : ActivityLogger.Host) (cf : string)
    (logs : gmap string ActivityLogger.LogFile) :
  ∃ new,
    (ActivityLogger.sync_terminal_history h cf logs).2
    = Z.of_nat (List.length new)
    ∧ (new ≠ [] →
       ∃ data,
         (ActivityLogger.sync_terminal_history h cf logs).1
           !! ActivityLogger._log_path h
         = Some (ActivityLogger.Items
                   (data ++ List.map ActivityLogger.Dict new)))
    ∧ NoDup (List.map ActivityLogger.command new)
    ∧ ∀ c, In c new →
        ActivityLogger.type c = Some "command"
        ∧ ActivityLogger.timestamp c = Some (ActivityLogger.now_iso h)
        ∧ ∃ cmd,
            ActivityLogger.command c = Some cmd
            ∧ Py.strip cmd = cmd
            ∧ (String.length cmd ≤ 2000)%nat
            ∧ cmd ∉ ActivityLogger._existing_commands
                      (logs !! ActivityLogger._log_path h).
Proof.
  destruct (sync_terminal_history_spec h cf logs)
    as (new & -> & Hnd & Hall). exists new. cbn [fst snd].
  split; [done|]. split; [|split].
  - intros Hne. destruct new as [|c new]; [done|].
    eexists. by rewrite lookup_insert_eq.
  - assert (Heq : List.map ActivityLogger.command new
                  = List.map Some (List.map logged_command new)).
    { rewrite map_map. apply map_ext_in. intros c Hc.
      by destruct (Hall c Hc) as (_&_&_&->&_). }
    rewrite Heq. apply (NoDup_fmap_2 Some), Hnd.
  - intros c Hc. destruct (Hall c Hc) as (?&?&?&?&?&line&?&Hline).
    split; [done|]. split; [done|]. exists (logged_command c).
    split; [done|]. split; [by eapply history_command_stripped|].
    split; [by eapply history_command_length|done].
Qed.

(** Every command of the shell history is in the day's log file after a
    sync. *)
Lemma sync_records_history h cf (logs : gmap string ActivityLogger.LogFile)
    line cmd :
  In line (concat (ActivityLogger.history h)) →
  ActivityLogger.history_command line = Some cmd →
  cmd ∈ ActivityLogger._existing_commands
          ((ActivityLogger.sync_terminal_history h cf logs).1
             !! ActivityLogger._log_path h).
Proof.
  intros Hl Hc. unfold ActivityLogger.sync_terminal_history.
  unfold ActivityLogger.scan_history. rewrite fold_left_nested.
  destruct (scan_lines_inv h cf (concat (ActivityLogger.history h))
              (ActivityLogger._existing_commands
                 (logs !! ActivityLogger._log_path h)) [])
    as (new & -> & Hall).
  specialize (Hall line cmd Hl Hc). cbn [snd app fst].
  destruct new as [|c new]; cbn [fst].
  - set_solver.
  - rewrite lookup_insert_eq, existing_commands_items.
    destruct (logs !! ActivityLogger._log_path h) as [[| |data]|];
      set_solver.
Qed.

(** X8: after [sync_terminal_history], every line of the shell history
    that is neither blank nor longer than 2000 characters has its command
    among the already-logged commands of the day's log file. *)
Theorem sync_terminal_history_records_every_command
    (h : ActivityLogger.Host) (cf : string)
    (logs : gmap string ActivityLogger.LogFile) (lines : list string)
    (line : string) :
  In lines (ActivityLogger.history h) → In line lines →
  all_space line = false → (String.length (Py.strip line) ≤ 2000)%nat →
  ∃ cmd,
    ActivityLogger.history_command line = Some cmd
    ∧ cmd ∈ ActivityLogger._existing_commands
              ((ActivityLogger.sync_terminal_history h cf logs).1
                 !! ActivityLogger._log_path h).
Proof.
  intros Hls Hl Hns Hlen.
  assert (Hc : ∃ cmd, ActivityLogger.history_command line = Some cmd).
  { unfold ActivityLogger.history_command.
    assert (Hs : Py.strip line ≠ "")
      by (intros Hs%strip_all_space; congruence).
    rewrite (proj2 (truthy_true _) Hs). cbn [negb orb].
    rewrite (proj2 (Nat.ltb_ge _ _) Hlen).
    destruct (_ && _); [destruct (Py.find_char ";" _)|]; by eexists. }
  destruct Hc as [cmd Hc]. exists cmd. split; [done|].
  apply (sync_records_history h cf logs line cmd); [|done].
  apply in_concat. by exists lines.
Qed.

Lemma sync_terminal_history_records_every_command_witness :
  ∃ cmd,
    ActivityLogger.history_command "ls " = Some cmd
    ∧ cmd ∈ ActivityLogger._existing_commands
              ((ActivityLogger.sync_terminal_history Sample.monday_more ""
                  (logs_dir Example.after_monday)).1
                 !! ActivityLogger._log_path Sample.monday_more).
Proof.
  apply (sync_terminal_history_records_every_command Sample.monday_more ""
           (logs_dir Example.after_monday)
           [": 1709542800:0;git status"; "ls "; "make test"] "ls ").
  - left. reflexivity.
  - right. left. reflexivity.
  - reflexivity.
  - vm_compute. lia.
Defined.

(** X9: a second [sync_terminal_history] on the same day, under the same
    host name and with the same shell history appends nothing and
    returns 0. *)
Theorem sync_terminal_history_twice
    (h1 h2 : ActivityLogger.Host) (cf1 cf2 : string)
    (logs : gmap string ActivityLogger.LogFile) :
  ActivityLogger.hostname h2 = ActivityLogger.hostname h1 →
  ActivityLogger.today h2 = ActivityLogger.today h1 →
  ActivityLogger.history h2 = ActivityLogger.history h1 →
  ActivityLogger.sync_terminal_history h2 cf2
    (ActivityLogger.sync_terminal_history h1 cf1 logs).1
  = ((ActivityLogger.sync_terminal_history h1 cf1 logs).1, 0%Z).
Proof. apply sync_terminal_history_again. Qed.

Lemma sync_terminal_history_twice_witness :
  ActivityLogger.sync_terminal_history Example.monday_later "/tmp"
    (ActivityLogger.sync_terminal_history Example.monday "" ∅).1
  = ((ActivityLogger.sync_terminal_history Example.monday "" ∅).1, 0%Z).
Proof.
  apply (sync_terminal_history_twice Example.monday Example.monday_later
           "" "/tmp" ∅); reflexivity.
Defined.

Lemma in_load_commands_from_logs
    (logs : gmap string ActivityLogger.LogFile) c :
  In c (ActivityLogger.load_commands_from_logs logs) ↔
  ∃ name data,
    logs !! name = Some (ActivityLogger.Items data)
    ∧ In (ActivityLogger.Dict c) data
    ∧ ActivityLogger.type c = Some "command".
Proof.
  unfold ActivityLogger.load_commands_from_logs. rewrite in_flat_map. split.
  - intros ([name f] & Hin & Hc). apply list_elem_of_In in Hin.
    apply elem_of_map_to_list in Hin. simpl in Hc.
    destruct f as [| |data]; [done|done|].
    apply list_elem_of_In, list_elem_of_omap in Hc as (item & Hitem & Hsome).
    destruct item as [|c']; [done|].
    destruct (bool_decide (ActivityLogger.type c' = Some "command")) eqn:Ht;
      [|done].
    injection Hsome as ->. apply bool_decide_eq_true in Ht.
    exists name, data. by rewrite <- list_elem_of_In.
  - intros (name & data & Hlog & Hin & Ht).
    exists (name, ActivityLogger.Items data). split.
    + by apply list_elem_of_In, elem_of_map_to_list.
    + simpl. apply list_elem_of_In, list_elem_of_omap.
      exists (ActivityLogger.Dict c). split; [by apply list_elem_of_In|].
      by rewrite bool_decide_eq_true_2.
Qed.

(** X10: [load_commands_from_logs] returns exactly the dict items of the
    parsable list-shaped log files whose type is ["command"]; items of
    another type, non-dict items and files that do not parse to a list
    contribute nothing. *)
Theorem load_commands_from_logs_exactly
    (logs : gmap string ActivityLogger.LogFile)
    (c : ActivityLogger.CommandEntry) :
  In c (ActivityLogger.load_commands_from_logs logs) ↔
  ∃ name data,
    logs !! name = Some (ActivityLogger.Items data)
    ∧ In (ActivityLogger.Dict c) data
    ∧ ActivityLogger.type c = Some "command".
Proof. apply in_load_commands_from_logs. Qed.

(** X11: a command of the shell history that is not yet in the log file
    of the day is, after [sync_terminal_history], among the commands
    [load_commands_from_logs] returns: as a command entry stamped with
    [now_iso], with the fallback directory, or the current directory when
    the fallback is empty, whatever the log files held before. *)
Theorem sync_then_load_commands
    (h : ActivityLogger.Host) (cf : string)
    (logs : gmap string ActivityLogger.LogFile) (lines : list string)
    (line cmd : string) :
  In lines (ActivityLogger.history h) → In line lines →
  ActivityLogger.history_command line = Some cmd →
  cmd ∉ ActivityLogger._existing_commands
          (logs !! ActivityLogger._log_path h) →
  In {| ActivityLogger.type := Some "command";
        ActivityLogger.timestamp := Some (ActivityLogger.now_iso h);
        ActivityLogger.command := Some cmd;
        ActivityLogger.cwd :=
          Some (Py.or_else (Some cf) (ActivityLogger.getcwd h)) |}
     (ActivityLogger.load_commands_from_logs
        (ActivityLogger.sync_terminal_history h cf logs).1).
Proof.
  intros Hls Hl Hc Hnew.
  assert (Hin : In line (concat (ActivityLogger.history h)))
    by (apply in_concat; by exists lines).
  pose proof (sync_records_history h cf logs line cmd Hin Hc) as Hrec.
  destruct (sync_terminal_history_spec h cf logs)
    as (new & Heq & _ & Hall).
  rewrite Heq in Hrec |- *. cbn [fst] in *.
  destruct new as [|c0 new]; [done|].
  rewrite lookup_insert_eq, existing_commands_items in Hrec.
  apply elem_of_union in Hrec as [Hold|Hnewc].
  { exfalso. apply Hnew.
    by destruct (logs !! ActivityLogger._log_path h) as [[| |data]|]. }
  apply elem_of_list_to_set, list_elem_of_In, in_map_iff in Hnewc
    as (c & Hlc & Hcin).
  destruct (Hall c Hcin) as (Ht & Hts & Hcwd & Hcmd & _).
  apply in_load_commands_from_logs.
  eexists _, _. split; [apply lookup_insert_eq|]. split; [|done].
  apply in_or_app. right. apply in_map_iff. exists c. split; [|done].
  f_equal. destruct c; simpl in *. by rewrite Ht, Hts, Hcwd, Hcmd, Hlc.
Qed.

Lemma sync_then_load_commands_witness :
  In {| ActivityLogger.type := Some "command";
        ActivityLogger.timestamp := Some "2024-03-04T17:30:00";
        ActivityLogger.command := Some "make test";
        ActivityLogger.cwd := Some "/home/u" |}
     (ActivityLogger.load_commands_from_logs
        (ActivityLogger.sync_terminal_history Sample.monday_more ""
           (logs_dir Example.after_monday)).1).
Proof.
  apply (sync_then_load_commands Sample.monday_more ""
           (logs_dir Example.after_monday)
           [": 1709542800:0;git status"; "ls "; "make test"]
           "make test" "make test").
  - left. reflexivity.
  - right. right. left. reflexivity.
  - reflexivity.
  - intros Hin. vm_compute in Hin. discriminate Hin.
Defined.

(** ** build_index, rebuild_index, full_index *)

Lemma index_files_docs w entries st st' :
  index_files w entries st = Ok st' →
  ∃ l, st'.1 = st.1 ++ l
       ∧ st'.2 = st.2 + List.length l
       ∧ ∀ d, In d l →
           ∃ e p c,
             In e entries ∧ Crawler.path e = Some p ∧ p ≠ ""
             ∧ _read_content (extractors w) p 500000 = Ok c
             ∧ d = file_document p c
             ∧ accepts (whoosh w) d = true.
Proof.
  revert st. induction entries as [|e rest IH]; intros st; simpl.
  - intros [= <-]. exists []. rewrite app_nil_r. simpl. split; [done|].
    split; [lia|done].
  - destruct (index_file w st e) as [st1|] eqn:He; simpl; [|done].
    intros (l & -> & -> & Hl)%IH.
    assert (Hrest : ∀ d, In d l →
              ∃ e0 p c, In e0 (e :: rest) ∧ Crawler.path e0 = Some p
                ∧ p ≠ "" ∧ _read_content (extractors w) p 500000 = Ok c
                ∧ d = file_document p c ∧ accepts (whoosh w) d = true).
    { intros d Hd. destruct (Hl d Hd) as (e' & p' & c' & ? & ?).
      exists e', p', c'. split; [by right|done]. }
    revert He. unfold index_file.
    destruct (Crawler.path e) as [p|] eqn:Hp;
      [destruct (decide (p = "")) as [->|Hne]|].
    + simpl. intros [= <-]. by exists l.
    + rewrite !(or_else_nonempty p "" Hne).
      rewrite (proj2 (truthy_true p) Hne). cbn [negb].
      destruct (_read_content (extractors w) p 500000) as [c|] eqn:Hc;
        simpl; [|done].
      unfold add_document.
      destruct (accepts (whoosh w) (file_document p c)) eqn:Hacc;
        intros [= <-]; simpl.
      * exists (file_document p c :: l). rewrite <- app_assoc.
        split; [done|]. split; [simpl; lia|].
        intros d [<-|Hd]; [|by apply Hrest].
        exists e, p, c. repeat split; try done. by left.
      * by exists l.
    + simpl. intros [= <-]. by exists l.
Qed.

Lemma index_commands_docs_from w i cmds st :
  ∃ l, (index_commands w i cmds st).1 = st.1 ++ l
       ∧ (index_commands w i cmds st).2 = st.2 + List.length l
       ∧ ∀ d, In d l →
           ∃ k c,
             cmds !! k = Some c
             ∧ command_document (i + k) c = Some d
             ∧ accepts (whoosh w) d = true.
Proof.
  revert i st. induction cmds as [|c rest IH]; intros i st; simpl.
  - exists []. rewrite app_nil_r. simpl. split; [done|]. split; [lia|done].
  - destruct (IH (S i) (index_command w st i c)) as (l & -> & -> & Hl).
    assert (Hshift : ∀ d, In d l →
              ∃ k c0, (c :: rest) !! k = Some c0
                      ∧ command_document (i + k) c0 = Some d
                      ∧ accepts (whoosh w) d = true).
    { intros d Hd. destruct (Hl d Hd) as (k & c0 & Hk & Hdoc & Hacc).
      exists (S k), c0. split; [done|]. split; [|done].
      by rewrite <- Nat.add_succ_comm. }
    unfold index_command, add_document.
    destruct (command_document i c) as [d0|] eqn:Hd0;
      [destruct (accepts (whoosh w) d0) eqn:Hacc|]; simpl.
    + exists (d0 :: l). rewrite <- app_assoc. split; [done|].
      split; [simpl; lia|]. intros d [<-|Hd]; [|by apply Hshift].
      exists 0, c. rewrite Nat.add_0_r. done.
    + exists l. done.
    + exists l. done.
Qed.

Lemma command_document_Some i c d :
  command_document i c = Some d →
  ∃ cmd,
    ActivityLogger.command c = Some cmd ∧ Py.strip cmd ≠ ""
    ∧ d = {| path := ("command:"
                      ++ Py.or_else (ActivityLogger.timestamp c)
                           (Py.str_of_nat i)
                      ++ ":" ++ Py.str_of_nat i)%string;
             result_type := "command";
             content := Py.strip cmd |}.
Proof.
  unfold command_document. rewrite or_else_get_default.
  destruct (ActivityLogger.command c) as [cmd|]; [|done].
  destruct (decide (cmd = "")) as [->|Hne]; [done|].
  rewrite !(or_else_nonempty cmd "" Hne).
  destruct (Py.truthy (Py.strip cmd)) eqn:Ht; cbn [negb]; [|done].
  intros [= <-]. exists cmd. split; [done|]. split; [|done].
  by apply truthy_true.
Qed.

(** X12: [build_index] returns the number of documents of the index it
    has built, replaces whatever index was there, and leaves the logs
    and the snapshot as they were. *)
Theorem build_index_count_is_index_size
    (w : World) (entries : list Crawler.FileEntry)
    (cmds : option (list ActivityLogger.CommandEntry))
    (d d' : DataDir) (n : nat) :
  build_index w entries cmds d = Ok (d', n) →
  ∃ docs,
    search_index_dir d' = Index docs
    ∧ n = List.length docs
    ∧ logs_dir d' = logs_dir d
    ∧ file_metadata_json d' = file_metadata_json d
    ∧ ∀ d0,
        logs_dir d0 = logs_dir d →
        ∃ d0', build_index w entries cmds d0 = Ok (d0', n)
               ∧ search_index_dir d0' = Index docs.
Proof.
  unfold build_index.
  destruct (index_files w entries ([], 0)) as [st|] eqn:Hf; simpl; [|done].
  intros [= <- <-]. eexists. split; [done|].
  apply index_files_docs in Hf as (lf & Hst & Hn & _). simpl in Hst, Hn.
  split; [|split; [done|split; [done|]]].
  - destruct (index_commands_docs_from w 0
                (match cmds with
                 | Some l => l
                 | None => ActivityLogger.load_commands_from_logs (logs_dir d)
                 end) st) as (lc & -> & -> & _).
    rewrite Hst, Hn, length_app. done.
  - intros d0 Hlogs. rewrite Hlogs. eexists. split; [done|]. done.
Qed.

Lemma build_index_count_is_index_size_witness :
  ∃ docs,
    search_index_dir Sample.built = Index docs
    ∧ 2%nat = List.length docs
    ∧ logs_dir Sample.built = logs_dir Example.fresh
    ∧ file_metadata_json Sample.built = file_metadata_json Example.fresh
    ∧ ∀ d0,
        logs_dir d0 = logs_dir Example.fresh →
        ∃ d0', build_index (Example.world Example.monday) Sample.entries
                 (Some Sample.commands) d0 = Ok (d0', 2%nat)
               ∧ search_index_dir d0' = Index docs.
Proof.
  apply (build_index_count_is_index_size (Example.world Example.monday)
           Sample.entries (Some Sample.commands) Example.fresh Sample.built 2).
  vm_compute. reflexivity.
Defined.

(** X13: every document of a built index was taken by the writer, has a
    non-empty content, and is either a file document whose id is the
    non-empty path of one of the entries and whose content is the
    extracted text or the one-space placeholder, or a command document
    with id [command:<timestamp or i>:<i>] for the command at position
    [i], whose content is the stripped command text. *)
Theorem build_index_documents
    (w : World) (entries : list Crawler.FileEntry)
    (cmds : option (list ActivityLogger.CommandEntry))
    (d d' : DataDir) (n : nat) (docs : list Document) (doc : Document) :
  build_index w entries cmds d = Ok (d', n) →
  search_index_dir d' = Index docs → In doc docs →
  accepts (whoosh w) doc = true
  ∧ content doc ≠ ""
  ∧ ((result_type doc = "file"
      ∧ path doc ≠ ""
      ∧ (∃ e, In e entries ∧ Crawler.path e = Some (path doc))
      ∧ ∃ c, _read_content (extractors w) (path doc) 500000 = Ok c
             ∧ content doc = if String.eqb c "" then " " else c)
     ∨ (result_type doc = "command"
        ∧ ∃ i c cmd,
            match cmds with
            | Some l => l
            | None => ActivityLogger.load_commands_from_logs (logs_dir d)
            end !! i = Some c
            ∧ ActivityLogger.command c = Some cmd
            ∧ content doc = Py.strip cmd
            ∧ path doc
              = ("command:"
                 ++ Py.or_else (ActivityLogger.timestamp c) (Py.str_of_nat i)
                 ++ ":" ++ Py.str_of_nat i)%string)).
Proof.
  unfold build_index.
  destruct (index_files w entries ([], 0)) as [st|] eqn:Hf; simpl; [|done].
  intros [= <- <-] [= <-] Hin.
  apply index_files_docs in Hf as (lf & Hst & _ & Hlf). simpl in Hst.
  destruct (index_commands_docs_from w 0
              (match cmds with
               | Some l => l
               | None => ActivityLogger.load_commands_from_logs (logs_dir d)
               end) st) as (lc & Heq & _ & Hlc).
  rewrite Heq, Hst in Hin. apply in_app_or in Hin as [Hin|Hin].
  - destruct (Hlf doc Hin) as (e & p & c & He & Hp & Hne & Hc & -> & Hacc).
    split; [done|]. rewrite file_document_content. cbn [content path result_type].
    split; [by destruct c|]. left. split; [done|]. split; [done|].
    split; [by exists e|]. by exists c.
  - destruct (Hlc doc Hin) as (k & c & Hk & Hdoc & Hacc).
    split; [done|].
    apply command_document_Some in Hdoc as (cmd & Hcmd & Hne & ->).
    cbn [content path result_type]. split; [done|]. right.
    split; [done|]. by exists k, c, cmd.
Qed.

Lemma build_index_documents_witness :
  accepts (whoosh (Example.world Example.monday)) Sample.git_status_document
  = true
  ∧ content Sample.git_status_document ≠ ""
  ∧ ∃ i c cmd,
      Sample.commands !! i = Some c
      ∧ ActivityLogger.command c = Some cmd
      ∧ content Sample.git_status_document = Py.strip cmd
      ∧ path Sample.git_status_document
        = ("command:"
           ++ Py.or_else (ActivityLogger.timestamp c) (Py.str_of_nat i)
           ++ ":" ++ Py.str_of_nat i)%string.
Proof.
  destruct (build_index_documents (Example.world Example.monday)
              Sample.entries (Some Sample.commands) Example.fresh
              Sample.built 2
              [Sample.notes_document; Sample.git_status_document]
              Sample.git_status_document)
    as (Hacc & Hne & [(Hfile & _)|(_ & Hcmd)]).
  - vm_compute. reflexivity.
  - reflexivity.
  - right. left. reflexivity.
  - discriminate Hfile.
  - split; [exact Hacc|]. split; [exact Hne|exact Hcmd].
Defined.

Lemma index_file_Ok_iff w st e :
  (∃ st', index_file w st e = Ok st') ↔
  ∀ p, Crawler.path e = Some p → p ≠ "" →
       ∃ c, _read_content (extractors w) p 500000 = Ok c.
Proof.
  unfold index_file.
  destruct (Crawler.path e) as [p|];
    [destruct (decide (p = "")) as [->|Hne]|].
  - simpl. split; [by intros _ p [= <-]|by eexists].
  - rewrite !(or_else_nonempty p "" Hne).
    rewrite (proj2 (truthy_true p) Hne). cbn [negb].
    destruct (_read_content (extractors w) p 500000) as [c|] eqn:Hc; simpl.
    + split; [intros _ p' [= <-] _; by exists c|].
      intros _. destruct (add_document _ _ _); by eexists.
    + split; [by intros [? ?]|]. intros H.
      destruct (H p eq_refl Hne) as [c Hc']. congruence.
  - simpl. split; [done|by eexists].
Qed.

Lemma index_files_Ok_iff w entries st :
  (∃ st', index_files w entries st = Ok st') ↔
  ∀ e p, In e entries → Crawler.path e = Some p → p ≠ "" →
         ∃ c, _read_content (extractors w) p 500000 = Ok c.
Proof.
  revert st. induction entries as [|e rest IH]; intros st; simpl.
  - split; [done|by eexists].
  - split.
    + intros [st' Hrun].
      destruct (index_file w st e) as [st1|] eqn:He; simpl in Hrun; [|done].
      intros e' p [<-|Hin] Hp Hne.
      * by apply (proj1 (index_file_Ok_iff w st e) (ex_intro _ st1 He)).
      * by apply (proj1 (IH st1) (ex_intro _ st' Hrun) e' p).
    + intros Hall.
      destruct (proj2 (index_file_Ok_iff w st e)) as [st1 ->].
      { intros p. by apply Hall; left. }
      simpl. apply IH. intros e' p Hin. apply Hall. by right.
Qed.

(** X14: [build_index] raises exactly when the extraction of an entry
    with a non-empty path raises; entries without a path and command
    entries never make it raise. *)
Theorem build_index_returns_iff_extraction_returns
    (w : World) (entries : list Crawler.FileEntry)
    (cmds : option (list ActivityLogger.CommandEntry)) (d : DataDir) :
  (∃ d' n, build_index w entries cmds d = Ok (d', n)) ↔
  ∀ e p, In e entries → Crawler.path e = Some p → p ≠ "" →
         ∃ c, _read_content (extractors w) p 500000 = Ok c.
Proof.
  rewrite <- (index_files_Ok_iff w entries ([], 0)). unfold build_index.
  destruct (index_files w entries ([], 0)) as [st|]; simpl.
  - split; intros _; [by exists st|]. by eexists _, _.
  - split; [by intros (? & ? & ?)|by intros [? ?]].
Qed.

Lemma index_files_count w entries st st' :
  index_files w entries st = Ok st' →
  (st'.2 ≤ st.2 + List.length (entry_ids entries))%nat
  ∧ ((∀ d, accepts (whoosh w) d = true) →
     st'.2 = (st.2 + List.length (entry_ids entries))%nat).
Proof.
  revert st. induction entries as [|e rest IH]; intros st; simpl.
  - intros [= <-]. unfold entry_ids. simpl. lia.
  - destruct (index_file w st e) as [st1|] eqn:He; simpl; [|done].
    intros [Hle Heq]%IH. revert He. unfold index_file, entry_ids.
    cbn [omap list_omap]. fold (entry_ids rest).
    destruct (Py.truthy (Py.or_else (Crawler.path e) "")); cbn [negb].
    + destruct (_read_content _ _ _) as [c|]; simpl; [|done].
      unfold add_document.
      destruct (accepts (whoosh w) (file_document _ c)) eqn:Hacc;
        intros [= <-]; simpl in *.
      * split; [lia|]. intros Hall. specialize (Heq Hall). lia.
      * split; [lia|]. intros Hall. rewrite Hall in Hacc. done.
    + intros [= <-]. done.
Qed.

Lemma index_commands_count w i cmds st :
  ((index_commands w i cmds st).2
   ≤ st.2 + List.length (command_documents i cmds))%nat
  ∧ ((∀ d, accepts (whoosh w) d = true) →
     (index_commands w i cmds st).2
     = (st.2 + List.length (command_documents i cmds))%nat).
Proof.
  revert i st. induction cmds as [|c rest IH]; intros i st; simpl; [lia|].
  destruct (IH (S i) (index_command w st i c)) as [Hle Heq].
  unfold index_command, add_document in *.
  destruct (command_document i c) as [d|]; [|done].
  destruct (accepts (whoosh w) d) eqn:Hacc; simpl in *.
  - split; [lia|]. intros Hall. specialize (Heq Hall). lia.
  - split; [lia|]. intros Hall. rewrite Hall in Hacc. done.
Qed.

Lemma command_documents_length i cmds :
  List.length (command_documents i cmds)
  = List.length
      (List.filter
         (λ c, Py.truthy (Py.strip (Py.or_else (ActivityLogger.command c) "")))
         cmds).
Proof.
  revert i. induction cmds as [|c rest IH]; intros i; simpl; [done|].
  unfold command_document.
  destruct (Py.truthy (Py.strip (Py.or_else (ActivityLogger.command c) "")));
    simpl; by rewrite IH.
Qed.

Lemma entry_ids_length entries :
  List.length (entry_ids entries)
  = List.length
      (List.filter (λ e, Py.truthy (Py.or_else (Crawler.path e) "")) entries).
Proof.
  induction entries as [|e rest IH]; [done|]. unfold entry_ids in *.
  cbn [omap list_omap List.filter].
  destruct (Py.truthy (Py.or_else (Crawler.path e) "")); simpl; by rewrite IH.
Qed.

(** X15: the count returned by [build_index] is at most the number of
    entries with a non-empty path plus the number of commands with a
    non-blank text, and it is that number when the writer takes every
    document. *)
Theorem build_index_count_formula
    (w : World) (entries : list Crawler.FileEntry)
    (cmds : option (list ActivityLogger.CommandEntry))
    (d d' : DataDir) (n : nat) :
  build_index w entries cmds d = Ok (d', n) →
  let files :=
    List.filter (λ e, Py.truthy (Py.or_else (Crawler.path e) "")) entries in
  let commands :=
    List.filter
      (λ c, Py.truthy (Py.strip (Py.or_else (ActivityLogger.command c) "")))
      (match cmds with
       | Some l => l
       | None => ActivityLogger.load_commands_from_logs (logs_dir d)
       end) in
  (n ≤ List.length files + List.length commands)%nat
  ∧ ((∀ doc, accepts (whoosh w) doc = true) →
     n = (List.length files + List.length commands)%nat).
Proof.
  unfold build_index.
  destruct (index_files w entries ([], 0)) as [st|] eqn:Hf; simpl; [|done].
  intros [= <- <-]. apply index_files_count in Hf as [Hle Heq].
  simpl in Hle, Heq. rewrite entry_ids_length in Hle, Heq.
  destruct (index_commands_count w 0
              (match cmds with
               | Some l => l
               | None => ActivityLogger.load_commands_from_logs (logs_dir d)
               end) st) as [Hle' Heq'].
  rewrite command_documents_length in Hle', Heq'.
  split; [lia|]. intros Hall. rewrite (Heq' Hall), (Heq Hall). done.
Qed.

Lemma build_index_count_formula_witness :
  (2 ≤ 1 + 1)%nat
  ∧ ((∀ doc, accepts (whoosh (Example.world Example.monday)) doc = true) →
     2%nat = (1 + 1)%nat).
Proof.
  apply (build_index_count_formula (Example.world Example.monday)
           Sample.entries (Some Sample.commands) Example.fresh Sample.built 2).
  vm_compute. reflexivity.
Defined.

(** X16: with a snapshot file that is missing, unreadable, or UTF-8
    text that is not a JSON array, [rebuild_index] does not raise: it
    builds an index of the logged commands alone.  With a snapshot file
    that is not UTF-8 text, the [UnicodeDecodeError] of [read_text]
    leaves [load_metadata] and [rebuild_index]. *)
Theorem rebuild_index_without_snapshot
    (w : World) (d : DataDir) :
  (file_metadata_json d = Metadata.Missing
   ∨ file_metadata_json d = Metadata.Invalid →
   ∃ d' n docs,
     rebuild_index w d = Ok (d', n)
     ∧ search_index_dir d' = Index docs
     ∧ n = List.length docs
     ∧ ∀ doc, In doc docs → result_type doc = "command")
  ∧ (file_metadata_json d = Metadata.NotUtf8 →
     rebuild_index w d = Raise UnicodeDecodeError).
Proof.
  split; [|by unfold rebuild_index; intros ->].
  intros Hmeta. unfold rebuild_index.
  assert (Hload : Metadata.load_metadata (file_metadata_json d) = Some [])
    by (by destruct Hmeta as [-> | ->]).
  rewrite Hload. unfold build_index. simpl.
  destruct (index_commands_docs_from w 0
              (ActivityLogger.load_commands_from_logs (logs_dir d)) ([], 0))
    as (lc & Heq & Hn & Hlc).
  eexists _, _, _. split; [done|]. split; [done|].
  rewrite Heq, Hn. split; [done|]. intros doc Hin.
  destruct (Hlc doc Hin) as (k & c & _ & Hdoc & _).
  by apply command_document_Some in Hdoc as (cmd & _ & _ & ->).
Qed.

Lemma rebuild_index_without_snapshot_witness :
  (∃ d' n docs,
     rebuild_index (Example.world Example.monday) Sample.broken_snapshot
     = Ok (d', n)
     ∧ search_index_dir d' = Index docs
     ∧ n = List.length docs
     ∧ ∀ doc, In doc docs → result_type doc = "command")
  ∧ rebuild_index (Example.world Example.monday) Sample.garbled_snapshot
    = Raise UnicodeDecodeError.
Proof.
  split.
  - apply (rebuild_index_without_snapshot (Example.world Example.monday)
             Sample.broken_snapshot).
    right. reflexivity.
  - apply (rebuild_index_without_snapshot (Example.world Example.monday)
             Sample.garbled_snapshot).
    reflexivity.
Defined.

(** X17: after a [full_index] that returns, the snapshot holds exactly
    the records of this pass's crawl, whatever it held before; the crawl
    ran after the history sync and before the snapshot was written.  The
    logs are those left by the history sync, or the old ones when
    [log_terminal_history] is off. *)
Theorem full_index_persists_crawl
    (w : World) (config : Config) (d d1 : DataDir) (n : nat) :
  full_index w config d = Ok (d1, n) →
  let logs :=
    if default true (log_terminal_history config)
    then (ActivityLogger.sync_terminal_history (host w) "" (logs_dir d)).1
    else logs_dir d in
  Metadata.load_metadata (file_metadata_json d1)
  = Some (Crawler.crawl
            (fs w {| logs_dir := logs;
                     file_metadata_json := file_metadata_json d;
                     search_index_dir := search_index_dir d |})
            (default [] (folders_to_index config))
            (default [] (exclude_patterns config))
            (default 512%Z (max_file_size_kb config)))
  ∧ logs_dir d1 = logs.
Proof.
  unfold full_index, build_index.
  destruct (index_files w _ ([], 0)) as [st|]; simpl; [|done].
  intros [= <- <-]. simpl. split; [|done]. f_equal.
  set (entries := Crawler.crawl _ _ _ _).
  rewrite <- (map_id entries) at 2. apply map_ext_in. intros e He.
  by apply crawl_yields_all_fields in He as (p & mt & sz & ->).
Qed.

Lemma full_index_persists_crawl_witness :
  Metadata.load_metadata (file_metadata_json Example.after_monday)
  = Some (Crawler.crawl Example.disk ["/home/u/docs"] ["node_modules"] 512)
  ∧ logs_dir Example.after_monday
    = (ActivityLogger.sync_terminal_history Example.monday "" ∅).1.
Proof.
  apply (full_index_persists_crawl (Example.world Example.monday)
           Example.config Example.fresh Example.after_monday 4).
  vm_compute. reflexivity.
Defined.

(** X18: [rebuild_index] is idempotent: run on the data directory it
    has just produced, it returns the same count and leaves the same
    data directory. *)
Theorem rebuild_index_twice
    (w : World) (d d1 : DataDir) (n : nat) :
  rebuild_index w d = Ok (d1, n) → rebuild_index w d1 = Ok (d1, n).
Proof.
  unfold rebuild_index, build_index.
  destruct (Metadata.load_metadata (file_metadata_json d)) as [entries|]
    eqn:Hload; [|done].
  destruct (index_files w entries ([], 0)) as [st|] eqn:Hf; simpl; [|done].
  intros [= <- <-]. simpl. by rewrite Hload, Hf.
Qed.

Lemma rebuild_index_twice_witness :
  rebuild_index (Example.world Example.monday) Example.after_monday
  = Ok (Example.after_monday, 4%nat).
Proof.
  apply (rebuild_index_twice (Example.world Example.monday)
           (without_index Example.after_monday) Example.after_monday 4).
  vm_compute. reflexivity.
Defined.

(** ** search_index *)

(** X19: while the index directory is absent or does not open,
    [search_index] returns the empty list for every query and limit,
    without consulting the parser. *)
Theorem search_index_without_index
    (w : World) (q : option string) (limit : Z) (d : DataDir) :
  search_index_dir d = NoIndex ∨ search_index_dir d = Unopenable →
  search_index w q limit d = Ok [].
Proof.
  intros Hd. unfold search_index, get_index.
  destruct (negb _); [done|]. by destruct Hd as [-> | ->].
Qed.

Lemma search_index_without_index_witness :
  search_index (Example.world Example.monday) (Some "hello") 10 Example.fresh
  = Ok [].
Proof.
  apply (search_index_without_index (Example.world Example.monday)
           (Some "hello") 10 Example.fresh).
  left. reflexivity.
Defined.

Lemma take_length n s : (String.length (Py.take n s) ≤ n)%nat.
Proof.
  revert s. induction n as [|n IH]; intros [|c r]; simpl; try lia.
  specialize (IH r). lia.
Qed.

Lemma replace_char_length a b s :
  String.length (Py.replace_char a b s) = String.length s.
Proof. induction s as [|c r IH]; simpl; [done|]. by rewrite IH. Qed.

Lemma string_app_length (s t : string) :
  String.length (s ++ t)%string = (String.length s + String.length t)%nat.
Proof. induction s as [|c r IH]; simpl; [done|]. by rewrite IH. Qed.

Lemma snippet_length content : (String.length (snippet content) ≤ 203)%nat.
Proof.
  unfold snippet.
  pose proof (strip_length
                (Py.replace_char (ascii_of_nat 10) " " (Py.take 200 content)))
    as Hs.
  rewrite replace_char_length in Hs.
  pose proof (take_length 200 content).
  destruct (_ <? _)%nat;
    [rewrite string_app_length; change (String.length "...") with 3%nat|];
    lia.
Qed.

Lemma find_char_lstrip a s :
  Py.find_char a s = None → Py.find_char a (Py.lstrip s) = None.
Proof.
  induction s as [|c r IH]; simpl; [done|].
  destruct (Py.isspace c); [|done].
  destruct (Ascii.eqb c a); [done|].
  destruct (Py.find_char a r); [done|]. intros _. by apply IH.
Qed.

Lemma find_char_rstrip a s :
  Py.find_char a s = None → Py.find_char a (Py.rstrip s) = None.
Proof.
  induction s as [|c r IH]; simpl; [done|].
  destruct (Ascii.eqb c a) eqn:Hc; [done|].
  destruct (Py.find_char a r); [done|]. intros _.
  specialize (IH eq_refl).
  destruct (Py.rstrip r) as [|c' r'].
  - destruct (Py.isspace c); simpl; [done|]. by rewrite Hc.
  - cbn [Py.find_char]. rewrite Hc. cbn [Py.find_char] in IH.
    by destruct (Ascii.eqb c' a); [|destruct (Py.find_char a r')].
Qed.

Lemma find_char_replaced a b s :
  a ≠ b → Py.find_char a (Py.replace_char a b s) = None.
Proof.
  intros Hab. induction s as [|c r IH]; simpl; [done|]. rewrite IH.
  destruct (Ascii.eqb c a) eqn:Hc.
  - destruct (Ascii.eqb b a) eqn:Hb; [|done].
    apply Ascii.eqb_eq in Hb. congruence.
  - by rewrite Hc.
Qed.

Lemma find_char_app_None a (s t : string) :
  Py.find_char a s = None → Py.find_char a t = None →
  Py.find_char a (s ++ t)%string = None.
Proof.
  intros Hs Ht. induction s as [|c r IH]; simpl in *; [done|].
  destruct (Ascii.eqb c a); [done|].
  destruct (Py.find_char a r); [done|]. by rewrite IH.
Qed.

(** X20: every snippet returned by [search_index] has at most 203
    characters and contains no newline character. *)
Theorem search_index_snippet_bounded
    (w : World) (q : option string) (limit : Z) (d : DataDir)
    (rows : list (string * string * string * option string))
    (row : string * string * string * option string) :
  search_index w q limit d = Ok rows → In row rows →
  (String.length (row_snippet row) ≤ 203)%nat
  ∧ Py.find_char (ascii_of_nat 10) (row_snippet row) = None.
Proof.
  intros Hs Hin.
  destruct (search_index_rows _ _ _ _ _ Hs row Hin) as [hit ->].
  unfold row_snippet, hit_row. cbn [fst snd]. split; [apply snippet_length|].
  unfold snippet.
  assert (Hflat : Py.find_char (ascii_of_nat 10)
            (Py.strip (Py.replace_char (ascii_of_nat 10) " "
               (Py.take 200 (Py.or_else (Some (content hit)) "")))) = None).
  { unfold Py.strip. apply find_char_rstrip, find_char_lstrip.
    apply find_char_replaced. intros H; discriminate H. }
  destruct (_ <? _)%nat; [|done].
  by apply find_char_app_None.
Qed.

Lemma search_index_snippet_bounded_witness :
  (String.length
     (row_snippet ("/home/u/docs/notes.txt", "hello world", "file", None))
   ≤ 203)%nat
  ∧ Py.find_char (ascii_of_nat 10)
      (row_snippet ("/home/u/docs/notes.txt", "hello world", "file", None))
    = None.
Proof.
  apply (search_index_snippet_bounded (Example.world Example.monday)
           (Some "hello") 10 Example.after_monday
           [("/home/u/docs/notes.txt", "hello world", "file", None)]).
  - vm_compute. reflexivity.
  - left. reflexivity.
Defined.

(** ** _read_content *)

(** X21: [_read_content] raises [OSError] when [path.exists()] does,
    the call being outside every [try], and returns the empty string for
    a path that is not there.  For a path with a [.pdf] or [.docx]
    suffix (in any case) that is the only way it raises: when
    [path.exists()] answers, it returns a string whatever the PDF and
    DOCX libraries do. *)
Theorem read_content_returns_for_pdf_docx_missing
    (x : Extractors) (path_str : string) (max_chars : Z) :
  (path_exists x path_str = None →
   _read_content x path_str max_chars = Raise OSError)
  ∧ (path_exists x path_str = Some false →
     _read_content x path_str max_chars = Ok "")
  ∧ (Py.lower (path_suffix path_str) = ".pdf"
     ∨ Py.lower (path_suffix path_str) = ".docx" →
     (path_exists x path_str ≠ None ↔
      ∃ text, _read_content x path_str max_chars = Ok text)).
Proof.
  unfold _read_content.
  destruct (path_exists x path_str) as [[]|]; (split; [done|split; [done|]]).
  - intros [-> | ->]; simpl.
    + destruct (pdfplumber_block _ _ _); (split; [by eexists|done]).
    + split; [by eexists|done].
  - intros _. split; [by eexists|done].
  - intros _. split; [done|]. by intros [text Ht].
Qed.

Lemma read_content_returns_for_pdf_docx_missing_witness :
  _read_content Example.readers "/root/report.pdf" 500000 = Raise OSError
  ∧ _read_content Example.readers "/home/u/docs/big.PDF" 500000 = Ok ""
  ∧ ∃ text, _read_content Example.readers "/home/u/docs/big.pdf" 500000
            = Ok text.
Proof.
  split; [|split].
  - apply (read_content_returns_for_pdf_docx_missing Example.readers
             "/root/report.pdf" 500000).
    reflexivity.
  - apply (read_content_returns_for_pdf_docx_missing Example.readers
             "/home/u/docs/big.PDF" 500000).
    reflexivity.
  - apply (read_content_returns_for_pdf_docx_missing Example.readers
             "/home/u/docs/big.pdf" 500000).
    + left. vm_compute. reflexivity.
    + discriminate.
Defined.

Lemma truncate_len n s : (0 ≤ n)%Z → (Py.len (Py.truncate n s) ≤ n)%Z.
Proof.
  intros Hn. unfold Py.truncate. destruct (Z.ltb_spec n (Py.len s)); [|done].
  unfold Py.len. pose proof (take_length (Z.to_nat n) s). lia.
Qed.

(** X22: for a [.pdf] or [.docx] path the text returned by
    [_read_content] has at most [max_chars] characters. *)
Theorem read_content_pdf_docx_capped
    (x : Extractors) (path_str text : string) (max_chars : Z) :
  (0 ≤ max_chars)%Z →
  Py.lower (path_suffix path_str) = ".pdf"
  ∨ Py.lower (path_suffix path_str) = ".docx" →
  _read_content x path_str max_chars = Ok text →
  (Py.len text ≤ max_chars)%Z.
Proof.
  intros Hm Hs. unfold _read_content.
  destruct (path_exists x path_str) as [[]|]; [|by intros [= <-]|done].
  destruct Hs as [-> | ->]; simpl.
  - unfold pdfplumber_block, pypdf2_block.
    destruct (pdfplumber_open x path_str) as [| | |pages].
    + destruct (PdfReader x path_str); intros [= <-];
        [done|by apply truncate_len].
    + by intros [= <-].
    + destruct (PdfReader x path_str); intros [= <-];
        [done|by apply truncate_len].
    + destruct (Py.truthy _); [intros [= <-]; by apply truncate_len|].
      destruct (PdfReader x path_str); intros [= <-];
        [done|by apply truncate_len].
  - unfold docx_block. destruct (Document_open x path_str); intros [= <-];
      [by apply truncate_len|done].
Qed.

Lemma read_content_pdf_docx_capped_witness :
  (Py.len "page one" ≤ 500000)%Z.
Proof.
  apply (read_content_pdf_docx_capped Example.readers
           "/home/u/docs/big.pdf" "page one" 500000).
  - lia.
  - left. vm_compute. reflexivity.
  - vm_compute. reflexivity.
Defined.

(** X23: for an existing path with another suffix, [_read_content]
    returns the empty string when [stat] fails, when the file has more
    than [2 * max_chars] bytes, and when reading the bytes fails. *)
Theorem read_content_plain_text_gives_up
    (x : Extractors) (path_str : string) (max_chars : Z) :
  path_exists x path_str = Some true →
  Py.lower (path_suffix path_str) ≠ ".pdf" →
  Py.lower (path_suffix path_str) ≠ ".docx" →
  st_size x path_str = None
  ∨ (∃ size, st_size x path_str = Some size ∧ (2 * max_chars < size)%Z)
  ∨ read_bytes x path_str = None →
  _read_content x path_str max_chars = Ok "".
Proof.
  intros He Hpdf Hdocx H. unfold _read_content. rewrite He.
  rewrite (proj2 (String.eqb_neq _ _) Hpdf).
  rewrite (proj2 (String.eqb_neq _ _) Hdocx).
  unfold plain_text_block.
  destruct H as [-> | [(size & -> & Hsz) | Hr]]; [done| |].
  - by rewrite (proj2 (Z.ltb_lt (max_chars * 2) size)) by lia.
  - destruct (st_size x path_str) as [size|]; [|done].
    destruct (_ <? _)%Z; [done|]. by rewrite Hr.
Qed.

Lemma read_content_plain_text_gives_up_witness :
  _read_content Example.readers "/home/u/docs/notes.txt" 5 = Ok "".
Proof.
  apply (read_content_plain_text_gives_up Example.readers
           "/home/u/docs/notes.txt" 5).
  - reflexivity.
  - vm_compute. discriminate.
  - vm_compute. discriminate.
  - right. left. exists 11%Z. split; [reflexivity|lia].
Defined.







(** ** config.py *)

Lemma fill_key_frame py (raw raw' : gmap string Config.json) item :
  Config.fill_key py raw item = Config.Ok raw' →
  ∀ k, k ≠ item.1 → raw' !! k = raw !! k.
Proof.
  unfold Config.fill_key. intros H k Hk. revert H.
  destruct (raw !! item.1) as [v|]; [|intros [= <-]; by simplify_map_eq].
  repeat (match goal with
          | |- context [if ?b then _ else _] => destruct b
          | |- context [match ?x with _ => _ end] => destruct x
          end; try done; try (intros [= <-]; by simplify_map_eq)).
Qed.

Lemma fill_key_value py (raw raw' : gmap string Config.json) key d :
  Config.fill_key py raw (key, d) = Config.Ok raw' →
  raw' !! key
  = match raw !! key with
    | None => Some d
    | Some v =>
        if String.eqb key "folders_to_index"
        then Config.strs py <$> Config.iterate v
        else if String.eqb key "exclude_patterns"
                && match v with Config.JList _ => true | _ => false end
        then Config.strs py <$> Config.iterate v
        else if String.eqb key "max_file_size_kb"
        then Some match Config.int py v with
                  | Config.IntOk z => Config.JInt z
                  | _ => d
                  end
        else if String.eqb key "dark_mode"
        then Some (if Config.is_bool_int_str v
                   then Config.JBool (Config.truth v) else d)
        else Some v
    end.
Proof.
  unfold Config.fill_key. cbn [fst snd].
  destruct (raw !! key) as [v|] eqn:Hk; [|intros [= <-]; by simplify_map_eq].
  destruct (String.eqb key "folders_to_index").
  { destruct (Config.iterate v); [|done]. intros [= <-]. by simplify_map_eq. }
  destruct (String.eqb key "exclude_patterns" && _).
  { destruct (Config.iterate v); [|done]. intros [= <-]. by simplify_map_eq. }
  destruct (String.eqb key "max_file_size_kb").
  { destruct (Config.int py v); try done; intros [= <-]; by simplify_map_eq. }
  destruct (String.eqb key "dark_mode").
  { intros [= <-]. by simplify_map_eq. }
  by intros [= <-].
Qed.

Lemma fill_keys_frame py items (raw raw' : gmap string Config.json) :
  Config.fill_keys py raw items = Config.Ok raw' →
  ∀ k, k ∉ List.map fst items → raw' !! k = raw !! k.
Proof.
  revert raw. induction items as [|item rest IH]; intros raw; simpl.
  - by intros [= <-].
  - destruct (Config.fill_key py raw item) as [r|] eqn:Hi; [|done].
    intros Hrest k Hk. rewrite (IH _ Hrest k) by set_solver.
    apply (fill_key_frame py raw r item Hi). set_solver.
Qed.

Lemma fill_keys_app py l1 l2 (raw raw' : gmap string Config.json) :
  Config.fill_keys py raw (l1 ++ l2) = Config.Ok raw' →
  ∃ r, Config.fill_keys py raw l1 = Config.Ok r
       ∧ Config.fill_keys py r l2 = Config.Ok raw'.
Proof.
  revert raw. induction l1 as [|item l1 IH]; intros raw; simpl.
  - intros H. by exists raw.
  - destruct (Config.fill_key py raw item) as [r|]; [|done]. apply IH.
Qed.

(** The value a key of [DEFAULT_CONFIG] has after the loop: the one its
    own iteration gives it, computed from the value it had before the
    loop. *)
Lemma fill_keys_value py l1 key d l2 (raw raw' : gmap string Config.json) :
  key ∉ List.map fst l1 → key ∉ List.map fst l2 →
  Config.fill_keys py raw (l1 ++ (key, d) :: l2) = Config.Ok raw' →
  ∃ r1 r2, r1 !! key = raw !! key
           ∧ Config.fill_key py r1 (key, d) = Config.Ok r2
           ∧ raw' !! key = r2 !! key.
Proof.
  intros H1 H2 (r1 & Hl1 & Hrest)%fill_keys_app. simpl in Hrest.
  destruct (Config.fill_key py r1 (key, d)) as [r2|] eqn:Hk; [|done].
  exists r1, r2. split; [by apply (fill_keys_frame py l1 raw r1)|].
  split; [done|]. by apply (fill_keys_frame py l2 r2 raw').
Qed.

(** The dict returned by [load_config] for a dict-shaped file, key by
    key. *)
Lemma load_config_lookup py (raw cfg : gmap string Config.json) f :
  Config.load_config py (Config.Object raw) = (f, Config.Ok cfg) →
  f = Config.Object raw
  ∧ cfg !! "folders_to_index"
    = Some (Config.strs py
              match raw !! "folders_to_index" with
              | Some (Config.JList l) => l
              | _ => []
              end)
  ∧ cfg !! "log_terminal_history"
    = Some (default (Config.JBool true) (raw !! "log_terminal_history"))
  ∧ cfg !! "log_file_activity"
    = Some (default (Config.JBool true) (raw !! "log_file_activity"))
  ∧ cfg !! "exclude_patterns"
    = Some match raw !! "exclude_patterns" with
           | None =>
               Config.JList
                 [Config.JStr ".git"; Config.JStr "__pycache__";
                  Config.JStr "node_modules"; Config.JStr ".venv";
                  Config.JStr "venv"]
           | Some (Config.JList l) => Config.strs py l
           | Some v => v
           end
  ∧ cfg !! "max_file_size_kb"
    = Some match raw !! "max_file_size_kb" with
           | None => Config.JInt 512
           | Some v =>
               match Config.int py v with
               | Config.IntOk z => Config.JInt z
               | _ => Config.JInt 512
               end
           end
  ∧ cfg !! "dark_mode"
    = Some match raw !! "dark_mode" with
           | None => Config.JBool false
           | Some v =>
               if Config.is_bool_int_str v then Config.JBool (Config.truth v)
               else Config.JBool false
           end
  ∧ ∀ k,
      k ∉ List.map fst Config.DEFAULT_CONFIG → cfg !! k = raw !! k.
Proof.
  unfold Config.load_config, Config.ensure_config. intros [= <- Hrun].
  split; [done|]. revert Hrun.
  set (l0 := match raw !! "folders_to_index" with
             | Some (Config.JList l) => l
             | _ => []
             end).
  set (raw2 := match _ !! "folders_to_index" with
               | Some (Config.JList _) => _
               | _ => _
               end).
  assert (Hf : raw2 !! "folders_to_index" = Some (Config.JList l0)).
  { subst raw2 l0. destruct (raw !! "folders_to_index") as [[]|] eqn:Hk;
      by simplify_map_eq. }
  assert (Ho : ∀ k, k ≠ "folders_to_index" → raw2 !! k = raw !! k).
  { intros k Hk. subst raw2.
    destruct (raw !! "folders_to_index") as [[]|] eqn:Hk';
      by simplify_map_eq. }
  clearbody raw2 l0. intros Hrun.
  change (Config.fill_keys py raw2 Config.DEFAULT_CONFIG = Config.Ok cfg)
    in Hrun.
  assert (Hkey : ∀ l1 key d l2,
            Config.DEFAULT_CONFIG = l1 ++ (key, d) :: l2 →
            key ∉ List.map fst l1 → key ∉ List.map fst l2 →
            ∃ r1 r2, r1 !! key = raw2 !! key
                     ∧ Config.fill_key py r1 (key, d) = Config.Ok r2
                     ∧ cfg !! key = r2 !! key).
  { intros l1 key d l2 Heq H1 H2. rewrite Heq in Hrun.
    by apply (fill_keys_value py l1 key d l2 raw2 cfg). }
  repeat split.
  - destruct (Hkey [] "folders_to_index" (Config.JList [])
                (List.tl Config.DEFAULT_CONFIG) eq_refl)
      as (r1 & r2 & H1 & Hk & ->); [set_solver|cbn; set_solver|].
    rewrite (fill_key_value py r1 r2 _ _ Hk), H1, Hf. done.
  - destruct (Hkey (List.firstn 1 Config.DEFAULT_CONFIG)
                "log_terminal_history" (Config.JBool true)
                (List.skipn 2 Config.DEFAULT_CONFIG) eq_refl)
      as (r1 & r2 & H1 & Hk & ->); [cbn; set_solver|cbn; set_solver|].
    rewrite (fill_key_value py r1 r2 _ _ Hk), H1, Ho by done.
    by destruct (raw !! "log_terminal_history").
  - destruct (Hkey (List.firstn 2 Config.DEFAULT_CONFIG)
                "log_file_activity" (Config.JBool true)
                (List.skipn 3 Config.DEFAULT_CONFIG) eq_refl)
      as (r1 & r2 & H1 & Hk & ->); [cbn; set_solver|cbn; set_solver|].
    rewrite (fill_key_value py r1 r2 _ _ Hk), H1, Ho by done.
    by destruct (raw !! "log_file_activity").
  - destruct (Hkey (List.firstn 3 Config.DEFAULT_CONFIG)
                "exclude_patterns"
                (Config.JList
                   [Config.JStr ".git"; Config.JStr "__pycache__";
                    Config.JStr "node_modules"; Config.JStr ".venv";
                    Config.JStr "venv"])
                (List.skipn 4 Config.DEFAULT_CONFIG) eq_refl)
      as (r1 & r2 & H1 & Hk & ->); [cbn; set_solver|cbn; set_solver|].
    rewrite (fill_key_value py r1 r2 _ _ Hk), H1, Ho by done.
    by destruct (raw !! "exclude_patterns") as [[]|].
  - destruct (Hkey (List.firstn 4 Config.DEFAULT_CONFIG)
                "max_file_size_kb" (Config.JInt 512)
                (List.skipn 5 Config.DEFAULT_CONFIG) eq_refl)
      as (r1 & r2 & H1 & Hk & ->); [cbn; set_solver|cbn; set_solver|].
    rewrite (fill_key_value py r1 r2 _ _ Hk), H1, Ho by done.
    by destruct (raw !! "max_file_size_kb").
  - destruct (Hkey (List.firstn 5 Config.DEFAULT_CONFIG)
                "dark_mode" (Config.JBool false) [] eq_refl)
      as (r1 & r2 & H1 & Hk & ->); [cbn; set_solver|cbn; set_solver|].
    rewrite (fill_key_value py r1 r2 _ _ Hk), H1, Ho by done.
    by destruct (raw !! "dark_mode").
  - intros k Hk. rewrite (fill_keys_frame py _ raw2 cfg Hrun k Hk).
    apply Ho. intros ->. apply Hk. cbn. set_solver.
Qed.

Lemma fill_key_Raise py (raw : gmap string Config.json) key d e :
  Config.fill_key py raw (key, d) = Config.Raise e →
  ∃ v, raw !! key = Some v
       ∧ ((key = "folders_to_index" ∧ Config.iterate v = None)
          ∨ (key = "max_file_size_kb"
             ∧ Config.int py v = Config.IntOverflowError
             ∧ e = Config.OverflowError)).
Proof.
  unfold Config.fill_key. cbn [fst snd].
  destruct (raw !! key) as [v|]; [|done]. intros H. exists v. split; [done|].
  revert H. destruct (String.eqb_spec key "folders_to_index") as [->|_].
  { destruct (Config.iterate v); [done|]. intros _. by left. }
  destruct (String.eqb key "exclude_patterns" && _) eqn:Hex.
  { apply andb_true_iff in Hex as [_ Hl]. by destruct v. }
  destruct (String.eqb_spec key "max_file_size_kb") as [->|_].
  { destruct (Config.int py v); try done. intros [= <-]. by right. }
  by destruct (String.eqb key "dark_mode").
Qed.

Lemma fill_keys_Raise py items (raw : gmap string Config.json) e :
  Config.fill_keys py raw items = Config.Raise e →
  ∃ l1 item l2 r1,
    items = l1 ++ item :: l2
    ∧ Config.fill_keys py raw l1 = Config.Ok r1
    ∧ Config.fill_key py r1 item = Config.Raise e.
Proof.
  revert raw. induction items as [|item rest IH]; intros raw; simpl; [done|].
  destruct (Config.fill_key py raw item) as [r|e'] eqn:Hi.
  - intros (l1 & it & l2 & r1 & -> & Hl1 & Hit)%IH.
    exists (item :: l1), it, l2, r1. simpl. by rewrite Hi.
  - intros [= ->]. by exists [], item, rest, raw.
Qed.

(** The loop of [load_config] on a dict whose [folders_to_index] is a
    list: it raises exactly when [int] overflows on the size. *)
Lemma fill_keys_default py (raw2 : gmap string Config.json) l0 :
  raw2 !! "folders_to_index" = Some (Config.JList l0) →
  match raw2 !! "max_file_size_kb" with
  | Some v =>
      match Config.int py v with
      | Config.IntOverflowError =>
          Config.fill_keys py raw2 Config.DEFAULT_CONFIG
          = Config.Raise Config.OverflowError
      | _ => ∃ cfg, Config.fill_keys py raw2 Config.DEFAULT_CONFIG
                    = Config.Ok cfg
      end
  | None => ∃ cfg, Config.fill_keys py raw2 Config.DEFAULT_CONFIG
                   = Config.Ok cfg
  end.
Proof.
  intros Hf.
  assert (Hcases :
    (∃ cfg, Config.fill_keys py raw2 Config.DEFAULT_CONFIG = Config.Ok cfg
            ∧ ∃ r1 r2, r1 !! "max_file_size_kb" = raw2 !! "max_file_size_kb"
                ∧ Config.fill_key py r1 ("max_file_size_kb", Config.JInt 512)
                  = Config.Ok r2)
    ∨ (Config.fill_keys py raw2 Config.DEFAULT_CONFIG
       = Config.Raise Config.OverflowError
       ∧ ∃ v, raw2 !! "max_file_size_kb" = Some v
              ∧ Config.int py v = Config.IntOverflowError)).
  { destruct (Config.fill_keys py raw2 Config.DEFAULT_CONFIG) as [cfg|e]
      eqn:Hrun.
    - left. exists cfg. split; [done|].
      destruct (fill_keys_value py (List.firstn 4 Config.DEFAULT_CONFIG)
                  "max_file_size_kb" (Config.JInt 512)
                  (List.skipn 5 Config.DEFAULT_CONFIG) raw2 cfg)
        as (r1 & r2 & H1 & Hk & _); [cbn; set_solver|cbn; set_solver|done|].
      by exists r1, r2.
    - right.
      apply fill_keys_Raise in Hrun
        as (l1 & [key d] & l2 & r1 & Heq & Hl1 & Hit).
      assert (Hfr : r1 !! key = raw2 !! key).
      { apply (fill_keys_frame py l1 raw2 r1 Hl1).
        assert (Hnd : NoDup (List.map fst Config.DEFAULT_CONFIG)).
        { cbn. repeat (constructor; [set_solver|]). constructor. }
        rewrite Heq, map_app in Hnd. cbn in Hnd.
        apply NoDup_app in Hnd as (_ & Hdisj & _).
        intros Hin. apply (Hdisj key Hin). by left. }
      apply fill_key_Raise in Hit as (v & Hv & [[-> Hiter]|(-> & Hint & ->)]).
      + rewrite Hfr, Hf in Hv. by injection Hv as <-.
      + split; [done|]. exists v. by rewrite <- Hfr. }
  destruct Hcases as [(cfg & Hrun & r1 & r2 & H1 & Hk)|(Hrun & v & Hv & Hint)].
  - assert (Hex : ∃ cfg, Config.fill_keys py raw2 Config.DEFAULT_CONFIG
                         = Config.Ok cfg) by by exists cfg.
    destruct (raw2 !! "max_file_size_kb") as [v|]; [|done].
    destruct (Config.int py v) eqn:Hint; try done.
    revert Hk. unfold Config.fill_key. cbn [fst snd]. rewrite H1.
    cbn. by rewrite Hint.
  - by rewrite Hv, Hint.
Qed.

Lemma load_config_outcome
    (py : Config.Python) (raw : gmap string Config.json) :
  match raw !! "max_file_size_kb" with
  | Some v =>
      match Config.int py v with
      | Config.IntOverflowError =>
          Config.load_config py (Config.Object raw)
          = (Config.Object raw, Config.Raise Config.OverflowError)
      | _ => ∃ cfg, Config.load_config py (Config.Object raw)
                    = (Config.Object raw, Config.Ok cfg)
      end
  | None => ∃ cfg, Config.load_config py (Config.Object raw)
                   = (Config.Object raw, Config.Ok cfg)
  end.
Proof.
  unfold Config.load_config, Config.ensure_config.
  set (raw2 := match _ !! "folders_to_index" with
               | Some (Config.JList _) => _
               | _ => _
               end).
  assert (Hf : ∃ l0, raw2 !! "folders_to_index" = Some (Config.JList l0)).
  { subst raw2. destruct (raw !! "folders_to_index") as [[]|] eqn:Hk;
      eexists; by simplify_map_eq. }
  assert (Ho : raw2 !! "max_file_size_kb" = raw !! "max_file_size_kb").
  { subst raw2. destruct (raw !! "folders_to_index") as [[]|] eqn:Hk';
      by simplify_map_eq. }
  destruct Hf as [l0 Hf]. pose proof (fill_keys_default py raw2 l0 Hf) as H.
  rewrite Ho in H. clearbody raw2.
  destruct (raw !! "max_file_size_kb") as [v|];
    [destruct (Config.int py v)|];
    first [by rewrite H | destruct H as [cfg ->]; by exists cfg].
Qed.

Lemma theme_not_a_default_key :
  "theme" ∉ List.map fst Config.DEFAULT_CONFIG.
Proof.
  intros Hin. cbn in Hin.
  repeat (apply elem_of_cons in Hin as [Hin|Hin]; [discriminate Hin|]).
  by apply elem_of_nil in Hin.
Qed.

(** X25: for a [config.json] holding a dict, what [load_config] returns
    has every key of [DEFAULT_CONFIG]; [folders_to_index] is a list of
    strings, [max_file_size_kb] an integer and [dark_mode] a boolean;
    [exclude_patterns] is a list of strings unless the file holds a
    non-list there, which is passed through; every other key of the file
    is passed through, and the file is left as it is. *)
Theorem load_config_validates
    (py : Config.Python) (raw cfg : gmap string Config.json)
    (f : Config.ConfigFile) :
  Config.load_config py (Config.Object raw) = (f, Config.Ok cfg) →
  f = Config.Object raw
  ∧ (∀ key, In key (List.map fst Config.DEFAULT_CONFIG) →
            is_Some (cfg !! key))
  ∧ (∃ l, cfg !! "folders_to_index"
          = Some (Config.JList (List.map Config.JStr l)))
  ∧ (∃ z, cfg !! "max_file_size_kb" = Some (Config.JInt z))
  ∧ (∃ b, cfg !! "dark_mode" = Some (Config.JBool b))
  ∧ ((∃ l, cfg !! "exclude_patterns"
           = Some (Config.JList (List.map Config.JStr l)))
     ∨ (∃ v, raw !! "exclude_patterns" = Some v
             ∧ cfg !! "exclude_patterns" = Some v
             ∧ ∀ l, v ≠ Config.JList l))
  ∧ (∀ key v,
       key = "log_terminal_history" ∨ key = "log_file_activity"
       ∨ key ∉ List.map fst Config.DEFAULT_CONFIG →
       raw !! key = Some v → cfg !! key = Some v).
Proof.
  intros (-> & Hfo & Hlt & Hlf & Hex & Hmax & Hdark & Hother)
    %load_config_lookup.
  assert (Hstrs : ∀ l, Config.strs py l
            = Config.JList (List.map Config.JStr
                              (List.map (Config.str py) l))).
  { intros l. unfold Config.strs. by rewrite map_map. }
  split; [done|]. split; [|split; [|split; [|split; [|split]]]].
  - intros key Hin. cbn in Hin.
    destruct Hin as [<-|[<-|[<-|[<-|[<-|[<-|[]]]]]]]; by eexists.
  - eexists. by rewrite Hfo, Hstrs.
  - rewrite Hmax. destruct (raw !! "max_file_size_kb") as [v|];
      [destruct (Config.int py v)|]; by eexists.
  - rewrite Hdark. destruct (raw !! "dark_mode") as [v|];
      [destruct (Config.is_bool_int_str v)|]; by eexists.
  - rewrite Hex. destruct (raw !! "exclude_patterns") as [v|].
    + destruct v; try (right; eexists; by repeat split).
      left. eexists. by rewrite Hstrs.
    + left. by exists [".git"; "__pycache__"; "node_modules"; ".venv"; "venv"].
  - intros key v [->|[->|Hk]] Hv.
    + by rewrite Hlt, Hv.
    + by rewrite Hlf, Hv.
    + by rewrite Hother.
Qed.

Lemma load_config_validates_witness :
  Config.load_config Sample.python (Config.Object Sample.raw_config)
  = (Config.Object Sample.raw_config, Config.Ok Sample.loaded_config)
  ∧ (∃ l, Sample.loaded_config !! "folders_to_index"
          = Some (Config.JList (List.map Config.JStr l)))
  ∧ (∃ z, Sample.loaded_config !! "max_file_size_kb" = Some (Config.JInt z))
  ∧ (∃ b, Sample.loaded_config !! "dark_mode" = Some (Config.JBool b))
  ∧ Sample.loaded_config !! "exclude_patterns" = Some (Config.JStr "build")
  ∧ Sample.loaded_config !! "theme" = Some (Config.JStr "solarized").
Proof.
  assert (Hload :
    Config.load_config Sample.python (Config.Object Sample.raw_config)
    = (Config.Object Sample.raw_config, Config.Ok Sample.loaded_config))
    by reflexivity.
  destruct (load_config_validates Sample.python Sample.raw_config
              Sample.loaded_config (Config.Object Sample.raw_config) Hload)
    as (_ & _ & Hfolders & Hsize & Hdark & _ & Hother).
  split; [exact Hload|]. split; [exact Hfolders|]. split; [exact Hsize|].
  split; [exact Hdark|]. split; [reflexivity|].
  apply (Hother "theme" (Config.JStr "solarized")); [|reflexivity].
  right. right. exact theme_not_a_default_key.
Defined.

(** X26: [load_config] on a dict-shaped file raises only when
    [int(raw["max_file_size_kb"])] overflows (the value is an infinite
    float): then [OverflowError] leaves the function; in every other
    case a dict is returned. *)
Theorem load_config_raises_only_on_overflow
    (py : Config.Python) (raw : gmap string Config.json) :
  match raw !! "max_file_size_kb" with
  | Some v =>
      match Config.int py v with
      | Config.IntOverflowError =>
          Config.load_config py (Config.Object raw)
          = (Config.Object raw, Config.Raise Config.OverflowError)
      | _ => ∃ cfg, Config.load_config py (Config.Object raw)
                    = (Config.Object raw, Config.Ok cfg)
      end
  | None => ∃ cfg, Config.load_config py (Config.Object raw)
                   = (Config.Object raw, Config.Ok cfg)
  end.
Proof. apply load_config_outcome. Qed.

Lemma strs_idem py l :
  Config.strs py (List.map (λ p, Config.JStr (Config.str py p)) l)
  = Config.strs py l.
Proof. unfold Config.strs. by rewrite map_map. Qed.

(** The dict written by [save_config], key by key. *)
Lemma save_config_lookup py (cfg out : gmap string Config.json) :
  Config.save_config py cfg = Config.Ok (Config.Object out) →
  (∃ l, Config.iterate (default (Config.JList []) (cfg !! "folders_to_index"))
        = Some l
        ∧ out !! "folders_to_index" = Some (Config.strs py l))
  ∧ (∀ key d, In (key, d) Config.DEFAULT_CONFIG →
              key ≠ "folders_to_index" →
              out !! key = Some (default d (cfg !! key)))
  ∧ out !! "last_indexed_iso"
    = match cfg !! "last_indexed_iso" with
      | Some Config.JNull => None
      | o => o
      end
  ∧ ∀ key, key ∉ List.map fst Config.DEFAULT_CONFIG →
           key ≠ "last_indexed_iso" → out !! key = None.
Proof.
  unfold Config.save_config.
  destruct (Config.iterate _) as [l|] eqn:Hit; [|done].
  intros [= <-]. split; [|split; [|split]].
  - exists l. split; [done|].
    destruct (cfg !! "last_indexed_iso") as [[]|]; by simplify_map_eq.
  - intros key d Hin Hne. cbn in Hin.
    destruct Hin as [[= <- <-]|[[= <- <-]|[[= <- <-]|[[= <- <-]|
                    [[= <- <-]|[[= <- <-]|[]]]]]]]; try done;
      destruct (cfg !! "last_indexed_iso") as [[]|]; cbn; by simplify_map_eq.
  - destruct (cfg !! "last_indexed_iso") as [[]|]; cbn; by simplify_map_eq.
  - intros key Hk Hl. cbn in Hk.
    assert (key ≠ "folders_to_index" ∧ key ≠ "log_terminal_history"
            ∧ key ≠ "log_file_activity" ∧ key ≠ "exclude_patterns"
            ∧ key ≠ "max_file_size_kb" ∧ key ≠ "dark_mode")
      as (?&?&?&?&?&?) by set_solver.
    destruct (cfg !! "last_indexed_iso") as [[]|]; cbn; by simplify_map_eq.
Qed.

(** What [save_config] writes for a dict returned by [load_config], and
    that [load_config] reads it back as it is. *)
Lemma save_loaded_config py (raw cfg : gmap string Config.json) f :
  Config.load_config py (Config.Object raw) = (f, Config.Ok cfg) →
  ∃ out,
    Config.save_config py cfg = Config.Ok (Config.Object out)
    ∧ Config.load_config py (Config.Object out)
      = (Config.Object out, Config.Ok out)
    ∧ (∀ key, In key (List.map fst Config.DEFAULT_CONFIG) →
              out !! key = cfg !! key)
    ∧ out !! "last_indexed_iso"
      = match cfg !! "last_indexed_iso" with
        | Some Config.JNull => None
        | o => o
        end
    ∧ ∀ key, key ∉ List.map fst Config.DEFAULT_CONFIG →
             key ≠ "last_indexed_iso" → out !! key = None.
Proof.
  intros (-> & Hfo & Hlt & Hlf & Hex & Hmax & Hdark & Hother)
    %load_config_lookup.
  assert (Hsave : ∃ out, Config.save_config py cfg
                         = Config.Ok (Config.Object out)).
  { unfold Config.save_config. rewrite Hfo. cbn. by eexists. }
  destruct Hsave as [out Hsave]. exists out. split; [done|].
  destruct (save_config_lookup py cfg out Hsave)
    as ((l & Hl & Hofo) & Hdef & Hlast & Hnone).
  rewrite Hfo in Hl. cbn in Hl. injection Hl as <-.
  rewrite strs_idem in Hofo.
  assert (Hkeys : ∀ key, In key (List.map fst Config.DEFAULT_CONFIG) →
                         out !! key = cfg !! key).
  { intros key Hin. cbn in Hin.
    destruct Hin as [<-|[<-|[<-|[<-|[<-|[<-|[]]]]]]].
    - by rewrite Hofo, Hfo.
    - rewrite (Hdef _ (Config.JBool true)) by (cbn; tauto || done).
      by rewrite Hlt.
    - rewrite (Hdef _ (Config.JBool true)) by (cbn; tauto || done).
      by rewrite Hlf.
    - erewrite (Hdef "exclude_patterns") by (cbn; tauto || done).
      by rewrite Hex.
    - rewrite (Hdef _ (Config.JInt 512)) by (cbn; tauto || done).
      by rewrite Hmax.
    - rewrite (Hdef _ (Config.JBool false)) by (cbn; tauto || done).
      by rewrite Hdark. }
  split; [|done].
  pose proof (load_config_outcome py out) as Hret.
  rewrite (Hkeys "max_file_size_kb"), Hmax in Hret by (cbn; tauto).
  assert (Hcfg' : ∃ cfg', Config.load_config py (Config.Object out)
                          = (Config.Object out, Config.Ok cfg')).
  { destruct (raw !! "max_file_size_kb") as [v|];
      [destruct (Config.int py v)|]; exact Hret. }
  destruct Hcfg' as [cfg' Hload]. rewrite Hload. do 2 f_equal.
  apply load_config_lookup
    in Hload as (_ & Hfo' & Hlt' & Hlf' & Hex' & Hmax' & Hdark' & Hother').
  apply map_eq. intros key.
  destruct (decide (key = "folders_to_index")) as [->|?].
  { rewrite Hfo', Hofo. cbn. by rewrite strs_idem. }
  destruct (decide (key = "log_terminal_history")) as [->|?].
  { rewrite Hlt', (Hkeys "log_terminal_history"), Hlt by (cbn; tauto). done. }
  destruct (decide (key = "log_file_activity")) as [->|?].
  { rewrite Hlf', (Hkeys "log_file_activity"), Hlf by (cbn; tauto). done. }
  destruct (decide (key = "exclude_patterns")) as [->|?].
  { rewrite Hex', (Hkeys "exclude_patterns"), Hex by (cbn; tauto).
    destruct (raw !! "exclude_patterns") as [[]|]; try done.
    unfold Config.strs. by rewrite map_map. }
  destruct (decide (key = "max_file_size_kb")) as [->|?].
  { rewrite Hmax', (Hkeys "max_file_size_kb"), Hmax by (cbn; tauto).
    destruct (raw !! "max_file_size_kb") as [v|];
      [destruct (Config.int py v)|]; done. }
  destruct (decide (key = "dark_mode")) as [->|?].
  { rewrite Hdark', (Hkeys "dark_mode"), Hdark by (cbn; tauto).
    destruct (raw !! "dark_mode") as [v|];
      [destruct (Config.is_bool_int_str v)|]; done. }
  apply Hother'. cbn. set_solver.
Qed.

(** X27: what [save_config] writes for a dict returned by [load_config]
    holds the keys of [DEFAULT_CONFIG] with the values of that dict, holds
    [last_indexed_iso] when the dict has it set, and holds no other key;
    [load_config] reads it back as it is. *)
Theorem save_config_then_load_config
    (py : Config.Python) (raw cfg : gmap string Config.json)
    (f : Config.ConfigFile) :
  Config.load_config py (Config.Object raw) = (f, Config.Ok cfg) →
  ∃ out,
    Config.save_config py cfg = Config.Ok (Config.Object out)
    ∧ Config.load_config py (Config.Object out)
      = (Config.Object out, Config.Ok out)
    ∧ (∀ key, In key (List.map fst Config.DEFAULT_CONFIG) →
              out !! key = cfg !! key)
    ∧ out !! "last_indexed_iso"
      = match cfg !! "last_indexed_iso" with
        | Some Config.JNull => None
        | o => o
        end
    ∧ ∀ key, key ∉ List.map fst Config.DEFAULT_CONFIG →
             key ≠ "last_indexed_iso" → out !! key = None.
Proof. apply save_loaded_config. Qed.

Lemma save_config_then_load_config_witness :
  ∃ out,
    Config.save_config Sample.python Sample.loaded_config
    = Config.Ok (Config.Object out)
    ∧ Config.load_config Sample.python (Config.Object out)
      = (Config.Object out, Config.Ok out)
    ∧ (∀ key, In key (List.map fst Config.DEFAULT_CONFIG) →
              out !! key = Sample.loaded_config !! key)
    ∧ out !! "last_indexed_iso"
      = Some (Config.JStr "2024-03-04T09:00:00Z")
    ∧ ∀ key, key ∉ List.map fst Config.DEFAULT_CONFIG →
             key ≠ "last_indexed_iso" → out !! key = None.
Proof.
  apply (save_config_then_load_config Sample.python Sample.raw_config
           Sample.loaded_config (Config.Object Sample.raw_config)).
  reflexivity.
Defined.

(** ** gui.py *)

(** X28: the label of [_format_last_indexed] for a non-blank timestamp
    that parses: "just now" below one minute (also for a timestamp in the
    future), otherwise a count of whole minutes (1 to 59), hours (1 to
    23) or days (at least 1), never a count of 0, with the unit in the
    singular exactly when the count is 1. *)
Theorem format_last_indexed_label
    (clock : Gui.Clock) (iso_str : string) (t : Z) :
  all_space iso_str = false →
  Gui.seconds_since clock (Gui.replace_Z iso_str) = Some t →
  ((t < 60)%Z →
   Gui._format_last_indexed clock (Some iso_str) = "Index from just now")
  ∧ ((60 ≤ t)%Z →
     ∃ n unit,
       Gui._format_last_indexed clock (Some iso_str)
       = ("Index from " ++ Config.str_of_int n ++ " " ++ unit
          ++ (if (n =? 1)%Z then "" else "s") ++ " ago")%string
       ∧ (1 ≤ n)%Z
       ∧ ((unit = "minute" ∧ n = (t / 60)%Z ∧ (n ≤ 59)%Z ∧ (t < 3600)%Z)
          ∨ (unit = "hour" ∧ n = (t / 3600)%Z ∧ (n ≤ 23)%Z
             ∧ (3600 ≤ t < 86400)%Z)
          ∨ (unit = "day" ∧ n = (t / 86400)%Z ∧ (86400 ≤ t)%Z))).
Proof.
  intros Hns Ht. unfold Gui._format_last_indexed.
  assert (Hs : Py.strip iso_str ≠ "")
    by (intros Hs%strip_all_space; congruence).
  assert (Hne : iso_str ≠ "") by (intros ->; done).
  rewrite (proj2 (truthy_true _) Hs), (proj2 (truthy_true _) Hne), Ht.
  cbn [negb orb]. split.
  - intros Hlt. by rewrite (proj2 (Z.ltb_lt _ 60)) by lia.
  - intros Hge. rewrite Z.max_r by lia.
    rewrite (proj2 (Z.ltb_ge _ 60)) by lia.
    assert (Hago : ∀ n unit, Gui.ago n unit
              = ("Index from " ++ Config.str_of_int n ++ " " ++ unit
                 ++ (if (n =? 1)%Z then "" else "s") ++ " ago")%string).
    { intros n unit. unfold Gui.ago. by destruct (n =? 1)%Z. }
    destruct (Z.ltb_spec t 3600); [|destruct (Z.ltb_spec t 86400)].
    + exists (t / 60)%Z, "minute". split; [apply Hago|].
      pose proof (Z.div_le_lower_bound t 60 1).
      pose proof (Z.div_lt_upper_bound t 60 60). split; [lia|].
      left. repeat split; lia.
    + exists (t / 3600)%Z, "hour". split; [apply Hago|].
      pose proof (Z.div_le_lower_bound t 3600 1).
      pose proof (Z.div_lt_upper_bound t 3600 24). split; [lia|].
      right. left. repeat split; lia.
    + exists (t / 86400)%Z, "day". split; [apply Hago|].
      pose proof (Z.div_le_lower_bound t 86400 1). split; [lia|].
      right. right. repeat split; lia.
Qed.

Lemma format_last_indexed_label_witness :
  Gui._format_last_indexed Sample.clock (Some "2024-03-04T09:00:00Z")
  = "Index from 2 hours ago".
Proof.
  destruct (format_last_indexed_label Sample.clock "2024-03-04T09:00:00Z"
              7200) as [_ Hlabel]; [reflexivity | reflexivity |].
  destruct Hlabel
    as (n & unit & Heq & _
        & [(_ & _ & _ & Hc)|[(-> & -> & _)|(_ & _ & Hc)]]); try lia.
  rewrite Heq. reflexivity.
Defined.

(** ** gui.py: the folder list *)

Lemma str_JStr py l :
  List.map (λ p, Config.JStr (Config.str py p)) (List.map Config.JStr l)
  = List.map Config.JStr l.
Proof. rewrite map_map. done. Qed.

(** [load_config] commutes with replacing the folder list by a list of
    strings. *)
Lemma load_config_with_folders py (raw cfg : gmap string Config.json) f l :
  Config.load_config py (Config.Object raw) = (f, Config.Ok cfg) →
  Config.load_config py
    (Config.Object
       (<["folders_to_index" := Config.JList (List.map Config.JStr l)]> raw))
  = (Config.Object
       (<["folders_to_index" := Config.JList (List.map Config.JStr l)]> raw),
     Config.Ok
       (<["folders_to_index" := Config.JList (List.map Config.JStr l)]> cfg)).
Proof.
  intros Hload.
  set (raw' := <["folders_to_index" := _]> raw).
  assert (Hk : ∀ k, k ≠ "folders_to_index" → raw' !! k = raw !! k).
  { intros k Hk. subst raw'. by simplify_map_eq. }
  assert (Hex : ∃ cfg', Config.load_config py (Config.Object raw')
                        = (Config.Object raw', Config.Ok cfg')).
  { pose proof (load_config_outcome py raw') as H'.
    pose proof (load_config_outcome py raw) as H.
    rewrite Hk in H' by done.
    destruct (raw !! "max_file_size_kb") as [v|]; [|exact H'].
    destruct (Config.int py v); try exact H'.
    rewrite H in Hload. discriminate Hload. }
  destruct Hex as [cfg' Hload']. rewrite Hload'. do 2 f_equal.
  apply load_config_lookup
    in Hload as (_ & Hfo & Hlt & Hlf & Hex & Hmax & Hdark & Hother).
  apply load_config_lookup
    in Hload' as (_ & Hfo' & Hlt' & Hlf' & Hex' & Hmax' & Hdark' & Hother').
  apply map_eq. intros key.
  destruct (decide (key = "folders_to_index")) as [->|?].
  { rewrite Hfo'. subst raw'. simplify_map_eq. unfold Config.strs.
    by rewrite str_JStr. }
  rewrite lookup_insert_ne by done.
  destruct (decide (key = "log_terminal_history")) as [->|?].
  { by rewrite Hlt', Hlt, Hk. }
  destruct (decide (key = "log_file_activity")) as [->|?].
  { by rewrite Hlf', Hlf, Hk. }
  destruct (decide (key = "exclude_patterns")) as [->|?].
  { by rewrite Hex', Hex, Hk. }
  destruct (decide (key = "max_file_size_kb")) as [->|?].
  { by rewrite Hmax', Hmax, Hk. }
  destruct (decide (key = "dark_mode")) as [->|?].
  { by rewrite Hdark', Hdark, Hk. }
  rewrite Hother', Hother, Hk by (cbn; set_solver). done.
Qed.

(** Saving a loaded dict with another list of folders, and reading the
    file back as [refresh_folders_list] does. *)
Lemma store_folders py (raw cfg : gmap string Config.json) f l :
  Config.load_config py (Config.Object raw) = (f, Config.Ok cfg) →
  ∃ out,
    Config.save_config py
      (<["folders_to_index" := Config.JList (List.map Config.JStr l)]> cfg)
    = Config.Ok (Config.Object out)
    ∧ Config.load_config py (Config.Object out)
      = (Config.Object out, Config.Ok out)
    ∧ out !! "folders_to_index"
      = Some (Config.JList (List.map Config.JStr l))
    ∧ (∀ key, In key (List.map fst Config.DEFAULT_CONFIG) →
              key ≠ "folders_to_index" → out !! key = cfg !! key)
    ∧ ∀ key, key ∉ List.map fst Config.DEFAULT_CONFIG →
             key ≠ "last_indexed_iso" → out !! key = None.
Proof.
  intros Hload.
  destruct (save_loaded_config py _ _ _
              (load_config_with_folders py raw cfg f l Hload))
    as (out & Hsave & Hback & Hkeys & _ & Hnone).
  exists out. split; [done|]. split; [done|]. split; [|split; [|done]].
  - rewrite (Hkeys "folders_to_index") by (cbn; tauto). by simplify_map_eq.
  - intros key Hin Hne. rewrite (Hkeys key Hin). by simplify_map_eq.
Qed.

Lemma contains_str_In path l :
  Gui.contains_str path (List.map Config.JStr l) = true ↔ In path l.
Proof.
  unfold Gui.contains_str. rewrite existsb_exists. split.
  - intros (v & Hin & Hv). apply in_map_iff in Hin as (s & <- & Hin).
    apply String.eqb_eq in Hv. by subst.
  - intros Hin. exists (Config.JStr path). split; [by apply in_map|].
    apply String.eqb_refl.
Qed.

(** The folders of a loaded dict are strings. *)
Lemma loaded_folders py (raw cfg : gmap string Config.json) f :
  Config.load_config py (Config.Object raw) = (f, Config.Ok cfg) →
  ∃ l, cfg !! "folders_to_index"
       = Some (Config.JList (List.map Config.JStr l)).
Proof.
  intros (_ & Hfo & _)%load_config_lookup. rewrite Hfo. unfold Config.strs.
  eexists (List.map (Config.str py) _). by rewrite map_map.
Qed.

Lemma sample_folders l :
  Sample.loaded_config !! "folders_to_index"
  = Some (Config.JList (List.map Config.JStr l)) →
  l = ["/home/u/docs"; "7"].
Proof.
  change (Sample.loaded_config !! "folders_to_index")
    with (Some (Config.JList [Config.JStr "/home/u/docs"; Config.JStr "7"])).
  intros [= Hl]. destruct l as [|a [|b [|c l]]]; try discriminate Hl.
  by injection Hl as <- <-.
Qed.

(** X29: on a dict-shaped [config.json] that [load_config] accepts,
    [_add_folder] leaves the file as it is when the chosen folder is
    already in the list; otherwise it rewrites the file with the folder
    appended at the end of the list and the other settings as
    [load_config] validated them, and, [save_config] writing only the
    keys of [DEFAULT_CONFIG] and [last_indexed_iso], without any other
    key the file held. *)
Theorem add_folder_appends
    (py : Config.Python) (raw cfg : gmap string Config.json)
    (f : Config.ConfigFile) (dialog resolved : string) :
  dialog ≠ "" →
  Config.load_config py (Config.Object raw) = (f, Config.Ok cfg) →
  ∃ l,
    cfg !! "folders_to_index" = Some (Config.JList (List.map Config.JStr l))
    ∧ (In resolved l →
       Gui._add_folder py dialog resolved (Config.Object raw)
       = Config.Ok (Config.Object raw))
    ∧ (¬ In resolved l →
       ∃ out,
         Gui._add_folder py dialog resolved (Config.Object raw)
         = Config.Ok (Config.Object out)
         ∧ out !! "folders_to_index"
           = Some (Config.JList (List.map Config.JStr (l ++ [resolved])))
         ∧ (∀ key, In key (List.map fst Config.DEFAULT_CONFIG) →
                   key ≠ "folders_to_index" → out !! key = cfg !! key)
         ∧ ∀ key, key ∉ List.map fst Config.DEFAULT_CONFIG →
                  key ≠ "last_indexed_iso" → out !! key = None).
Proof.
  intros Hd Hload. destruct (loaded_folders py raw cfg f Hload) as [l Hl].
  exists l. split; [done|].
  assert (Hf : f = Config.Object raw)
    by (by apply load_config_lookup in Hload as [-> _]).
  subst f. unfold Gui._add_folder.
  rewrite (proj2 (truthy_true _) Hd), Hload. cbn [negb]. rewrite Hl.
  cbn [default from_option id Config.iterate]. split.
  - intros Hin. by rewrite (proj2 (contains_str_In resolved l) Hin).
  - intros Hnin.
    destruct (Gui.contains_str resolved (List.map Config.JStr l)) eqn:Hc.
    { by apply contains_str_In in Hc. }
    destruct (store_folders py raw cfg _ (l ++ [resolved]) Hload)
      as (out & Hsave & Hback & Hfo & Hkeys & Hnone).
    exists out. rewrite List.map_app in Hsave. cbn [List.map] in Hsave.
    rewrite Hsave, Hback. done.
Qed.

Lemma add_folder_appends_witness :
  ∃ out,
    Gui._add_folder Sample.python "/home/u/music/" "/home/u/music"
      (Config.Object Sample.raw_config)
    = Config.Ok (Config.Object out)
    ∧ out !! "folders_to_index"
      = Some (Config.JList
                [Config.JStr "/home/u/docs"; Config.JStr "7";
                 Config.JStr "/home/u/music"])
    ∧ out !! "theme" = None.
Proof.
  destruct (add_folder_appends Sample.python Sample.raw_config
              Sample.loaded_config (Config.Object Sample.raw_config)
              "/home/u/music/" "/home/u/music")
    as (l & Hl & _ & Hadd); [discriminate | reflexivity |].
  apply sample_folders in Hl as ->.
  destruct Hadd as (out & Hrun & Hfo & _ & Hnone).
  { intros [H|[H|[]]]; discriminate H. }
  exists out. split; [exact Hrun|]. split; [exact Hfo|].
  apply Hnone; [exact theme_not_a_default_key | discriminate].
Defined.

Lemma List_map_delete {A B} (g : A → B) (i : nat) (l : list A) :
  delete i (List.map g l) = List.map g (delete i l).
Proof.
  revert i. induction l as [|a l IH]; intros [|i]; cbn; try done.
  by rewrite <- IH.
Qed.

(** X30: on such a file, [_remove_folder] leaves the file as it is when
    the selected index is outside the list; otherwise it rewrites the
    file with the folder at that index taken out of the list, the other
    folders in their order. *)
Theorem remove_folder_deletes
    (py : Config.Python) (raw cfg : gmap string Config.json)
    (f : Config.ConfigFile) (idx : Z) (rest : list Z) :
  Config.load_config py (Config.Object raw) = (f, Config.Ok cfg) →
  ∃ l,
    cfg !! "folders_to_index" = Some (Config.JList (List.map Config.JStr l))
    ∧ ((idx < 0 ∨ Z.of_nat (List.length l) ≤ idx)%Z →
       Gui._remove_folder py (idx :: rest) (Config.Object raw)
       = Config.Ok (Config.Object raw))
    ∧ ((0 ≤ idx < Z.of_nat (List.length l))%Z →
       ∃ out,
         Gui._remove_folder py (idx :: rest) (Config.Object raw)
         = Config.Ok (Config.Object out)
         ∧ out !! "folders_to_index"
           = Some (Config.JList
                     (List.map Config.JStr (delete (Z.to_nat idx) l)))
         ∧ (∀ key, In key (List.map fst Config.DEFAULT_CONFIG) →
                   key ≠ "folders_to_index" → out !! key = cfg !! key)
         ∧ ∀ key, key ∉ List.map fst Config.DEFAULT_CONFIG →
                  key ≠ "last_indexed_iso" → out !! key = None).
Proof.
  intros Hload. destruct (loaded_folders py raw cfg f Hload) as [l Hl].
  exists l. split; [done|].
  assert (Hf : f = Config.Object raw)
    by (by apply load_config_lookup in Hload as [-> _]).
  subst f. unfold Gui._remove_folder.
  rewrite Hload. cbn iota. rewrite Hl. cbn [default from_option id Config.iterate].
  rewrite length_map.
  split.
  - intros Hout.
    destruct (Z.leb_spec 0 idx); [|done].
    destruct (Z.ltb_spec idx (Z.of_nat (List.length l))); [lia|done].
  - intros Hin.
    rewrite (proj2 (Z.leb_le 0 idx)), (proj2 (Z.ltb_lt idx _)) by lia.
    cbn [andb]. rewrite List_map_delete.
    destruct (store_folders py raw cfg _ (delete (Z.to_nat idx) l) Hload)
      as (out & Hsave & Hback & Hfo & Hkeys & Hnone).
    exists out. rewrite Hsave, Hback. done.
Qed.

Lemma remove_folder_deletes_witness :
  ∃ out,
    Gui._remove_folder Sample.python [0%Z] (Config.Object Sample.raw_config)
    = Config.Ok (Config.Object out)
    ∧ out !! "folders_to_index" = Some (Config.JList [Config.JStr "7"])
    ∧ out !! "theme" = None.
Proof.
  destruct (remove_folder_deletes Sample.python Sample.raw_config
              Sample.loaded_config (Config.Object Sample.raw_config) 0 [])
    as (l & Hl & _ & Hdel); [reflexivity |].
  apply sample_folders in Hl as ->.
  destruct Hdel as (out & Hrun & Hfo & _ & Hnone); [cbn; lia|].
  exists out. split; [exact Hrun|]. split; [exact Hfo|].
  apply Hnone; [exact theme_not_a_default_key | discriminate].
Defined.
